(** * The account server of the object store: request handlers and dispatch

    A shallow embedding of [swift/account/server.py] (class
    [AccountController]) together with the properties of its request
    protocol: method dispatch and replication-mode gating, timestamp
    validation, the account create / resurrect / delete state machine and
    the listing preconditions.

    Layout:
    - [Py]: the few Python string primitives the handlers rely on;
    - requests, responses and exceptions;
    - the record store behind [AccountBroker] (module [swift.common.db],
      which is not part of this source tree) and the collaborators imported
      from [swift.common.utils], [swift.common.constraints],
      [swift.account.utils] and [swift.common.db_replicator];
    - the handlers [DELETE], [PUT], [HEAD], [GET], [REPLICATE], [POST] and
      the dispatcher [__call__];
    - the properties. *)

From Stdlib Require Import ZArith QArith String Ascii List Lia Lqa.
From stdpp Require Import base option gmap strings list fin_maps pretty.

Local Close Scope Q_scope.
Local Open Scope string_scope.
Local Open Scope list_scope.

(* ===================================================================== *)
(** ** Python string primitives *)
(* ===================================================================== *)

Module Py.

(** [ord(c)] of a one-byte string. *)
Definition ord_ascii (c : ascii) : Z := Z.of_N (N_of_ascii c).

Definition is_upper (c : ascii) : bool :=
  ((65 <=? ord_ascii c) && (ord_ascii c <=? 90))%Z.

Definition lower_ascii (c : ascii) : ascii :=
  if is_upper c then ascii_of_N (N_of_ascii c + 32) else c.

(** [s.lower()] on a byte string. *)
Fixpoint lower (s : string) : string :=
  match s with
  | EmptyString => EmptyString
  | String c s' => String (lower_ascii c) (lower s')
  end.

Definition is_digit (c : ascii) : bool :=
  ((48 <=? ord_ascii c) && (ord_ascii c <=? 57))%Z.

Fixpoint all_digits (s : string) : bool :=
  match s with
  | EmptyString => true
  | String c s' => is_digit c && all_digits s'
  end.

(** [s.isdigit()]: at least one character, all of them decimal digits. *)
Definition isdigit (s : string) : bool :=
  match s with
  | EmptyString => false
  | String _ _ => all_digits s
  end.

Definition digit_value (c : ascii) : Z := (ord_ascii c - 48)%Z.

Fixpoint int_acc (acc : Z) (s : string) : Z :=
  match s with
  | EmptyString => acc
  | String c s' => int_acc (10 * acc + digit_value c)%Z s'
  end.

(** [int(s)] for a string that satisfies [isdigit]. *)
Definition int (s : string) : Z := int_acc 0 s.

(** [len(s)]. *)
Definition len (s : string) : Z := Z.of_nat (String.length s).

(** [ord(s)], evaluated by the handlers only on one-character strings. *)
Definition ord (s : string) : Z :=
  match s with
  | EmptyString => 0%Z
  | String c _ => ord_ascii c
  end.

(** Truth value of a string: the empty string is false. *)
Definition truthy (s : string) : bool :=
  match s with
  | EmptyString => false
  | String _ _ => true
  end.

(** Truth value of [None] or a string. *)
Definition truthy_opt (o : option string) : bool :=
  match o with
  | None => false
  | Some s => truthy s
  end.

(** [s.startswith(p)]. *)
Definition startswith (s p : string) : bool := String.prefix p s.

(** [a > b] on byte strings: lexicographic order on the bytes. *)
Definition str_gt (a b : string) : bool := String.ltb b a.

(** [os.path.join] on relative components. *)
Fixpoint path_join (parts : list string) : string :=
  match parts with
  | [] => ""
  | [p] => p
  | p :: rest => p +:+ "/" +:+ path_join rest
  end.

End Py.

(* ===================================================================== *)
(** ** Exceptions, requests and responses *)
(* ===================================================================== *)

(** The exceptions that the handlers raise, catch or let escape. *)
Inductive exn : Type :=
| KeyError (key : string)
| ValueError (msg : string)
| UnicodeDecodeError
| DatabaseConnectionError
| DatabaseAlreadyExists
| UnboundLocalError (var : string)
| AttributeError (msg : string).

(** The response classes of [swift.common.swob] used by the server. *)
Inductive http_status : Type :=
| HTTPOk
| HTTPCreated
| HTTPAccepted
| HTTPNoContent
| HTTPBadRequest
| HTTPForbidden
| HTTPNotFound
| HTTPMethodNotAllowed
| HTTPNotAcceptable
| HTTPConflict
| HTTPPreconditionFailed
| HTTPInternalServerError
| HTTPInsufficientStorage.

Definition status_int (s : http_status) : Z :=
  match s with
  | HTTPOk => 200
  | HTTPCreated => 201
  | HTTPAccepted => 202
  | HTTPNoContent => 204
  | HTTPBadRequest => 400
  | HTTPForbidden => 403
  | HTTPNotFound => 404
  | HTTPMethodNotAllowed => 405
  | HTTPNotAcceptable => 406
  | HTTPConflict => 409
  | HTTPPreconditionFailed => 412
  | HTTPInternalServerError => 500
  | HTTPInsufficientStorage => 507
  end%Z.

#[global] Instance http_status_eq_dec : EqDecision http_status.
Proof. solve_decision. Defined.

Record response : Type := mkResponse {
  status : http_status;
  resp_headers : list (string * string);
  resp_body : string;
  resp_content_type : option string
}.

(** A response built with a status only, as in [HTTPNotFound(request=req)]. *)
Definition plain_response (s : http_status) : response :=
  mkResponse s [] "" None.

(** A [text/plain] response with a body. *)
Definition text_response (s : http_status) (body : string) : response :=
  mkResponse s [] body (Some "text/plain").

(** A response with a body and no explicit content type. *)
Definition body_response (s : http_status) (body : string) : response :=
  mkResponse s [] body None.

Record request : Type := mkRequest {
  method : string;
  path_info : string;
  headers : list (string * string);
  params : list (string * string);
  accept : string;
  wsgi_input : string
}.

(** Header names are case-insensitive: [req.headers] normalises the key. *)
Definition header_lookup (hs : list (string * string)) (name : string)
  : option string :=
  snd <$> List.find (fun kv => String.eqb (Py.lower (fst kv)) (Py.lower name)) hs.

(** ['name' in req.headers]. *)
Definition header_in (req : request) (name : string) : bool :=
  match header_lookup (headers req) name with
  | Some _ => true
  | None => false
  end.

(** [req.headers.get(name, default)]. *)
Definition header_get (req : request) (name default : string) : string :=
  match header_lookup (headers req) name with
  | Some v => v
  | None => default
  end.

(** [req.headers[name]]: raises [KeyError] when the header is absent. *)
Definition header_getitem (req : request) (name : string) : exn + string :=
  match header_lookup (headers req) name with
  | Some v => inr v
  | None => inl (KeyError name)
  end.

(** [req.params.get(name, default)]. *)
Definition param_lookup (req : request) (name : string) : option string :=
  snd <$> List.find (fun kv => String.eqb (fst kv) name) (params req).

(* ===================================================================== *)
(** ** The record store *)
(* ===================================================================== *)

(** The explicit status marker of an account record. *)
Inductive account_status : Type :=
| Active
| Deleted.

#[global] Instance account_status_eq_dec : EqDecision account_status.
Proof. solve_decision. Defined.

(** A container entry of an account's listing. *)
Record container_entry : Type := mkContainer {
  c_put_timestamp : string;
  c_delete_timestamp : string;
  c_object_count : string;
  c_bytes_used : string
}.

(** An account record. Timestamps are kept as the strings the handlers
    hand over; [delete_timestamp] is [None] until a deletion is recorded. *)
Record account_record : Type := mkAccount {
  created_at : string;
  put_timestamp : string;
  delete_timestamp : option string;
  status_marker : account_status;
  metadata : gmap string (string * string);
  containers : gmap string container_entry
}.

(** The operations of the record accessor, for the access log. *)
Inductive broker_call : Type :=
| call_is_deleted
| call_is_status_deleted
| call_initialize
| call_update_put_timestamp
| call_delete_db
| call_put_container
| call_update_metadata
| call_get_info
| call_metadata
| call_listing
| call_replicate.

(** The state shared by all requests: the database files of the node, by
    path, and the log of the accessor calls made so far (most recent
    first). The log is ghost state: no handler reads it. *)
Record world : Type := mkWorld {
  dbs : gmap string account_record;
  accesses : list (string * broker_call)
}.

(** The handle returned by [_get_account_broker]. *)
Record AccountBroker : Type := mkBroker {
  db_file : string;
  account : string;
  pending_timeout : option Q;
  stale_reads_ok : bool
}.

(** The controller object built by [__init__]. *)
Record AccountController : Type := mkController {
  root : string;
  mount_check : bool;
  replication_server : option bool;
  auto_create_account_prefix : string
}.

(* ===================================================================== *)
(** ** Collaborators *)
(* ===================================================================== *)

(** What the server imports from the rest of the code base and from the
    standard library; none of it is defined in [server.py]. Each field is
    the function or constant of the same name. [split_path] returns
    [inl msg] for [ValueError(msg)], as do [validate_device_partition]
    ([Some msg]) and [json_load]; [normalize_timestamp] returns [inl e]
    when [float()] rejects its argument, [get_param] returns [inl e] when
    the value is not UTF-8. [time_time] is the reading of the clock.
    [timestamp_value] is not called by the server: it is the real number a
    timestamp string denotes, by which the record accessor orders
    timestamps. *)
Class Collaborators : Type := {
  ACCOUNT_LISTING_LIMIT : Z;
  FORMAT2CONTENT_TYPE : list (string * string);
  check_utf8 : string -> bool;
  check_float : string -> bool;
  check_mount : string -> string -> bool;
  config_true_value : string -> bool;
  normalize_timestamp : string -> exn + string;
  timestamp_value : string -> Q;
  time_time : string;
  hash_path : string -> string;
  storage_directory : string -> string -> string -> string;
  split_path : string -> nat -> nat -> string + list (option string);
  validate_device_partition : string -> string -> option string;
  get_param : request -> string -> option string -> exn + option string;
  best_match : string -> list string -> option string;
  account_listing_content_type : request -> string * option response;
  account_listing_response :
    string -> request -> string -> account_record -> Z -> option string ->
    option string -> option string -> option string -> response;
  json_load : string -> string + string;
  replicator_rpc_dispatch :
    list string -> string -> gmap string account_record ->
    response * gmap string account_record;
  format_exc : exn -> string
}.

(* ===================================================================== *)
(** ** Computations over the store *)
(* ===================================================================== *)

(** A computation reads and updates the world and either returns a value
    or raises; the updates made before a [raise] persist. *)
Definition M (A : Type) : Type := world -> (exn + A) * world.

#[global] Instance M_ret : MRet M := fun A (a : A) w => (inr a, w).

#[global] Instance M_bind : MBind M := fun A B (f : A -> M B) (m : M A) w =>
  match m w with
  | (inl e, w') => (inl e, w')
  | (inr a, w') => f a w'
  end.

(** Pure steps that may raise. *)
#[global] Instance result_ret : MRet (sum exn) := fun A (a : A) => inr a.

#[global] Instance result_bind : MBind (sum exn) :=
  fun A B (f : A -> exn + B) (m : exn + A) =>
    match m with
    | inl e => inl e
    | inr a => f a
    end.

Definition raise {A : Type} (e : exn) : M A := fun w => (inl e, w).

(** Lift a pure, possibly failing, step. *)
Definition lift {A : Type} (r : exn + A) : M A := fun w => (r, w).

(** [try: body except: handler]; [handler e = None] re-raises. *)
Definition try_except {A : Type} (body : M A) (handler : exn -> option (M A))
  : M A := fun w =>
  match body w with
  | (inl e, w') =>
      match handler e with
      | Some h => h w'
      | None => (inl e, w')
      end
  | (inr a, w') => (inr a, w')
  end.

(** The world after one more accessor call on [b]. *)
Definition logged (b : AccountBroker) (c : broker_call) (w : world) : world :=
  mkWorld (dbs w) ((db_file b, c) :: accesses w).

(** Record an accessor call in the log. *)
Definition log_access (b : AccountBroker) (c : broker_call) : M unit :=
  fun w => (inr tt, logged b c w).

(** The record behind a handle, if its database file exists. *)
Definition stored (b : AccountBroker) (w : world) : option account_record :=
  dbs w !! db_file b.

(** [os.path.exists(broker.db_file)]; a file-system test, not an accessor
    call. *)
Definition db_file_exists (b : AccountBroker) : M bool :=
  fun w => (inr (bool_decide (is_Some (stored b w))), w).

(** Read the record behind a handle without going through the accessor. *)
Definition get_stored (b : AccountBroker) : M (option account_record) :=
  fun w => (inr (stored b w), w).

(** The world after the record behind [b] is replaced by [r]. *)
Definition written (b : AccountBroker) (r : account_record) (w : world)
  : world :=
  mkWorld (<[db_file b := r]> (dbs w)) (accesses w).

(** Replace the record behind a handle. *)
Definition store (b : AccountBroker) (r : account_record) : M unit :=
  fun w => (inr tt, written b r w).

(* ===================================================================== *)
(** ** The record accessor *)
(* ===================================================================== *)

(** The summary returned by [get_info]. *)
Record account_info : Type := mkInfo {
  info_container_count : Z;
  info_object_count : Z;
  info_bytes_used : Z;
  info_created_at : string;
  info_put_timestamp : string
}.

Section Broker.
Context `{Collaborators}.

(** Modelled from the spec: the order on timestamps, which is missing
    with [swift.common.db]. "Timestamps are totally ordered values
    comparable as real numbers even though transmitted as fixed-format
    strings": [newer a b] holds when [a] denotes a strictly larger number
    than [b]. *)
Definition newer (a b : string) : bool :=
  negb (Qle_bool (timestamp_value a) (timestamp_value b)).

(** Modelled from the spec: the later of two timestamps, keeping the
    stored one on a tie ("no field is overwritten by an equal-or-older
    timestamp"). *)
Definition later (stored_ts given : string) : string :=
  if newer given stored_ts then given else stored_ts.

(** Modelled from the spec: the deletion test of the missing
    [AccountBroker]. "An Account is Deleted iff [delete_timestamp >
    put_timestamp]." *)
Definition record_deleted (r : account_record) : bool :=
  match delete_timestamp r with
  | None => false
  | Some d => newer d (put_timestamp r)
  end.

(** Modelled from the spec: a container "is considered deleted from the
    account's perspective when [delete_timestamp > put_timestamp]". *)
Definition container_deleted (c : container_entry) : bool :=
  newer (c_delete_timestamp c) (c_put_timestamp c).

(** The record behind the handle; a handle without a database raises
    [DatabaseConnectionError] ("Account does not exist!" in
    [_deleted_response]). *)
Definition require_stored (b : AccountBroker) : M account_record :=
  o ← get_stored b;
  match o with
  | Some r => mret r
  | None => raise DatabaseConnectionError
  end.

(** Modelled from the spec: [AccountBroker.is_deleted], missing with
    [swift.common.db]. True when the account "does not exist or it
    exists but marked for deletion"; an existing record is deleted iff
    [delete_timestamp > put_timestamp]. *)
Definition is_deleted (b : AccountBroker) : M bool :=
  _ ← log_access b call_is_deleted;
  o ← get_stored b;
  match o with
  | None => mret true
  | Some r => mret (record_deleted r)
  end.

(** Modelled from the spec: [AccountBroker.is_status_deleted], missing
    with [swift.common.db]. True when the record carries the explicit
    "recently deleted" marker; raises [DatabaseConnectionError] when the
    account does not exist. *)
Definition is_status_deleted (b : AccountBroker) : M bool :=
  _ ← log_access b call_is_status_deleted;
  r ← require_stored b;
  mret (bool_decide (status_marker r = Deleted)).

(** Modelled from the spec: [AccountBroker.initialize], missing with
    [swift.common.db]. "Initializing a brand-new record at a given
    timestamp"; on an existing database it raises
    [DatabaseAlreadyExists]. *)
Definition initialize (b : AccountBroker) (timestamp : string) : M unit :=
  _ ← log_access b call_initialize;
  e ← db_file_exists b;
  if (e : bool) then raise DatabaseAlreadyExists
  else store b (mkAccount timestamp timestamp None Active ∅ ∅).

(** Modelled from the spec: the effect of [update_put_timestamp] on a
    record. "Advance [put_timestamp] to the max of current and given
    (never regress)." *)
Definition advanced (timestamp : string) (r : account_record)
  : account_record :=
  mkAccount (created_at r) (later (put_timestamp r) timestamp)
    (delete_timestamp r) (status_marker r) (metadata r) (containers r).

(** Modelled from the spec: [AccountBroker.update_put_timestamp], missing
    with [swift.common.db]: "updating the put timestamp monotonically". *)
Definition update_put_timestamp (b : AccountBroker) (timestamp : string)
  : M unit :=
  _ ← log_access b call_update_put_timestamp;
  r ← require_stored b;
  store b (advanced timestamp r).

(** Modelled from the spec: the effect of a deletion on a record.
    "Tombstone at the given timestamp", under the rule that "no field is
    overwritten by an equal-or-older timestamp": a deletion that is newer
    than the recorded one sets [delete_timestamp] and the status marker,
    an equal or older one changes nothing. *)
Definition tombstone (timestamp : string) (r : account_record)
  : account_record :=
  let write :=
    match delete_timestamp r with
    | None => true
    | Some d => newer timestamp d
    end in
  if write then
    mkAccount (created_at r) (put_timestamp r) (Some timestamp) Deleted
      (metadata r) (containers r)
  else r.

(** Modelled from the spec: [AccountBroker.delete_db], missing with
    [swift.common.db]: "deleting (tombstoning) at a given timestamp". *)
Definition delete_db (b : AccountBroker) (timestamp : string) : M unit :=
  _ ← log_access b call_delete_db;
  r ← require_stored b;
  store b (tombstone timestamp r).

(** Modelled from the spec: the row-level merge of a container entry,
    "per-field LWW at the row level". *)
Definition merge_container (old new : container_entry) : container_entry :=
  let fresher := newer (c_put_timestamp new) (c_put_timestamp old) in
  mkContainer
    (later (c_put_timestamp old) (c_put_timestamp new))
    (later (c_delete_timestamp old) (c_delete_timestamp new))
    (if fresher then c_object_count new else c_object_count old)
    (if fresher then c_bytes_used new else c_bytes_used old).

(** Modelled from the spec: the effect of [put_container] on a record:
    the entry is inserted, or merged with the one of the same name. *)
Definition upserted (name put_ts delete_ts object_count bytes_used : string)
    (r : account_record) : account_record :=
  let new := mkContainer put_ts delete_ts object_count bytes_used in
  let entry :=
    match containers r !! name with
    | Some old => merge_container old new
    | None => new
    end in
  mkAccount (created_at r) (put_timestamp r) (delete_timestamp r)
    (status_marker r) (metadata r) (<[name := entry]> (containers r)).

(** Modelled from the spec: [AccountBroker.put_container], missing with
    [swift.common.db]: "upserting a container entry". *)
Definition put_container (b : AccountBroker)
    (name put_ts delete_ts object_count bytes_used : string) : M unit :=
  _ ← log_access b call_put_container;
  r ← require_stored b;
  store b (upserted name put_ts delete_ts object_count bytes_used r).

(** Modelled from the spec: the merge of one metadata item, "which keeps,
    per key, whichever timestamp is newer". *)
Definition merge_metadata_item (md : gmap string (string * string))
    (item : string * (string * string)) : gmap string (string * string) :=
  match md !! item.1 with
  | Some old =>
      if newer (item.2).2 old.2 then <[item.1 := item.2]> md else md
  | None => <[item.1 := item.2]> md
  end.

(** Modelled from the spec: the effect of [update_metadata] on a record:
    the items are merged one by one. *)
Definition with_metadata (items : list (string * (string * string)))
    (r : account_record) : account_record :=
  mkAccount (created_at r) (put_timestamp r) (delete_timestamp r)
    (status_marker r) (foldl merge_metadata_item (metadata r) items)
    (containers r).

(** Modelled from the spec: [AccountBroker.update_metadata], missing with
    [swift.common.db]: "merging metadata". *)
Definition update_metadata (b : AccountBroker)
    (items : list (string * (string * string))) : M unit :=
  _ ← log_access b call_update_metadata;
  r ← require_stored b;
  store b (with_metadata items r).

(** The counters are "maintained by the external broker from container
    events": they are read off the live container entries. *)
Definition live_count (r : account_record) : Z :=
  map_fold (fun _ c acc => if container_deleted c then acc else (acc + 1)%Z)
    0%Z (containers r).

Definition live_sum (f : container_entry -> string) (r : account_record)
  : Z :=
  map_fold
    (fun _ c acc => if container_deleted c then acc else (acc + Py.int (f c))%Z)
    0%Z (containers r).

(** Modelled from the spec: [AccountBroker.get_info], missing with
    [swift.common.db]: "a read-only info snapshot". *)
Definition get_info (b : AccountBroker) : M account_info :=
  _ ← log_access b call_get_info;
  r ← require_stored b;
  mret (mkInfo (live_count r) (live_sum c_object_count r)
          (live_sum c_bytes_used r) (created_at r) (put_timestamp r)).

(** Modelled from the spec: the [metadata] property of the missing
    [AccountBroker]: "the metadata mapping". *)
Definition broker_metadata (b : AccountBroker)
  : M (list (string * (string * string))) :=
  _ ← log_access b call_metadata;
  r ← require_stored b;
  mret (map_to_list (metadata r)).

(** The listing of [swift.account.utils], run against the stored
    record. *)
Definition listing_response (b : AccountBroker) (req : request)
    (out_content_type : string) (limit : Z)
    (marker end_marker prefix delimiter : option string) : M response :=
  _ ← log_access b call_listing;
  r ← require_stored b;
  mret (account_listing_response (account b) req out_content_type r limit
          marker end_marker prefix delimiter).

(** [ReplicatorRpc.dispatch]: the replication engine works on the
    database files directly. *)
Definition rpc_dispatch (post_args : list string) (args : string)
  : M response :=
  fun w =>
    let '(resp, dbs') := replicator_rpc_dispatch post_args args (dbs w) in
    (inr resp, mkWorld dbs' ((Py.path_join post_args, call_replicate)
                               :: accesses w)).

End Broker.

(* ===================================================================== *)
(** ** The controller *)
(* ===================================================================== *)

Definition DATADIR : string := "accounts".

Section Server.
Context `{Collaborators}.

Definition conf_get (conf : list (string * string)) (key : string)
  : option string :=
  snd <$> List.find (fun kv => String.eqb (fst kv) key) conf.

(** [AccountController.__init__]; the logger and the replication engine
    are collaborators, and the preallocation flag it sets in
    [swift.common.db] does not reach the handlers. *)
Definition __init__ (conf : list (string * string)) : AccountController :=
  let replication_server :=
    match conf_get conf "replication_server" with
    | None => None
    | Some v => Some (config_true_value v)
    end in
  mkController
    (default "/srv/node" (conf_get conf "devices"))
    (config_true_value (default "true" (conf_get conf "mount_check")))
    replication_server
    (match conf_get conf "auto_create_account_prefix" with
     | Some p => if Py.truthy p then p else "."
     | None => "."
     end).

Definition _get_account_broker (self : AccountController)
    (drive part account : string) : AccountBroker :=
  let hsh := hash_path account in
  let db_dir := storage_directory DATADIR part hsh in
  let db_path := Py.path_join [root self; drive; db_dir; (hsh +:+ ".db")] in
  mkBroker db_path account None false.

Definition set_pending_timeout (b : AccountBroker) (t : Q) : AccountBroker :=
  mkBroker (db_file b) (account b) (Some t) (stale_reads_ok b).

Definition set_stale_reads_ok (b : AccountBroker) (v : bool) : AccountBroker :=
  mkBroker (db_file b) (account b) (pending_timeout b) v.

(** [resp(request=req, headers=headers, charset='utf-8', body=body)]. *)
Definition _deleted_response (broker : AccountBroker) (req : request)
    (resp : http_status) (body : string) : M response :=
  hdrs ← try_except
    (marked ← is_status_deleted broker;
     if (marked : bool)
     then mret [("X-Account-Status", "Deleted")]
     else mret [])
    (fun e =>
       match e with
       | DatabaseConnectionError => Some (mret [])
       | _ => None
       end);
  mret (mkResponse resp hdrs body None).

(** [drive, part, account = req.split_path(3)] followed by
    [validate_device_partition(drive, part)]; [inl msg] stands for the
    [ValueError] that the enclosing [try] turns into a 400. *)
Definition split_and_validate (req : request)
  : string + (string * string * string) :=
  match split_path (path_info req) 3 3 with
  | inl msg => inl msg
  | inr [Some drive; Some part; Some account] =>
      match validate_device_partition drive part with
      | Some msg => inl msg
      | None => inr (drive, part, account)
      end
  | inr _ => inl "need more than 2 values to unpack"
  end.

Definition insufficient_storage (self : AccountController) (drive : string)
  : bool :=
  mount_check self && negb (check_mount (root self) drive).

(** The [X-Account-Meta-] headers of a request, stamped. *)
Definition request_metadata (req : request) (timestamp : string)
  : list (string * (string * string)) :=
  List.map (fun kv => (fst kv, (snd kv, timestamp)))
    (List.filter
       (fun kv => Py.startswith (Py.lower (fst kv)) "x-account-meta-")
       (headers req)).

Definition nonempty {A : Type} (l : list A) : bool :=
  match l with
  | [] => false
  | _ :: _ => true
  end.

(* ------------------------------------------------------------------- *)
(** *** DELETE *)

Definition DELETE (self : AccountController) (req : request) : M response :=
  match split_and_validate req with
  | inl err => mret (text_response HTTPBadRequest err)
  | inr (drive, part, account) =>
      if insufficient_storage self drive
      then mret (plain_response HTTPInsufficientStorage)
      else if negb (header_in req "x-timestamp")
              || negb (check_float (header_get req "x-timestamp" ""))
      then mret (text_response HTTPBadRequest "Missing timestamp")
      else
        let broker := _get_account_broker self drive part account in
        deleted ← is_deleted broker;
        if (deleted : bool)
        then _deleted_response broker req HTTPNotFound ""
        else
          timestamp ← lift (header_getitem req "x-timestamp");
          _ ← delete_db broker timestamp;
          _deleted_response broker req HTTPNoContent ""
  end.

(* ------------------------------------------------------------------- *)
(** *** PUT *)

(** Lines 121-127: the lazy creation of auto-create accounts. *)
Definition PUT_auto_create (self : AccountController) (req : request)
    (broker : AccountBroker) (account : string) : M unit :=
  if Py.startswith account (auto_create_account_prefix self) then
    present ← db_file_exists broker;
    if (present : bool) then mret tt
    else
      try_except
        (let given := header_lookup (headers req) "x-timestamp" in
         timestamp ← lift (normalize_timestamp
                             (if Py.truthy_opt given
                              then default "" given
                              else time_time));
         initialize broker timestamp)
        (fun e =>
           match e with
           | DatabaseAlreadyExists => Some (mret tt)
           | _ => None
           end)
  else mret tt.

(** Lines 128-130: the tombstone guard; [true] means the request is
    answered with 404. *)
Definition PUT_account_gone (req : request) (broker : AccountBroker)
  : M bool :=
  if negb (String.eqb
             (Py.lower (header_get req "x-account-override-deleted" "no"))
             "yes")
  then is_deleted broker
  else mret false.

(** Lines 131-139: the container upsert and the shape of the answer. *)
Definition PUT_container_upsert (req : request) (broker : AccountBroker)
    (container : string) : M response :=
  put_ts ← lift (header_getitem req "x-put-timestamp");
  delete_ts ← lift (header_getitem req "x-delete-timestamp");
  object_count ← lift (header_getitem req "x-object-count");
  bytes_used ← lift (header_getitem req "x-bytes-used");
  _ ← put_container broker container put_ts delete_ts object_count
        bytes_used;
  if Py.str_gt delete_ts put_ts
  then mret (plain_response HTTPNoContent)
  else mret (plain_response HTTPCreated).

Definition PUT_container (self : AccountController) (req : request)
    (broker : AccountBroker) (account container : string) : M response :=
  let broker :=
    if header_in req "x-trans-id"
    then set_pending_timeout broker 3%Q
    else broker in
  _ ← PUT_auto_create self req broker account;
  gone ← PUT_account_gone req broker;
  if (gone : bool)
  then mret (plain_response HTTPNotFound)
  else PUT_container_upsert req broker container.

(** Lines 142-155. [inl resp] is an early [return resp]; [inr created]
    carries the local variable [created], [None] while it is unbound. *)
Definition PUT_account_create (req : request) (broker : AccountBroker)
    (timestamp : string) : M (response + option bool) :=
  present ← db_file_exists broker;
  if negb present then
    try_except
      (_ ← initialize broker timestamp;
       mret (inr (Some true)))
      (fun e =>
         match e with
         | DatabaseAlreadyExists => Some (mret (inr None))
         | _ => None
         end)
  else
    marked ← is_status_deleted broker;
    if (marked : bool) then
      resp ← _deleted_response broker req HTTPForbidden "Recently deleted";
      mret (inl resp)
    else
      created ← is_deleted broker;
      _ ← update_put_timestamp broker timestamp;
      still_deleted ← is_deleted broker;
      if (still_deleted : bool)
      then mret (inl (plain_response HTTPConflict))
      else mret (inr (Some created)).

Definition PUT_account (req : request) (broker : AccountBroker)
  : M response :=
  given ← lift (header_getitem req "x-timestamp");
  timestamp ← lift (normalize_timestamp given);
  outcome ← PUT_account_create req broker timestamp;
  match outcome with
  | inl resp => mret resp
  | inr created =>
      let metadata := request_metadata req timestamp in
      _ ← (if nonempty metadata
           then update_metadata broker metadata
           else mret tt);
      match created with
      | None => raise (UnboundLocalError "created")
      | Some true => mret (plain_response HTTPCreated)
      | Some false => mret (plain_response HTTPAccepted)
      end
  end.

Definition PUT (self : AccountController) (req : request) : M response :=
  let parsed :=
    match split_path (path_info req) 3 4 with
    | inl msg => inl msg
    | inr [Some drive; Some part; Some account; container] =>
        match validate_device_partition drive part with
        | Some msg => inl msg
        | None => inr (drive, part, account, container)
        end
    | inr _ => inl "need more than 3 values to unpack"
    end in
  match parsed with
  | inl err => mret (text_response HTTPBadRequest err)
  | inr (drive, part, account, container) =>
      if insufficient_storage self drive
      then mret (plain_response HTTPInsufficientStorage)
      else
        let broker := _get_account_broker self drive part account in
        if Py.truthy_opt container
        then PUT_container self req broker account (default "" container)
        else PUT_account req broker
  end.

(* ------------------------------------------------------------------- *)
(** *** HEAD *)

Definition offered_types : list string :=
  ["text/plain"; "application/json"; "application/xml"; "text/xml"].

(** [FORMAT2CONTENT_TYPE.get(query_format.lower(),
    FORMAT2CONTENT_TYPE['plain'])]. *)
Definition format_override (query_format : string) : exn + string :=
  match conf_get FORMAT2CONTENT_TYPE "plain" with
  | None => inl (KeyError "plain")
  | Some plain =>
      inr (default plain (conf_get FORMAT2CONTENT_TYPE (Py.lower query_format)))
  end.

Definition HEAD (self : AccountController) (req : request) : M response :=
  match split_and_validate req with
  | inl err => mret (text_response HTTPBadRequest err)
  | inr (drive, part, account) =>
      match get_param req "format" None with
      | inl UnicodeDecodeError =>
          mret (text_response HTTPBadRequest "parameters not utf8")
      | inl e => raise e
      | inr query_format =>
          req_accept ← lift (if Py.truthy_opt query_format
                              then format_override (default "" query_format)
                              else inr (accept req));
          let out_content_type := best_match req_accept offered_types in
          if negb (Py.truthy_opt out_content_type)
          then mret (plain_response HTTPNotAcceptable)
          else if insufficient_storage self drive
          then mret (plain_response HTTPInsufficientStorage)
          else
            let broker := _get_account_broker self drive part account in
            let broker := set_pending_timeout broker (1 # 10)%Q in
            let broker := set_stale_reads_ok broker true in
            deleted ← is_deleted broker;
            if (deleted : bool)
            then _deleted_response broker req HTTPNotFound ""
            else
              info ← get_info broker;
              md ← broker_metadata broker;
              let hdrs :=
                [("X-Account-Container-Count",
                  pretty (info_container_count info));
                 ("X-Account-Object-Count", pretty (info_object_count info));
                 ("X-Account-Bytes-Used", pretty (info_bytes_used info));
                 ("X-Timestamp", info_created_at info);
                 ("X-PUT-Timestamp", info_put_timestamp info)]
                ++ List.map (fun kv => (fst kv, fst (snd kv)))
                     (List.filter (fun kv => Py.truthy (fst (snd kv))) md)
                ++ [("Content-Type", default "" out_content_type)] in
              mret (mkResponse HTTPNoContent hdrs "" None)
      end
  end.

(* ------------------------------------------------------------------- *)
(** *** GET *)

(** Lines 238-251: content negotiation, mount check and the listing
    itself, once the query parameters are accepted. *)
Definition GET_listing (self : AccountController) (req : request)
    (drive part account : string) (limit : Z)
    (marker end_marker prefix delimiter : option string) : M response :=
  let '(out_content_type, error) := account_listing_content_type req in
  match error with
  | Some resp => mret resp
  | None =>
      if insufficient_storage self drive
      then mret (plain_response HTTPInsufficientStorage)
      else
        let broker := _get_account_broker self drive part account in
        let broker := set_pending_timeout broker (1 # 10)%Q in
        let broker := set_stale_reads_ok broker true in
        deleted ← is_deleted broker;
        if (deleted : bool)
        then _deleted_response broker req HTTPNotFound ""
        else listing_response broker req out_content_type limit marker
               end_marker prefix delimiter
  end.

(** Lines 225-232: [inl resp] is the early 412, [inr limit] the limit the
    listing will use. *)
Definition GET_limit (given_limit : option string) : response + Z :=
  let limit := ACCOUNT_LISTING_LIMIT in
  if Py.truthy_opt given_limit && Py.isdigit (default "" given_limit) then
    let limit := Py.int (default "" given_limit) in
    if (limit >? ACCOUNT_LISTING_LIMIT)%Z
    then inl (body_response HTTPPreconditionFailed
                ("Maximum limit is " +:+ pretty ACCOUNT_LISTING_LIMIT))
    else inr limit
  else inr limit.

(** Line 222: the delimiter test. *)
Definition bad_delimiter (delimiter : option string) : bool :=
  Py.truthy_opt delimiter
  && ((Py.len (default "" delimiter) >? 1)%Z
      || (Py.ord (default "" delimiter) >? 254)%Z).

(** Lines 219-237: the query parameters; [inl resp] is an early return
    (412, or 400 on [UnicodeDecodeError]). *)
Definition GET_params (req : request)
  : exn + (response + (option string * option string * Z
                       * option string * option string)) :=
  let utf8 (r : exn + (response + _)) :=
    match r with
    | inl UnicodeDecodeError =>
        inr (inl (text_response HTTPBadRequest "parameters not utf8"))
    | other => other
    end in
  utf8 (
    prefix ← get_param req "prefix" None;
    delimiter ← get_param req "delimiter" None;
    if bad_delimiter delimiter
    then inr (inl (body_response HTTPPreconditionFailed "Bad delimiter"))
    else
      given_limit ← get_param req "limit" None;
      match GET_limit given_limit with
      | inl resp => inr (inl resp)
      | inr limit =>
          marker ← get_param req "marker" (Some "");
          end_marker ← get_param req "end_marker" None;
          inr (inr (prefix, delimiter, limit, marker, end_marker))
      end).

Definition GET (self : AccountController) (req : request) : M response :=
  match split_and_validate req with
  | inl err => mret (text_response HTTPBadRequest err)
  | inr (drive, part, account) =>
      accepted ← lift (GET_params req);
      match accepted with
      | inl resp => mret resp
      | inr (prefix, delimiter, limit, marker, end_marker) =>
          GET_listing self req drive part account limit marker end_marker
            prefix delimiter
      end
  end.

(* ------------------------------------------------------------------- *)
(** *** REPLICATE *)

Definition REPLICATE (self : AccountController) (req : request)
  : M response :=
  match split_and_validate req with
  | inl err => mret (text_response HTTPBadRequest err)
  | inr (drive, partition, hash) =>
      let post_args := [drive; partition; hash] in
      if insufficient_storage self drive
      then mret (plain_response HTTPInsufficientStorage)
      else
        match json_load (wsgi_input req) with
        | inl err => mret (text_response HTTPBadRequest err)
        | inr args => rpc_dispatch post_args args
        end
  end.

(* ------------------------------------------------------------------- *)
(** *** POST *)

Definition POST (self : AccountController) (req : request) : M response :=
  match split_and_validate req with
  | inl err => mret (text_response HTTPBadRequest err)
  | inr (drive, part, account) =>
      if negb (header_in req "x-timestamp")
         || negb (check_float (header_get req "x-timestamp" ""))
      then mret (text_response HTTPBadRequest "Missing or bad timestamp")
      else if insufficient_storage self drive
      then mret (plain_response HTTPInsufficientStorage)
      else
        let broker := _get_account_broker self drive part account in
        deleted ← is_deleted broker;
        if (deleted : bool)
        then _deleted_response broker req HTTPNotFound ""
        else
          given ← lift (header_getitem req "x-timestamp");
          timestamp ← lift (normalize_timestamp given);
          let metadata := request_metadata req timestamp in
          _ ← (if nonempty metadata
               then update_metadata broker metadata
               else mret tt);
          mret (plain_response HTTPNoContent)
  end.

(* ------------------------------------------------------------------- *)
(** *** Dispatch *)

(** The verb handlers of the class. *)
Inductive handler : Type :=
| H_DELETE
| H_PUT
| H_HEAD
| H_GET
| H_REPLICATE
| H_POST.

(** What [getattr(self, name)] can return: one of the verb handlers, or
    an attribute that is not one (the private methods and the instance
    fields). *)
Inductive attribute : Type :=
| Method (h : handler)
| Private.

Definition private_attributes : list string :=
  ["__init__"; "_get_account_broker"; "_deleted_response"; "__call__";
   "logger"; "root"; "mount_check"; "replication_server";
   "replicator_rpc"; "auto_create_account_prefix"].

(** [getattr(self, req.method)]; [None] is [AttributeError]. Attribute
    names are case-sensitive. *)
Definition getattr_self (name : string) : option attribute :=
  if String.eqb name "DELETE" then Some (Method H_DELETE)
  else if String.eqb name "PUT" then Some (Method H_PUT)
  else if String.eqb name "HEAD" then Some (Method H_HEAD)
  else if String.eqb name "GET" then Some (Method H_GET)
  else if String.eqb name "REPLICATE" then Some (Method H_REPLICATE)
  else if String.eqb name "POST" then Some (Method H_POST)
  else if existsb (String.eqb name) private_attributes then Some Private
  else None.

(** The attribute set by the [@public] decorator. *)
Definition publicly_accessible (a : attribute) : bool :=
  match a with
  | Method _ => true
  | Private => false
  end.

(** [getattr(method, 'replication', False)]: only [REPLICATE] carries the
    [@replication] decorator. *)
Definition replication (a : attribute) : bool :=
  match a with
  | Method H_REPLICATE => true
  | _ => false
  end.

Definition run_handler (h : handler) (self : AccountController)
    (req : request) : M response :=
  match h with
  | H_DELETE => DELETE self req
  | H_PUT => PUT self req
  | H_HEAD => HEAD self req
  | H_GET => GET self req
  | H_REPLICATE => REPLICATE self req
  | H_POST => POST self req
  end.

(** Lines 316-322: the body of the inner [try]; [None] is the
    [AttributeError] answered with 405. *)
Definition resolve_method (self : AccountController) (req : request)
  : option handler :=
  match getattr_self (method req) with
  | None => None
  | Some a =>
      if negb (publicly_accessible a) then None
      else
        let replication_method := replication a in
        match replication_server self, a with
        | Some mode, Method h =>
            if negb (Bool.eqb mode replication_method) then None
            else Some h
        | None, Method h => Some h
        | _, Private => None
        end
  end.

(** [AccountController.__call__], up to the access-log line, which does
    not change the response. *)
Definition __call__ (self : AccountController) (req : request)
  : M response :=
  if negb (check_utf8 (path_info req))
  then mret (body_response HTTPPreconditionFailed
               "Invalid UTF8 or contains NULL")
  else
    try_except
      (match resolve_method self req with
       | None => mret (plain_response HTTPMethodNotAllowed)
       | Some h => run_handler h self req
       end)
      (fun e =>
         Some (mret (body_response HTTPInternalServerError (format_exc e)))).

(** [app_factory]: [conf = global_conf.copy(); conf.update(local_conf)].
    A configuration is read through [conf_get], which returns the first
    binding of a key, so the entries of [local_conf] go first. *)
Definition app_factory (global_conf local_conf : list (string * string))
  : AccountController :=
  let conf := local_conf ++ global_conf in
  __init__ conf.

(** Lines 142-155 on storage that other processes write too: the
    [except DatabaseAlreadyExists] of lines 146-147 is there for a
    database that appears between the test of line 142 and the call of
    line 144. [others] is what the other processes do to the store in
    that window; everything else is [PUT_account_create]. *)
Definition PUT_account_create_among (others : M unit) (req : request)
    (broker : AccountBroker) (timestamp : string)
  : M (response + option bool) :=
  present ← db_file_exists broker;
  if negb present then
    _ ← others;
    try_except
      (_ ← initialize broker timestamp;
       mret (inr (Some true)))
      (fun e =>
         match e with
         | DatabaseAlreadyExists => Some (mret (inr None))
         | _ => None
         end)
  else
    marked ← is_status_deleted broker;
    if (marked : bool) then
      resp ← _deleted_response broker req HTTPForbidden "Recently deleted";
      mret (inl resp)
    else
      created ← is_deleted broker;
      _ ← update_put_timestamp broker timestamp;
      still_deleted ← is_deleted broker;
      if (still_deleted : bool)
      then mret (inl (plain_response HTTPConflict))
      else mret (inr (Some created)).

(** Lines 140-165 with the same window: [PUT_account] around
    [PUT_account_create_among]. *)
Definition PUT_account_among (others : M unit) (req : request)
    (broker : AccountBroker) : M response :=
  given ← lift (header_getitem req "x-timestamp");
  timestamp ← lift (normalize_timestamp given);
  outcome ← PUT_account_create_among others req broker timestamp;
  match outcome with
  | inl resp => mret resp
  | inr created =>
      let metadata := request_metadata req timestamp in
      _ ← (if nonempty metadata
           then update_metadata broker metadata
           else mret tt);
      match created with
      | None => raise (UnboundLocalError "created")
      | Some true => mret (plain_response HTTPCreated)
      | Some false => mret (plain_response HTTPAccepted)
      end
  end.

End Server.

(** Run a computation and keep the answer. *)
Definition answer {A : Type} (m : M A) (w : world) : exn + A := fst (m w).

(** Run a computation and keep the world. *)
Definition after {A : Type} (m : M A) (w : world) : world := snd (m w).

(* ===================================================================== *)
(** ** A reference node *)
(* ===================================================================== *)

(** Modelled from the spec: one concrete choice of the collaborators, which
    live outside [server.py] ([swift.common.utils],
    [swift.common.constraints], [swift.account.utils],
    [swift.common.db_replicator]). It is used to run the handlers on
    concrete requests. Paths follow the pattern
    "/{device}/{partition}/{account}[/{container}]"; timestamps are "numeric"
    and "comparable as real numbers", here plain decimal literals
    [digits] or [digits.digits], normalised to the "fixed-format" with ten
    integer and five fractional digits; the listing has "a fixed hard
    maximum", here 10000. *)
Module Model.

(** Cut a string at its first occurrence of [sep]. *)
Fixpoint cut (sep : ascii) (s : string) : option (string * string) :=
  match s with
  | EmptyString => None
  | String c s' =>
      if Ascii.eqb c sep then Some (EmptyString, s')
      else
        match cut sep s' with
        | Some (a, rest) => Some (String c a, rest)
        | None => None
        end
  end.

(** [s.split('/', n)]. *)
Fixpoint split_max (n : nat) (s : string) : list string :=
  match n with
  | O => [s]
  | S n' =>
      match cut "/" s with
      | None => [s]
      | Some (a, rest) => a :: split_max n' rest
      end
  end.

Definition split_path (path : string) (minsegs maxsegs : nat)
  : string + list (option string) :=
  let minsegs := S minsegs in
  let maxsegs := S maxsegs in
  let segs := split_max maxsegs path in
  let count := length segs in
  if Py.truthy (List.nth 0 segs "")
     || (count <? minsegs)%nat
     || (S maxsegs <? count)%nat
     || existsb (fun s => negb (Py.truthy s))
          (firstn (minsegs - 1) (skipn 1 segs))
     || ((count =? S maxsegs)%nat && Py.truthy (List.nth maxsegs segs ""))
  then inl ("Invalid path: " +:+ path)
  else
    let segs := firstn (maxsegs - 1) (skipn 1 segs) in
    inr (List.map Some segs
         ++ List.repeat None (maxsegs - 1 - length segs)).

Fixpoint contains_slash (s : string) : bool :=
  match s with
  | EmptyString => false
  | String c s' => Ascii.eqb c "/" || contains_slash s'
  end.

Definition invalid_name (s : string) : bool :=
  negb (Py.truthy s) || contains_slash s
  || String.eqb s "." || String.eqb s "..".

Definition validate_device_partition (device partition : string)
  : option string :=
  if invalid_name device then Some ("Invalid device: " +:+ device)
  else if invalid_name partition
  then Some ("Invalid partition: " +:+ partition)
  else None.

Fixpoint all_ascii (s : string) : bool :=
  match s with
  | EmptyString => true
  | String c s' =>
      (0 <? Py.ord_ascii c)%Z && (Py.ord_ascii c <? 128)%Z && all_ascii s'
  end.

(** The integer and fractional digits of a decimal literal. *)
Definition decimal_parts (s : string) : option (string * string) :=
  match cut "." s with
  | None => if Py.isdigit s then Some (s, "") else None
  | Some (i, f) =>
      if Py.isdigit i && Py.all_digits f then Some (i, f) else None
  end.

Definition check_float (s : string) : bool :=
  match decimal_parts s with
  | Some _ => true
  | None => false
  end.

Definition timestamp_value (s : string) : Q :=
  match decimal_parts s with
  | Some (i, f) =>
      Qmake (Py.int (i +:+ f)) (Z.to_pos (10 ^ Z.of_nat (String.length f)))
  | None => 0%Q
  end.

Fixpoint strip_zeros (s : string) : string :=
  match s with
  | String "0" s' => strip_zeros s'
  | _ => s
  end.

Fixpoint zeros (n : nat) : string :=
  match n with
  | O => ""
  | S n' => String "0" (zeros n')
  end.

Definition pad_left (n : nat) (s : string) : string :=
  zeros (n - String.length s) +:+ s.

Definition pad_right (n : nat) (s : string) : string :=
  String.substring 0 n (s +:+ zeros n).

(** ["%016.05f" % float(s)] on decimal literals; digits beyond the fifth
    fractional one are dropped. *)
Definition normalize_timestamp (s : string) : exn + string :=
  match decimal_parts s with
  | Some (i, f) => inr (pad_left 10 (strip_zeros i) +:+ "." +:+ pad_right 5 f)
  | None => inl (ValueError ("could not convert string to float: " +:+ s))
  end.

(** The fixed format of a normalised timestamp: ten integer digits, a dot
    and five fractional digits. *)
Definition fixed_format (s : string) : bool :=
  match cut "." s with
  | Some (i, f) =>
      (String.length i =? 10)%nat && (String.length f =? 5)%nat
      && Py.all_digits i && Py.all_digits f
  | None => false
  end.

Definition get_param (req : request) (name : string)
    (default_value : option string) : exn + option string :=
  let value :=
    match param_lookup req name with
    | Some v => Some v
    | None => default_value
    end in
  if Py.truthy_opt value && negb (all_ascii (default "" value))
  then inl UnicodeDecodeError
  else inr value.

Definition FORMAT2CONTENT_TYPE : list (string * string) :=
  [("plain", "text/plain"); ("json", "application/json");
   ("xml", "application/xml")].

Definition best_match (accepted : string) (offers : list string)
  : option string :=
  if String.eqb accepted "" || String.eqb accepted "*/*"
  then List.head offers
  else List.find (String.eqb accepted) offers.

Definition account_listing_content_type (req : request)
  : string * option response :=
  let accepted :=
    match param_lookup req "format" with
    | Some f =>
        if Py.truthy f
        then default "text/plain"
               (snd <$> List.find (fun kv => String.eqb (fst kv) (Py.lower f))
                          FORMAT2CONTENT_TYPE)
        else accept req
    | None => accept req
    end in
  match best_match accepted
          ["text/plain"; "application/json"; "application/xml"; "text/xml"]
  with
  | Some t => (t, None)
  | None => ("", Some (plain_response HTTPNotAcceptable))
  end.

(** The names of the containers of a record, at most [limit] of them,
    one per line; 204 when there is none. *)
Definition account_listing_response (acct : string) (req : request)
    (out_content_type : string) (r : account_record) (limit : Z)
    (marker end_marker prefix delimiter : option string) : response :=
  let names :=
    List.filter (fun n => Py.startswith n (default "" prefix))
      (fst <$> map_to_list (containers r)) in
  let names := firstn (Z.to_nat limit) names in
  match names with
  | [] => mkResponse HTTPNoContent [] "" (Some out_content_type)
  | _ =>
      mkResponse HTTPOk [] (String.concat (String "010" "") names)
        (Some out_content_type)
  end.

#[local] Instance node : Collaborators := {
  ACCOUNT_LISTING_LIMIT := 10000;
  FORMAT2CONTENT_TYPE := Model.FORMAT2CONTENT_TYPE;
  check_utf8 := all_ascii;
  check_float := Model.check_float;
  check_mount := fun _ drive =>
    String.eqb drive "sda1" || String.eqb drive "sdb1";
  config_true_value := fun v =>
    existsb (String.eqb (Py.lower v)) ["true"; "1"; "yes"; "on"; "t"; "y"];
  normalize_timestamp := Model.normalize_timestamp;
  timestamp_value := Model.timestamp_value;
  time_time := "1357000000.0";
  hash_path := fun name => name;
  storage_directory := fun datadir part hsh =>
    Py.path_join [datadir; part; hsh];
  split_path := Model.split_path;
  validate_device_partition := Model.validate_device_partition;
  get_param := Model.get_param;
  best_match := Model.best_match;
  account_listing_content_type := Model.account_listing_content_type;
  account_listing_response := Model.account_listing_response;
  json_load := fun body =>
    if Py.truthy body then inr body
    else inl "No JSON object could be decoded";
  replicator_rpc_dispatch := fun _ _ files => (plain_response HTTPOk, files);
  format_exc := fun _ => "Traceback (most recent call last)"
}.

(** A node with mount checking on and no replication mode configured. *)
Definition controller : AccountController := __init__ [].

Definition empty_world : world := mkWorld ∅ [].

(** The database file of account "acct" on device "sda1", partition "0". *)
Definition acct_db : string := "/srv/node/sda1/accounts/0/acct/acct.db".

(** A world in which that account has the record [r]. *)
Definition account_world (r : account_record) : world :=
  mkWorld {[ acct_db := r ]} [].

(** An account created at timestamp 100. *)
Definition active_account : account_record :=
  mkAccount "0000000100.00000" "0000000100.00000" None Active ∅ ∅.

(** The same account after a DELETE at timestamp 200. *)
Definition deleted_account : account_record :=
  mkAccount "0000000100.00000" "0000000100.00000" (Some "200") Deleted ∅ ∅.

(** A record whose deletion at 200 is newer than its creation at 100 and
    which does not carry the status marker. *)
Definition flagged_account : account_record :=
  mkAccount "0000000100.00000" "0000000100.00000" (Some "0000000200.00000")
    Active ∅ ∅.

End Model.

(* ===================================================================== *)
(** ** Vocabulary of the properties *)
(* ===================================================================== *)

Section Effects.
Context `{Collaborators}.

(** The status header of a tombstoned-record response. *)
Definition status_header (o : option account_record)
  : list (string * string) :=
  match o with
  | Some r =>
      if bool_decide (status_marker r = Deleted)
      then [("X-Account-Status", "Deleted")]
      else []
  | None => []
  end.

(** The three configured modes of a node. *)
Inductive server_mode : Type :=
| Unspecified
| ReplicationOnly
| NormalOnly.

Definition configured_mode (self : AccountController) : server_mode :=
  match replication_server self with
  | None => Unspecified
  | Some true => ReplicationOnly
  | Some false => NormalOnly
  end.

(** The handler a method name denotes, when it "exists as a publicly
    accessible handler". *)
Definition public_handler (name : string) : option handler :=
  match getattr_self name with
  | Some (Method h) => if publicly_accessible (Method h) then Some h else None
  | _ => None
  end.

(** The handlers marked "replication". *)
Definition replication_marked (h : handler) : bool :=
  replication (Method h).

(** "A handler marked replication may run only when the mode is
    unspecified or replication-only, and a non-replication handler may
    run only when the mode is unspecified or normal-only." *)
Definition mode_permits (m : server_mode) (h : handler) : bool :=
  match m with
  | Unspecified => true
  | ReplicationOnly => replication_marked h
  | NormalOnly => negb (replication_marked h)
  end.

(** The catch-all of the dispatcher: any exception becomes a 500. *)
Definition internal_error_on_exception (m : M response) : M response :=
  try_except m
    (fun e =>
       Some (mret (body_response HTTPInternalServerError (format_exc e)))).

(** The handle a container PUT works with: lines 117-120. *)
Definition container_broker (self : AccountController) (req : request)
    (drive part account : string) : AccountBroker :=
  let broker := _get_account_broker self drive part account in
  if header_in req "x-trans-id"
  then set_pending_timeout broker 3%Q
  else broker.

(** The override of the tombstone guard:
    "X-Account-Override-Deleted: yes", case-insensitive. *)
Definition override_deleted (req : request) : bool :=
  String.eqb (Py.lower (header_get req "x-account-override-deleted" "no"))
    "yes".

(** The handlers that answer through [_deleted_response] with 404. *)
Definition account_readers : list handler :=
  [H_DELETE; H_HEAD; H_GET; H_POST].

(** The listing collaborators of GET answer 406, 200 or 204, never 404. *)
Definition listing_never_not_found (req : request) : Prop :=
  (forall e, snd (account_listing_content_type req) = Some e ->
             status e <> HTTPNotFound) /\
  (forall acct ctype r limit marker end_marker prefix delimiter,
     status (account_listing_response acct req ctype r limit marker
               end_marker prefix delimiter) <> HTTPNotFound).

(** The 404 answer for the account a request addresses. *)
Definition tombstoned_not_found (self : AccountController) (req : request)
    (w : world) (resp : response) : Prop :=
  exists drive part account,
    split_and_validate req = inr (drive, part, account) /\
    resp = mkResponse HTTPNotFound
             (status_header
                (stored (_get_account_broker self drive part account) w))
             "" None.

End Effects.

(* ===================================================================== *)
(** ** Vocabulary of the store invariants *)
(* ===================================================================== *)

Section Order.
Context `{Collaborators}.

(** A computation keeps a relation between the world it starts from and
    the world it leaves, whether it returns or raises. *)
Definition keeps (R : world -> world -> Prop) {A : Type} (m : M A) : Prop :=
  forall w, R w (snd (m w)).

(** The database files are the same. *)
Definition same_files (w w' : world) : Prop := dbs w = dbs w'.

(** Nothing happened: same files, same access log. *)
Definition untouched (w w' : world) : Prop := w' = w.

Definition timestamp_le (a b : string) : Prop :=
  (timestamp_value a <= timestamp_value b)%Q.

(** A recorded deletion stays recorded and does not move back. *)
Definition deletion_le (d d' : option string) : Prop :=
  match d, d' with
  | None, _ => True
  | Some a, Some b => timestamp_le a b
  | Some _, None => False
  end.

(** [r'] is a later state of the record [r]: same creation time, no
    timestamp moved back, the status marker not cleared, no container
    entry and no metadata key dropped. *)
Definition record_le (r r' : account_record) : Prop :=
  created_at r' = created_at r /\
  timestamp_le (put_timestamp r) (put_timestamp r') /\
  deletion_le (delete_timestamp r) (delete_timestamp r') /\
  (status_marker r = Deleted -> status_marker r' = Deleted) /\
  (forall name, is_Some (containers r !! name) ->
                is_Some (containers r' !! name)) /\
  (forall key, is_Some (metadata r !! key) -> is_Some (metadata r' !! key)).

(** Every database file of [w] is still there in [w'], in a later state. *)
Definition world_le (w w' : world) : Prop :=
  forall path r,
    dbs w !! path = Some r ->
    exists r', dbs w' !! path = Some r' /\ record_le r r'.

(** The device a request addresses is not mounted, whichever way the
    handler splits the path. *)
Definition unmounted_target (self : AccountController) (req : request)
  : Prop :=
  forall maxsegs drive rest,
    (maxsegs = 3%nat \/ maxsegs = 4%nat) ->
    split_path (path_info req) 3 maxsegs = inr (Some drive :: rest) ->
    insufficient_storage self drive = true.

(** The account summary headers of a HEAD answer (lines 197-202). *)
Definition summary_headers (r : account_record) : list (string * string) :=
  [("X-Account-Container-Count", pretty (live_count r));
   ("X-Account-Object-Count", pretty (live_sum c_object_count r));
   ("X-Account-Bytes-Used", pretty (live_sum c_bytes_used r));
   ("X-Timestamp", created_at r);
   ("X-PUT-Timestamp", put_timestamp r)].

(** The metadata headers a HEAD answer echoes (lines 203-205). *)
Definition echoed_metadata (r : account_record) : list (string * string) :=
  List.map (fun kv => (fst kv, fst (snd kv)))
    (List.filter (fun kv => Py.truthy (fst (snd kv)))
       (map_to_list (metadata r))).

End Order.

(* ===================================================================== *)
(** ** Running the accessor *)
(* ===================================================================== *)

(** Unfold the plumbing of a computation. *)
Ltac run :=
  unfold mbind, M_bind, mret, M_ret, result_bind, result_ret, lift, raise,
    try_except, log_access, store, get_stored, db_file_exists in *;
  cbn beta iota.

Section BrokerFacts.
Context `{Collaborators}.

Lemma stored_logged b b' c w : stored b (logged b' c w) = stored b w.
Proof. reflexivity. Qed.

Lemma dbs_logged b c w : dbs (logged b c w) = dbs w.
Proof. reflexivity. Qed.

Lemma stored_written b r w : stored b (written b r w) = Some r.
Proof. unfold stored, written; cbn. apply lookup_insert_eq. Qed.

Lemma dbs_written b r w : dbs (written b r w) = <[db_file b := r]> (dbs w).
Proof. reflexivity. Qed.

(** [is_deleted] only reads. *)
Lemma is_deleted_run b w :
  is_deleted b w =
    (inr match stored b w with
         | None => true
         | Some r => record_deleted r
         end,
     logged b call_is_deleted w).
Proof.
  unfold is_deleted; run. rewrite stored_logged.
  destruct (stored b w); reflexivity.
Qed.

Lemma is_status_deleted_run b w :
  is_status_deleted b w =
    (match stored b w with
     | None => inl DatabaseConnectionError
     | Some r => inr (bool_decide (status_marker r = Deleted))
     end,
     logged b call_is_status_deleted w).
Proof.
  unfold is_status_deleted, require_stored; run. rewrite stored_logged.
  destruct (stored b w); reflexivity.
Qed.

Lemma _deleted_response_run b req s body w :
  _deleted_response b req s body w =
    (inr (mkResponse s (status_header (stored b w)) body None),
     logged b call_is_status_deleted w).
Proof.
  unfold _deleted_response; run. rewrite is_status_deleted_run.
  unfold status_header.
  destruct (stored b w) as [r|]; [|reflexivity].
  destruct (bool_decide (status_marker r = Deleted)); reflexivity.
Qed.

Lemma initialize_run b ts w :
  stored b w = None ->
  initialize b ts w =
    (inr tt,
     written b (mkAccount ts ts None Active ∅ ∅) (logged b call_initialize w)).
Proof.
  intros Hs. unfold initialize; run. rewrite stored_logged, Hs.
  rewrite bool_decide_eq_false_2; [reflexivity|].
  intros [x Hx]; discriminate.
Qed.

Lemma update_put_timestamp_run b ts w r :
  stored b w = Some r ->
  update_put_timestamp b ts w =
    (inr tt,
     written b (advanced ts r) (logged b call_update_put_timestamp w)).
Proof.
  intros Hs. unfold update_put_timestamp, require_stored; run.
  rewrite stored_logged, Hs. reflexivity.
Qed.

Lemma delete_db_run b ts w r :
  stored b w = Some r ->
  delete_db b ts w =
    (inr tt, written b (tombstone ts r) (logged b call_delete_db w)).
Proof.
  intros Hs. unfold delete_db, require_stored; run.
  rewrite stored_logged, Hs. reflexivity.
Qed.

Lemma update_metadata_run b items w r :
  stored b w = Some r ->
  update_metadata b items w =
    (inr tt,
     written b (with_metadata items r) (logged b call_update_metadata w)).
Proof.
  intros Hs. unfold update_metadata, require_stored; run.
  rewrite stored_logged, Hs. reflexivity.
Qed.

Lemma put_container_run b name p d oc bu w r :
  stored b w = Some r ->
  put_container b name p d oc bu w =
    (inr tt,
     written b (upserted name p d oc bu r) (logged b call_put_container w)).
Proof.
  intros Hs. unfold put_container, require_stored; run.
  rewrite stored_logged, Hs. reflexivity.
Qed.

Lemma get_info_run b w r :
  stored b w = Some r ->
  get_info b w =
    (inr (mkInfo (live_count r) (live_sum c_object_count r)
            (live_sum c_bytes_used r) (created_at r) (put_timestamp r)),
     logged b call_get_info w).
Proof.
  intros Hs. unfold get_info, require_stored; run.
  rewrite stored_logged, Hs. reflexivity.
Qed.

Lemma broker_metadata_run b w r :
  stored b w = Some r ->
  broker_metadata b w =
    (inr (map_to_list (metadata r)), logged b call_metadata w).
Proof.
  intros Hs. unfold broker_metadata, require_stored; run.
  rewrite stored_logged, Hs. reflexivity.
Qed.

Lemma listing_response_run b req ctype limit marker end_marker prefix
    delimiter w r :
  stored b w = Some r ->
  listing_response b req ctype limit marker end_marker prefix delimiter w =
    (inr (account_listing_response (account b) req ctype r limit marker
            end_marker prefix delimiter),
     logged b call_listing w).
Proof.
  intros Hs. unfold listing_response, require_stored; run.
  rewrite stored_logged, Hs. reflexivity.
Qed.

End BrokerFacts.

(* ===================================================================== *)
(** ** Dispatch and replication-mode gating *)
(* ===================================================================== *)

Section Dispatch.
Context `{Collaborators}.

(** The names that denote a public handler are the six verbs. *)
Lemma public_handler_verbs name h :
  public_handler name = Some h ->
  name ∈ ["DELETE"; "PUT"; "HEAD"; "GET"; "REPLICATE"; "POST"].
Proof.
  unfold public_handler, getattr_self.
  repeat match goal with
  | |- context [String.eqb name ?v] =>
      destruct (String.eqb_spec name v) as [->|_]; [intros _; set_solver|]
  end.
  destruct (existsb _ _); discriminate.
Qed.

Lemma resolve_method_gating self req :
  resolve_method self req =
    match public_handler (method req) with
    | Some h =>
        if mode_permits (configured_mode self) h then Some h else None
    | None => None
    end.
Proof.
  unfold resolve_method, public_handler, configured_mode, mode_permits,
    replication_marked.
  destruct (getattr_self (method req)) as [[h|]|]; cbn; try reflexivity.
  destruct (replication_server self) as [[|]|]; destruct h; reflexivity.
Qed.

(** C5. Once the path has passed the encoding check, the dispatcher
    answers 405 Method Not Allowed when the method name does not denote a
    publicly accessible handler, and when the configured mode does not
    permit the handler (a replication-marked handler needs the mode
    unspecified or replication-only, any other handler needs it
    unspecified or normal-only); otherwise it runs the handler, under the
    catch-all that turns exceptions into 500. *)
Theorem C5_dispatch_gating self req w :
  check_utf8 (path_info req) = true ->
  __call__ self req w =
    match public_handler (method req) with
    | None => (inr (plain_response HTTPMethodNotAllowed), w)
    | Some h =>
        if mode_permits (configured_mode self) h
        then internal_error_on_exception (run_handler h self req) w
        else (inr (plain_response HTTPMethodNotAllowed), w)
    end.
Proof.
  intros Hutf. unfold __call__. rewrite Hutf. cbn [negb].
  rewrite resolve_method_gating.
  destruct (public_handler (method req)) as [h|]; [|reflexivity].
  destruct (mode_permits (configured_mode self) h); reflexivity.
Qed.

End Dispatch.

(** On a node configured as a normal (non-replication) server, REPLICATE is
    answered with 405, as is an unknown or private method name. *)
Lemma C5_dispatch_gating_witness :
  let self := @__init__ Model.node [("replication_server", "false")] in
  let req := mkRequest "REPLICATE" "/sda1/0/acct" [] [] "" "{}" in
  @check_utf8 Model.node (path_info req) = true /\
  @__call__ Model.node self req Model.empty_world =
    (inr (plain_response HTTPMethodNotAllowed), Model.empty_world).
Proof.
  intros self req. split; [reflexivity|].
  exact (@C5_dispatch_gating Model.node self req Model.empty_world eq_refl).
Defined.

(* ===================================================================== *)
(** ** Listing preconditions *)
(* ===================================================================== *)

Section Listing.
Context `{Collaborators}.

Lemma bad_delimiter_intro d :
  (1 < Py.len d \/ 254 < Py.ord d)%Z -> bad_delimiter (Some d) = true.
Proof.
  unfold bad_delimiter, Py.len, Py.ord.
  change (default "" (Some d)) with d. cbn [Py.truthy_opt].
  destruct d as [|c d]; cbn [Py.truthy String.length].
  - intros [Hlen|Hord]; exfalso; lia.
  - intros [Hlen|Hord]; cbn [andb]; apply orb_true_iff; [left|right];
      apply Z.gtb_lt; assumption.
Qed.

Lemma GET_limit_over l :
  Py.isdigit l = true -> (ACCOUNT_LISTING_LIMIT < Py.int l)%Z ->
  exists resp, GET_limit (Some l) = inl resp
               /\ status resp = HTTPPreconditionFailed.
Proof.
  intros Hdigit Hover. unfold GET_limit.
  change (default "" (Some l)) with l. cbn [Py.truthy_opt].
  assert (Py.truthy l = true) as -> by (destruct l; [discriminate|reflexivity]).
  rewrite Hdigit. cbn [andb].
  destruct (Z.gtb_spec (Py.int l) ACCOUNT_LISTING_LIMIT); [|lia].
  eexists; split; reflexivity.
Qed.

Lemma GET_limit_not_digits l :
  Py.isdigit l = false -> GET_limit (Some l) = inr ACCOUNT_LISTING_LIMIT.
Proof.
  intros Hdigit. unfold GET_limit.
  change (default "" (Some l)) with l. rewrite Hdigit.
  rewrite andb_false_r. reflexivity.
Qed.

(** C7. A GET whose path and query encoding are accepted, and whose
    delimiter is longer than one character or has a code point above 254,
    or whose all-digit limit exceeds [ACCOUNT_LISTING_LIMIT], is answered
    with 412 Precondition Failed; the world is left as it was, access log
    included, so the accessor is never called. *)
Theorem C7_listing_preconditions self req w drive part account prefix
    delimiter :
  split_and_validate req = inr (drive, part, account) ->
  get_param req "prefix" None = inr prefix ->
  get_param req "delimiter" None = inr delimiter ->
  (exists d, delimiter = Some d /\ (1 < Py.len d \/ 254 < Py.ord d)%Z) \/
  (exists l, get_param req "limit" None = inr (Some l)
             /\ Py.isdigit l = true
             /\ (ACCOUNT_LISTING_LIMIT < Py.int l)%Z) ->
  exists resp,
    GET self req w = (inr resp, w) /\ status resp = HTTPPreconditionFailed.
Proof.
  intros Hpath Hprefix Hdelim Hbad.
  unfold GET, GET_params. rewrite Hpath; run. rewrite Hprefix, Hdelim.
  destruct (bad_delimiter delimiter) eqn:Hd.
  - eexists; split; reflexivity.
  - destruct Hbad as [(d & -> & Hd')|(l & Hlimit & Hdigit & Hover)].
    + rewrite (bad_delimiter_intro d Hd') in Hd. discriminate.
    + rewrite Hlimit.
      destruct (GET_limit_over l Hdigit Hover) as (resp & -> & Hstatus).
      exists resp. split; [reflexivity|assumption].
Qed.

(** The listing of an account that exists and is not deleted. *)
Lemma GET_listing_live self req drive part account limit marker end_marker
    prefix delimiter w out_content_type r :
  account_listing_content_type req = (out_content_type, None) ->
  insufficient_storage self drive = false ->
  stored (_get_account_broker self drive part account) w = Some r ->
  record_deleted r = false ->
  answer (GET_listing self req drive part account limit marker end_marker
            prefix delimiter) w =
    inr (account_listing_response account req out_content_type r limit marker
           end_marker prefix delimiter).
Proof.
  intros Htype Hmounted Hs Hlive. unfold answer, GET_listing.
  rewrite Htype, Hmounted; run. rewrite is_deleted_run.
  change (stored (set_stale_reads_ok _ _) w)
    with (stored (_get_account_broker self drive part account) w).
  rewrite Hs, Hlive.
  rewrite (listing_response_run _ _ _ _ _ _ _ _ _ r) by exact Hs.
  reflexivity.
Qed.

(** C10. A GET whose limit parameter is present but not made of digits
    only passes the limit check with the default [ACCOUNT_LISTING_LIMIT]:
    no 412 is produced, the request goes on to the listing with that
    limit, and the listing of a live account is computed with it. *)
Theorem C10_non_numeric_limit_ignored self req w drive part account prefix
    delimiter l marker end_marker :
  split_and_validate req = inr (drive, part, account) ->
  get_param req "prefix" None = inr prefix ->
  get_param req "delimiter" None = inr delimiter ->
  bad_delimiter delimiter = false ->
  get_param req "limit" None = inr (Some l) ->
  Py.isdigit l = false ->
  get_param req "marker" (Some "") = inr marker ->
  get_param req "end_marker" None = inr end_marker ->
  GET_limit (Some l) = inr ACCOUNT_LISTING_LIMIT /\
  GET_params req =
    inr (inr (prefix, delimiter, ACCOUNT_LISTING_LIMIT, marker, end_marker)) /\
  GET self req w =
    GET_listing self req drive part account ACCOUNT_LISTING_LIMIT marker
      end_marker prefix delimiter w /\
  forall out_content_type r,
    account_listing_content_type req = (out_content_type, None) ->
    insufficient_storage self drive = false ->
    stored (_get_account_broker self drive part account) w = Some r ->
    record_deleted r = false ->
    answer (GET self req) w =
      inr (account_listing_response account req out_content_type r
             ACCOUNT_LISTING_LIMIT marker end_marker prefix delimiter).
Proof.
  intros Hpath Hprefix Hdelim Hd Hlimit Hdigit Hmarker Hend.
  pose proof (GET_limit_not_digits l Hdigit) as Hl.
  assert (GET_params req =
    inr (inr (prefix, delimiter, ACCOUNT_LISTING_LIMIT, marker, end_marker)))
    as Hparams.
  { unfold GET_params; run.
    rewrite Hprefix, Hdelim, Hd, Hlimit, Hl, Hmarker, Hend. reflexivity. }
  assert (GET self req w =
    GET_listing self req drive part account ACCOUNT_LISTING_LIMIT marker
      end_marker prefix delimiter w) as Hrun.
  { unfold GET. rewrite Hpath; run. rewrite Hparams. reflexivity. }
  repeat split; [assumption..|].
  intros out_content_type r Htype Hmounted Hs Hlive.
  unfold answer. rewrite Hrun. eapply GET_listing_live; eassumption.
Qed.

End Listing.

(** A listing with delimiter "ab" is refused without touching the store. *)
Lemma C7_listing_preconditions_witness :
  let req := mkRequest "GET" "/sda1/0/acct" [] [("delimiter", "ab")] "" "" in
  exists resp,
    @GET Model.node Model.controller req Model.empty_world
      = (inr resp, Model.empty_world)
    /\ status resp = HTTPPreconditionFailed.
Proof.
  intros req.
  apply (@C7_listing_preconditions Model.node Model.controller req
           Model.empty_world "sda1" "0" "acct" None (Some "ab"));
    [reflexivity..|].
  left. exists "ab". split; [reflexivity|]. left. reflexivity.
Defined.

(** A listing with limit "-5" is served with the default limit. *)
Lemma C10_non_numeric_limit_ignored_witness :
  let req := mkRequest "GET" "/sda1/0/acct" [] [("limit", "-5")] "" "" in
  @GET_limit Model.node (Some "-5") = inr 10000%Z /\
  @GET_params Model.node req = inr (inr (None, None, 10000%Z, Some "", None)) /\
  @GET Model.node Model.controller req Model.empty_world =
    @GET_listing Model.node Model.controller req "sda1" "0" "acct" 10000%Z
      (Some "") None None None Model.empty_world.
Proof.
  intros req.
  destruct (@C10_non_numeric_limit_ignored Model.node Model.controller req
              Model.empty_world "sda1" "0" "acct" None None "-5" (Some "")
              None eq_refl eq_refl eq_refl eq_refl eq_refl eq_refl eq_refl
              eq_refl) as (Hlimit & Hparams & Hrun & _).
  exact (conj Hlimit (conj Hparams Hrun)).
Defined.

(* ===================================================================== *)
(** ** Timestamp validation on account PUT *)
(* ===================================================================== *)

Section PutTimestamp.
Context `{Collaborators}.

Lemma PUT_account_without_timestamp req broker w :
  header_lookup (headers req) "x-timestamp" = None ->
  PUT_account req broker w = (inl (KeyError "x-timestamp"), w).
Proof.
  intros Hmissing. unfold PUT_account, header_getitem; run.
  rewrite Hmissing. reflexivity.
Qed.

Lemma PUT_account_invalid_timestamp req broker w v e :
  header_lookup (headers req) "x-timestamp" = Some v ->
  normalize_timestamp v = inl e ->
  PUT_account req broker w = (inl e, w).
Proof.
  intros Hgiven Hinvalid. unfold PUT_account, header_getitem; run.
  rewrite Hgiven, Hinvalid. reflexivity.
Qed.

(** C6, as the code behaves. An account PUT (well-formed path, mounted
    device) whose X-Timestamp header is missing, or is rejected by
    [normalize_timestamp], is not answered with 400 Bad Request: the
    [KeyError] or [ValueError] escapes the handler and the dispatcher
    answers 500 Internal Server Error. DELETE and POST check the header
    and answer 400; PUT does not. *)
Theorem C6_put_account_bad_timestamp self req w drive part account container :
  check_utf8 (path_info req) = true ->
  method req = "PUT" ->
  replication_server self <> Some true ->
  split_path (path_info req) 3 4
    = inr [Some drive; Some part; Some account; container] ->
  Py.truthy_opt container = false ->
  validate_device_partition drive part = None ->
  insufficient_storage self drive = false ->
  (header_lookup (headers req) "x-timestamp" = None \/
   exists v e, header_lookup (headers req) "x-timestamp" = Some v
               /\ normalize_timestamp v = inl e) ->
  exists resp,
    __call__ self req w = (inr resp, w)
    /\ status resp = HTTPInternalServerError.
Proof.
  intros Hutf Hmethod Hmode Hsplit Hcontainer Hvalid Hmounted Hbad.
  unfold __call__, resolve_method. rewrite Hutf, Hmethod. cbn [negb].
  change (getattr_self "PUT") with (Some (Method H_PUT)).
  cbn [publicly_accessible negb replication].
  assert (forall e, PUT self req w = (inl e, w) ->
          exists resp,
            try_except (run_handler H_PUT self req)
              (fun e => Some (mret (body_response HTTPInternalServerError
                                      (format_exc e)))) w = (inr resp, w)
            /\ status resp = HTTPInternalServerError) as Hcatch.
  { intros e He. unfold try_except. cbn [run_handler]. rewrite He.
    eexists; split; reflexivity. }
  assert (exists e, PUT self req w = (inl e, w)) as [e He].
  { unfold PUT. rewrite Hsplit, Hvalid, Hmounted, Hcontainer.
    destruct Hbad as [Hmissing|(v & e & Hgiven & Hinvalid)].
    - eexists. apply PUT_account_without_timestamp, Hmissing.
    - exists e. eapply PUT_account_invalid_timestamp; eassumption. }
  destruct (replication_server self) as [[|]|]; [congruence|..];
    cbn [Bool.eqb negb]; eapply Hcatch, He.
Qed.

End PutTimestamp.

(** PUT /sda1/0/acct without an X-Timestamp header is answered with 500. *)
Lemma C6_put_account_bad_timestamp_witness :
  let req := mkRequest "PUT" "/sda1/0/acct" [] [] "" "" in
  exists resp,
    @__call__ Model.node Model.controller req Model.empty_world
      = (inr resp, Model.empty_world)
    /\ status resp = HTTPInternalServerError.
Proof.
  intros req.
  apply (@C6_put_account_bad_timestamp Model.node Model.controller req
           Model.empty_world "sda1" "0" "acct" None);
    try reflexivity.
  - discriminate.
  - left. reflexivity.
Defined.

(* ===================================================================== *)
(** ** Container PUT *)
(* ===================================================================== *)

Section ContainerPut.
Context `{Collaborators}.

Lemma PUT_container_path self req w drive part account container :
  split_path (path_info req) 3 4
    = inr [Some drive; Some part; Some account; Some container] ->
  Py.truthy container = true ->
  validate_device_partition drive part = None ->
  insufficient_storage self drive = false ->
  PUT self req w =
    PUT_container self req (_get_account_broker self drive part account)
      account container w.
Proof.
  intros Hsplit Hcontainer Hvalid Hmounted. unfold PUT.
  rewrite Hsplit, Hvalid, Hmounted. cbn [Py.truthy_opt].
  rewrite Hcontainer. reflexivity.
Qed.

Lemma PUT_container_steps self req drive part account container w :
  PUT_container self req (_get_account_broker self drive part account)
    account container w =
  let broker := container_broker self req drive part account in
  match PUT_auto_create self req broker account w with
  | (inl e, w1) => (inl e, w1)
  | (inr _, w1) =>
      match PUT_account_gone req broker w1 with
      | (inl e, w2) => (inl e, w2)
      | (inr true, w2) => (inr (plain_response HTTPNotFound), w2)
      | (inr false, w2) => PUT_container_upsert req broker container w2
      end
  end.
Proof.
  unfold PUT_container, container_broker; run.
  destruct (PUT_auto_create _ _ _ _ w) as [[e|[]] w1]; [reflexivity|].
  destruct (PUT_account_gone _ _ w1) as [[e|[|]] w2]; reflexivity.
Qed.

(** An existing database is never auto-created. *)
Lemma PUT_auto_create_existing self req broker account w r :
  stored broker w = Some r ->
  PUT_auto_create self req broker account w = (inr tt, w).
Proof.
  intros Hs. unfold PUT_auto_create; run.
  destruct (Py.startswith account (auto_create_account_prefix self));
    [|reflexivity].
  rewrite Hs. rewrite bool_decide_eq_true_2; [reflexivity|eauto].
Qed.

Lemma PUT_account_gone_run req broker w :
  PUT_account_gone req broker w =
    if override_deleted req then (inr false, w)
    else (inr match stored broker w with
              | None => true
              | Some r => record_deleted r
              end,
          logged broker call_is_deleted w).
Proof.
  unfold PUT_account_gone, override_deleted.
  destruct (String.eqb _ "yes"); cbn [negb]; [reflexivity|].
  apply is_deleted_run.
Qed.

Lemma PUT_container_upsert_run req broker container w r put_ts delete_ts
    object_count bytes_used :
  header_lookup (headers req) "x-put-timestamp" = Some put_ts ->
  header_lookup (headers req) "x-delete-timestamp" = Some delete_ts ->
  header_lookup (headers req) "x-object-count" = Some object_count ->
  header_lookup (headers req) "x-bytes-used" = Some bytes_used ->
  stored broker w = Some r ->
  PUT_container_upsert req broker container w =
    (inr (plain_response
            (if Py.str_gt delete_ts put_ts then HTTPNoContent
             else HTTPCreated)),
     written broker
       (upserted container put_ts delete_ts object_count bytes_used r)
       (logged broker call_put_container w)).
Proof.
  intros Hp Hd Ho Hb Hs. unfold PUT_container_upsert, header_getitem; run.
  rewrite Hp, Hd, Ho, Hb.
  rewrite (put_container_run _ _ _ _ _ _ _ _ Hs).
  destruct (Py.str_gt delete_ts put_ts); reflexivity.
Qed.

(** C1, as amended. A container PUT that reaches the upsert (well-formed
    path, mounted device, tombstone guard passed, the four headers
    present) on an account whose database exists at that point answers 204
    No Content when the X-Delete-Timestamp header is greater than the
    X-Put-Timestamp header as a byte string, and 201 Created otherwise,
    whatever the two counters are, and writes the container entry. When
    the database does not exist at that point, which needs the override
    header, the accessor raises [DatabaseConnectionError]: the handler
    returns no response and the request has written nothing. *)
Theorem C1_container_put_response self req w drive part account container
    put_ts delete_ts object_count bytes_used w1 w2 :
  split_path (path_info req) 3 4
    = inr [Some drive; Some part; Some account; Some container] ->
  Py.truthy container = true ->
  validate_device_partition drive part = None ->
  insufficient_storage self drive = false ->
  header_lookup (headers req) "x-put-timestamp" = Some put_ts ->
  header_lookup (headers req) "x-delete-timestamp" = Some delete_ts ->
  header_lookup (headers req) "x-object-count" = Some object_count ->
  header_lookup (headers req) "x-bytes-used" = Some bytes_used ->
  PUT_auto_create self req (container_broker self req drive part account)
    account w = (inr tt, w1) ->
  PUT_account_gone req (container_broker self req drive part account) w1
    = (inr false, w2) ->
  match stored (container_broker self req drive part account) w2 with
  | Some r =>
      PUT self req w =
        (inr (plain_response
                (if Py.str_gt delete_ts put_ts then HTTPNoContent
                 else HTTPCreated)),
         written (container_broker self req drive part account)
           (upserted container put_ts delete_ts object_count bytes_used r)
           (logged (container_broker self req drive part account)
              call_put_container w2))
  | None =>
      override_deleted req = true
      /\ PUT self req w =
           (inl DatabaseConnectionError,
            logged (container_broker self req drive part account)
              call_put_container w2)
      /\ dbs (logged (container_broker self req drive part account)
                call_put_container w2) = dbs w
  end.
Proof.
  intros Hsplit Hc Hvalid Hmounted Hp Hd Ho Hb Hauto Hgone.
  rewrite (PUT_container_path _ _ _ _ _ _ _ Hsplit Hc Hvalid Hmounted).
  rewrite PUT_container_steps. cbv zeta. rewrite Hauto, Hgone.
  set (b := container_broker self req drive part account) in *.
  destruct (stored b w2) as [r|] eqn:Hs.
  - apply PUT_container_upsert_run; assumption.
  - rewrite PUT_account_gone_run in Hgone.
    destruct (override_deleted req) eqn:Hov.
    + split; [reflexivity|]. injection Hgone as <-. split.
      * unfold PUT_container_upsert, header_getitem, put_container,
          require_stored; run.
        rewrite Hp, Hd, Ho, Hb, stored_logged, Hs. reflexivity.
      * change (dbs w1 = dbs w). revert Hauto. unfold PUT_auto_create.
        destruct (Py.startswith account (auto_create_account_prefix self));
          [|intros [= <-]; reflexivity].
        run. destruct (stored b w) as [r|] eqn:Hw.
        -- rewrite bool_decide_eq_true_2 by eauto.
           intros [= <-]; reflexivity.
        -- rewrite bool_decide_eq_false_2 by (intros [x Hx]; discriminate).
           destruct (normalize_timestamp _) as [e|ts];
             [destruct e; first [discriminate|intros [= <-]; reflexivity]|].
           rewrite (initialize_run b ts w Hw). intros [= <-].
           rewrite stored_written in Hs. discriminate.
    + injection Hgone as Hr <-. rewrite stored_logged in Hs.
      rewrite Hs in Hr. discriminate.
Qed.

(** C8. On a container PUT (well-formed path, mounted device) against an
    account whose record exists and is deleted: without the header
    "X-Account-Override-Deleted: yes" (compared case-insensitively) the
    answer is 404 Not Found and no record is written; with it, the guard
    is skipped and the request is the container upsert, which, given its
    four headers, writes the entry. *)
Theorem C8_container_put_tombstone_guard self req w drive part account
    container r :
  split_path (path_info req) 3 4
    = inr [Some drive; Some part; Some account; Some container] ->
  Py.truthy container = true ->
  validate_device_partition drive part = None ->
  insufficient_storage self drive = false ->
  stored (container_broker self req drive part account) w = Some r ->
  record_deleted r = true ->
  (Py.lower (header_get req "x-account-override-deleted" "no") <> "yes" ->
   PUT self req w =
     (inr (plain_response HTTPNotFound),
      logged (container_broker self req drive part account)
        call_is_deleted w)) /\
  (Py.lower (header_get req "x-account-override-deleted" "no") = "yes" ->
   PUT self req w =
     PUT_container_upsert req (container_broker self req drive part account)
       container w /\
   forall put_ts delete_ts object_count bytes_used,
     header_lookup (headers req) "x-put-timestamp" = Some put_ts ->
     header_lookup (headers req) "x-delete-timestamp" = Some delete_ts ->
     header_lookup (headers req) "x-object-count" = Some object_count ->
     header_lookup (headers req) "x-bytes-used" = Some bytes_used ->
     exists resp w',
       PUT self req w = (inr resp, w') /\
       (status resp = HTTPCreated \/ status resp = HTTPNoContent) /\
       stored (container_broker self req drive part account) w'
         = Some (upserted container put_ts delete_ts object_count
                   bytes_used r)).
Proof.
  intros Hsplit Hc Hvalid Hmounted Hs Hdel.
  rewrite (PUT_container_path _ _ _ _ _ _ _ Hsplit Hc Hvalid Hmounted).
  rewrite PUT_container_steps. cbv zeta.
  rewrite (PUT_auto_create_existing _ _ _ _ _ _ Hs).
  rewrite PUT_account_gone_run. unfold override_deleted.
  destruct (String.eqb_spec
              (Py.lower (header_get req "x-account-override-deleted" "no"))
              "yes") as [Hyes|Hno].
  - split; [intros Hne; contradiction|]. intros _. split; [reflexivity|].
    intros put_ts delete_ts object_count bytes_used Hp Hd Ho Hb.
    rewrite (PUT_container_upsert_run _ _ _ _ _ _ _ _ _ Hp Hd Ho Hb Hs).
    eexists _, _. split; [reflexivity|]. split.
    + cbn. destruct (Py.str_gt delete_ts put_ts); [right|left]; reflexivity.
    + apply stored_written.
  - split; [|intros Hyes; contradiction]. intros _.
    rewrite Hs, Hdel. reflexivity.
Qed.

End ContainerPut.

(** The container PUT of the third example scenario: put timestamp 10,
    delete timestamp 20, answered with 204; and the same request with the
    override header for an account without database, which raises. *)
Lemma C1_container_put_response_witness :
  let req := mkRequest "PUT" "/sda1/0/acct/c1"
               [("X-Put-Timestamp", "10"); ("X-Delete-Timestamp", "20");
                ("X-Object-Count", "0"); ("X-Bytes-Used", "0")] [] "" "" in
  let forced := mkRequest "PUT" "/sda1/0/acct/c1"
               [("X-Put-Timestamp", "10"); ("X-Delete-Timestamp", "20");
                ("X-Object-Count", "0"); ("X-Bytes-Used", "0");
                ("X-Account-Override-Deleted", "yes")] [] "" "" in
  (exists w',
     @PUT Model.node Model.controller req
       (Model.account_world Model.active_account)
     = (inr (plain_response HTTPNoContent), w'))
  /\ answer (@PUT Model.node Model.controller forced) Model.empty_world
     = inl DatabaseConnectionError.
Proof.
  intros req forced. split.
  - eexists.
    exact (@C1_container_put_response Model.node Model.controller req
             (Model.account_world Model.active_account)
             "sda1" "0" "acct" "c1" "10" "20" "0" "0"
             (Model.account_world Model.active_account)
             (logged (@container_broker Model.node Model.controller req
                        "sda1" "0" "acct")
                call_is_deleted (Model.account_world Model.active_account))
             eq_refl eq_refl eq_refl eq_refl eq_refl eq_refl eq_refl eq_refl
             eq_refl eq_refl).
  - unfold answer.
    rewrite (proj1 (proj2
      (@C1_container_put_response Model.node Model.controller forced
         Model.empty_world "sda1" "0" "acct" "c1" "10" "20" "0" "0"
         Model.empty_world Model.empty_world
         eq_refl eq_refl eq_refl eq_refl eq_refl eq_refl eq_refl eq_refl
         eq_refl eq_refl))).
    reflexivity.
Defined.

(** Put timestamp "10" and delete timestamp "9": as numbers the delete
    timestamp does not exceed the put timestamp, yet the answer is 204 No
    Content, because "9" is greater than "10" as a string. Swapping the two
    headers gives 201 Created although 10 exceeds 9. *)
Lemma C1_counterexample :
  let put_first := mkRequest "PUT" "/sda1/0/acct/c1"
               [("X-Put-Timestamp", "10"); ("X-Delete-Timestamp", "9");
                ("X-Object-Count", "0"); ("X-Bytes-Used", "0")] [] "" "" in
  let delete_first := mkRequest "PUT" "/sda1/0/acct/c1"
               [("X-Put-Timestamp", "9"); ("X-Delete-Timestamp", "10");
                ("X-Object-Count", "0"); ("X-Bytes-Used", "0")] [] "" "" in
  (Model.timestamp_value "9" < Model.timestamp_value "10")%Q /\
  answer (@PUT Model.node Model.controller put_first)
    (Model.account_world Model.active_account)
  = inr (plain_response HTTPNoContent) /\
  answer (@PUT Model.node Model.controller delete_first)
    (Model.account_world Model.active_account)
  = inr (plain_response HTTPCreated).
Proof.
  intros put_first delete_first. split; [reflexivity|].
  split; vm_compute; reflexivity.
Qed.

(** A container PUT against the deleted account: 404 without the override
    header. *)
Lemma C8_container_put_tombstone_guard_witness :
  let req := mkRequest "PUT" "/sda1/0/acct/c1"
               [("X-Put-Timestamp", "10"); ("X-Delete-Timestamp", "0");
                ("X-Object-Count", "0"); ("X-Bytes-Used", "0")] [] "" "" in
  answer (@PUT Model.node Model.controller req)
    (Model.account_world Model.deleted_account)
  = inr (plain_response HTTPNotFound).
Proof.
  intros req.
  destruct (@C8_container_put_tombstone_guard Model.node Model.controller req
              (Model.account_world Model.deleted_account)
              "sda1" "0" "acct" "c1" Model.deleted_account
              eq_refl eq_refl eq_refl eq_refl eq_refl eq_refl) as [Hguard _].
  unfold answer. rewrite Hguard; [reflexivity|].
  vm_compute. discriminate.
Defined.

(* ===================================================================== *)
(** ** The status header of 404 answers *)
(* ===================================================================== *)

Section NotFound.
Context `{Collaborators}.

(** Close a branch whose answer is not a 404. *)
Ltac not_404 :=
  let Heq := fresh "Heq" in
  let Hst := fresh "Hst" in
  intros Heq Hst; injection Heq as <- <-; cbn in Hst; discriminate Hst.

(** Close the branch that answers through [_deleted_response]. *)
Ltac is_404 drive part account :=
  let Heq := fresh "Heq" in
  intros Heq _; injection Heq as <- <-;
  exists drive, part, account; split; reflexivity.

Lemma DELETE_not_found self req w resp w' :
  DELETE self req w = (inr resp, w') -> status resp = HTTPNotFound ->
  tombstoned_not_found self req w resp.
Proof.
  unfold DELETE, tombstoned_not_found.
  destruct (split_and_validate req) as [err|[[drive part] account]];
    [not_404|].
  destruct (insufficient_storage self drive); [not_404|].
  destruct (negb (header_in req "x-timestamp") || _); [not_404|].
  run. rewrite is_deleted_run.
  set (b := _get_account_broker self drive part account).
  destruct (stored b w) as [r|] eqn:Hs.
  - destruct (record_deleted r).
    + rewrite _deleted_response_run, stored_logged.
      is_404 drive part account.
    + unfold header_getitem.
      destruct (header_lookup (headers req) "x-timestamp");
        [|intros; discriminate].
      rewrite (delete_db_run b _ _ r) by (rewrite stored_logged; exact Hs).
      rewrite _deleted_response_run. not_404.
  - rewrite _deleted_response_run, stored_logged.
    is_404 drive part account.
Qed.

Lemma POST_not_found self req w resp w' :
  POST self req w = (inr resp, w') -> status resp = HTTPNotFound ->
  tombstoned_not_found self req w resp.
Proof.
  unfold POST, tombstoned_not_found.
  destruct (split_and_validate req) as [err|[[drive part] account]];
    [not_404|].
  destruct (negb (header_in req "x-timestamp") || _); [not_404|].
  destruct (insufficient_storage self drive); [not_404|].
  run. rewrite is_deleted_run.
  set (b := _get_account_broker self drive part account).
  destruct (stored b w) as [r|] eqn:Hs.
  - destruct (record_deleted r).
    + rewrite _deleted_response_run, stored_logged.
      is_404 drive part account.
    + destruct (header_getitem req "x-timestamp") as [e|given];
        [intros; discriminate|].
      destruct (normalize_timestamp given) as [e|timestamp];
        [intros; discriminate|].
      destruct (nonempty (request_metadata req timestamp)); [|not_404].
      rewrite (update_metadata_run b _ _ r) by exact Hs. not_404.
  - rewrite _deleted_response_run, stored_logged.
    is_404 drive part account.
Qed.

Lemma HEAD_not_found self req w resp w' :
  HEAD self req w = (inr resp, w') -> status resp = HTTPNotFound ->
  tombstoned_not_found self req w resp.
Proof.
  unfold HEAD, tombstoned_not_found.
  destruct (split_and_validate req) as [err|[[drive part] account]];
    [not_404|].
  destruct (get_param req "format" None) as [[]|query_format];
    try (intros; discriminate); [not_404|].
  run.
  destruct (if Py.truthy_opt query_format then _ else _) as [e|req_accept];
    [intros; discriminate|].
  destruct (negb (Py.truthy_opt (best_match req_accept offered_types)));
    [not_404|].
  destruct (insufficient_storage self drive); [not_404|].
  rewrite is_deleted_run.
  set (b := _get_account_broker self drive part account).
  set (b' := set_stale_reads_ok _ _).
  change (stored b' w) with (stored b w).
  destruct (stored b w) as [r|] eqn:Hs.
  - destruct (record_deleted r).
    + rewrite _deleted_response_run.
      is_404 drive part account.
    + rewrite (get_info_run b' _ r) by exact Hs.
      rewrite (broker_metadata_run b' _ r) by exact Hs.
      not_404.
  - rewrite _deleted_response_run.
    is_404 drive part account.
Qed.

Lemma GET_not_found self req w resp w' :
  listing_never_not_found req ->
  GET self req w = (inr resp, w') -> status resp = HTTPNotFound ->
  tombstoned_not_found self req w resp.
Proof.
  intros [Htype Hlisting].
  unfold GET, tombstoned_not_found.
  destruct (split_and_validate req) as [err|[[drive part] account]];
    [not_404|].
  run.
  assert (forall r, GET_params req = inr (inl r) ->
                    status r <> HTTPNotFound) as Hparams.
  { unfold GET_params; run. intros r.
    destruct (get_param req "prefix" None) as [[]|prefix];
      try discriminate; [intros [= <-]; discriminate|].
    destruct (get_param req "delimiter" None) as [[]|delimiter];
      try discriminate; [intros [= <-]; discriminate|].
    destruct (bad_delimiter delimiter); [intros [= <-]; discriminate|].
    destruct (get_param req "limit" None) as [[]|given_limit];
      try discriminate; [intros [= <-]; discriminate|].
    unfold GET_limit.
    destruct (Py.truthy_opt given_limit && _).
    - destruct (_ >? _)%Z; [intros [= <-]; discriminate|].
      destruct (get_param req "marker" (Some "")) as [[]|marker];
        try discriminate; [intros [= <-]; discriminate|].
      destruct (get_param req "end_marker" None) as [[]|end_marker];
        try discriminate; intros [= <-]; discriminate.
    - destruct (get_param req "marker" (Some "")) as [[]|marker];
        try discriminate; [intros [= <-]; discriminate|].
      destruct (get_param req "end_marker" None) as [[]|end_marker];
        try discriminate; intros [= <-]; discriminate. }
  destruct (GET_params req)
    as [e|[r|[[[[prefix delimiter] limit] marker] end_marker]]];
    [intros; discriminate| |].
  { intros Heq Hst. injection Heq as <- <-.
    exfalso. exact (Hparams r eq_refl Hst). }
  unfold GET_listing.
  destruct (account_listing_content_type req) as [out_content_type error]
    eqn:Hct.
  destruct error as [e|].
  { intros Heq Hst. injection Heq as <- <-.
    exfalso. apply (Htype e); [reflexivity|exact Hst]. }
  destruct (insufficient_storage self drive); [not_404|].
  run. rewrite is_deleted_run.
  set (b := _get_account_broker self drive part account).
  set (b' := set_stale_reads_ok _ _).
  change (stored b' w) with (stored b w).
  destruct (stored b w) as [r|] eqn:Hs.
  - destruct (record_deleted r).
    + rewrite _deleted_response_run.
      is_404 drive part account.
    + rewrite (listing_response_run b' _ _ _ _ _ _ _ _ r) by exact Hs.
      intros Heq Hst. injection Heq as <- <-.
      exfalso. exact (Hlisting _ _ _ _ _ _ _ _ Hst).
  - rewrite _deleted_response_run.
    is_404 drive part account.
Qed.

Lemma status_header_lookup (o : option account_record) :
  header_lookup (status_header o) "X-Account-Status" = Some "Deleted"
  <-> exists r, o = Some r /\ status_marker r = Deleted.
Proof.
  unfold status_header. destruct o as [r|].
  - case_bool_decide as Hm.
    + split; [intros _; eauto|reflexivity].
    + split; [discriminate|]. intros (r' & [= <-] & Hm'). contradiction.
  - split; [discriminate|]. intros (r & Hr & _). discriminate.
Qed.

(** C9. A 404 answer of DELETE, HEAD, GET or POST is the tombstoned-record
    answer for the account the path names: it carries
    "X-Account-Status: Deleted" exactly when the database of the account
    exists and its record carries the deleted status marker, and it has no
    header at all when the database does not exist. *)
Theorem C9_not_found_status_header self req w h resp w' :
  h ∈ account_readers ->
  listing_never_not_found req ->
  run_handler h self req w = (inr resp, w') ->
  status resp = HTTPNotFound ->
  exists drive part account,
    split_and_validate req = inr (drive, part, account) /\
    (header_lookup (resp_headers resp) "X-Account-Status" = Some "Deleted"
     <-> exists r,
           stored (_get_account_broker self drive part account) w = Some r
           /\ status_marker r = Deleted) /\
    (stored (_get_account_broker self drive part account) w = None ->
     resp_headers resp = []).
Proof.
  intros Hh Hlisting Hrun Hst.
  assert (tombstoned_not_found self req w resp)
    as (drive & part & account & Hpath & ->).
  { unfold account_readers in Hh.
    repeat (apply elem_of_cons in Hh as [->|Hh]);
      [eapply DELETE_not_found|eapply HEAD_not_found|eapply GET_not_found
      |eapply POST_not_found|]; eauto.
    apply elem_of_nil in Hh. contradiction. }
  exists drive, part, account. split; [exact Hpath|]. split.
  - apply status_header_lookup.
  - intros ->. reflexivity.
Qed.

End NotFound.

(** GET on the deleted account: 404 with the status header. *)
Lemma C9_not_found_status_header_witness :
  let req := mkRequest "GET" "/sda1/0/acct" [] [] "" "" in
  let resp := mkResponse HTTPNotFound [("X-Account-Status", "Deleted")] ""
                None in
  exists drive part account,
    @split_and_validate Model.node req = inr (drive, part, account) /\
    (header_lookup (resp_headers resp) "X-Account-Status" = Some "Deleted"
     <-> exists r,
           stored (@_get_account_broker Model.node Model.controller drive
                     part account)
             (Model.account_world Model.deleted_account) = Some r
           /\ status_marker r = Deleted) /\
    (stored (@_get_account_broker Model.node Model.controller drive part
               account)
       (Model.account_world Model.deleted_account) = None ->
     resp_headers resp = []).
Proof.
  intros req resp.
  eapply (@C9_not_found_status_header Model.node Model.controller req
            (Model.account_world Model.deleted_account) H_GET resp).
  - unfold account_readers. set_solver.
  - split.
    + intros e He. vm_compute in He. discriminate He.
    + intros acct ctype r limit marker end_marker prefix delimiter.
      unfold account_listing_response; cbn.
      unfold Model.account_listing_response.
      destruct (firstn _ _); cbn; discriminate.
  - vm_compute. reflexivity.
  - reflexivity.
Defined.

(* ===================================================================== *)
(** ** Timestamps *)
(* ===================================================================== *)

Section Timestamps.
Context `{Collaborators}.

Lemma newer_spec a b :
  newer a b = true <-> (timestamp_value b < timestamp_value a)%Q.
Proof.
  unfold newer. rewrite negb_true_iff.
  destruct (Qle_bool (timestamp_value a) (timestamp_value b)) eqn:Hle.
  - apply Qle_bool_iff in Hle. split; [discriminate|]. intros Hlt. lra.
  - split; [intros _|reflexivity].
    destruct (Qlt_le_dec (timestamp_value b) (timestamp_value a)) as [?|Hge];
      [assumption|].
    apply Qle_bool_iff in Hge. congruence.
Qed.

Lemma newer_false a b :
  newer a b = false <-> (timestamp_value a <= timestamp_value b)%Q.
Proof.
  unfold newer. rewrite negb_false_iff. apply Qle_bool_iff.
Qed.

(** [later] is the larger of the two, the stored one on a tie. *)
Lemma later_cases p t :
  (later p t = t /\ (timestamp_value p < timestamp_value t)%Q) \/
  (later p t = p /\ (timestamp_value t <= timestamp_value p)%Q).
Proof.
  unfold later. destruct (newer t p) eqn:Hn.
  - left. split; [reflexivity|]. apply newer_spec, Hn.
  - right. split; [reflexivity|]. apply newer_false, Hn.
Qed.

Lemma later_value_ge_stored p t :
  (timestamp_value p <= timestamp_value (later p t))%Q.
Proof. destruct (later_cases p t) as [[-> ?]|[-> ?]]; lra. Qed.

Lemma later_value_ge_given p t :
  (timestamp_value t <= timestamp_value (later p t))%Q.
Proof. destruct (later_cases p t) as [[-> ?]|[-> ?]]; lra. Qed.

Lemma later_smaller p t : newer p t = true -> later p t = p.
Proof.
  intros Hn. apply newer_spec in Hn.
  destruct (later_cases p t) as [[_ ?]|[-> _]]; [lra|reflexivity].
Qed.

Lemma later_larger p t : newer t p = true -> later p t = t.
Proof. intros Hn. unfold later. rewrite Hn. reflexivity. Qed.

(** Two PUTs with [t1 < t2] leave the same timestamp in either order. *)
Lemma later_either_order p t1 t2 :
  (timestamp_value t1 < timestamp_value t2)%Q ->
  later (later p t1) t2 = later p t2 /\ later (later p t2) t1 = later p t2.
Proof.
  intros Hlt. split.
  - destruct (later_cases p t1) as [[-> Hp]|[-> _]]; [|reflexivity].
    rewrite (later_larger t1 t2) by (apply newer_spec; assumption).
    symmetry. apply later_larger, newer_spec. lra.
  - apply later_smaller, newer_spec.
    pose proof (later_value_ge_given p t2). lra.
Qed.

(** A record that was deleted remains deleted after the advance exactly
    when the given timestamp is below the deletion timestamp. *)
Lemma advanced_still_deleted t r d :
  delete_timestamp r = Some d ->
  record_deleted r = true ->
  record_deleted (advanced t r) = true
  <-> (timestamp_value t < timestamp_value d)%Q.
Proof.
  unfold record_deleted, advanced. cbn. intros -> Hdel.
  apply newer_spec in Hdel. rewrite newer_spec.
  destruct (later_cases (put_timestamp r) t) as [[-> ?]|[-> ?]];
    split; intros; lra.
Qed.

(** A record that was not deleted is not deleted after the advance. *)
Lemma advanced_not_deleted t r :
  record_deleted r = false -> record_deleted (advanced t r) = false.
Proof.
  unfold record_deleted, advanced. cbn.
  destruct (delete_timestamp r) as [d|]; [|reflexivity].
  rewrite !newer_false. intros Hle.
  pose proof (later_value_ge_stored (put_timestamp r) t). lra.
Qed.

Lemma tombstone_delete_timestamp t r :
  delete_timestamp (tombstone t r) =
    Some match delete_timestamp r with
         | None => t
         | Some d => later d t
         end.
Proof.
  unfold tombstone, later. destruct (delete_timestamp r) as [d|] eqn:Hd.
  - destruct (newer t d); [reflexivity|assumption].
  - reflexivity.
Qed.

Lemma tombstone_newer t r :
  match delete_timestamp r with
  | None => True
  | Some d => newer t d = true
  end ->
  tombstone t r =
    mkAccount (created_at r) (put_timestamp r) (Some t) Deleted (metadata r)
      (containers r).
Proof.
  unfold tombstone. destruct (delete_timestamp r) as [d|].
  - intros ->. reflexivity.
  - reflexivity.
Qed.

End Timestamps.

(* ===================================================================== *)
(** ** Account PUT: create, refuse, resurrect *)
(* ===================================================================== *)

Section AccountPut.
Context `{Collaborators}.

Lemma PUT_account_path self req w drive part account container :
  split_path (path_info req) 3 4
    = inr [Some drive; Some part; Some account; container] ->
  Py.truthy_opt container = false ->
  validate_device_partition drive part = None ->
  insufficient_storage self drive = false ->
  PUT self req w =
    PUT_account req (_get_account_broker self drive part account) w.
Proof.
  intros Hsplit Hcontainer Hvalid Hmounted. unfold PUT.
  rewrite Hsplit, Hvalid, Hmounted, Hcontainer. reflexivity.
Qed.

(** A record with the status marker: 403, nothing written. *)
Lemma PUT_account_marked req b w given t r :
  header_lookup (headers req) "x-timestamp" = Some given ->
  normalize_timestamp given = inr t ->
  stored b w = Some r ->
  status_marker r = Deleted ->
  PUT_account req b w =
    (inr (mkResponse HTTPForbidden [("X-Account-Status", "Deleted")]
            "Recently deleted" None),
     logged b call_is_status_deleted (logged b call_is_status_deleted w)).
Proof.
  intros Hgiven Hnorm Hs Hm.
  unfold PUT_account, PUT_account_create, header_getitem; run.
  rewrite Hgiven, Hnorm, Hs.
  rewrite bool_decide_eq_true_2 by eauto. cbn [negb].
  rewrite is_status_deleted_run, Hs.
  rewrite bool_decide_eq_true_2 by assumption.
  rewrite _deleted_response_run, stored_logged, Hs. unfold status_header.
  rewrite bool_decide_eq_true_2 by assumption. reflexivity.
Qed.

(** The record an account PUT leaves behind, and its answer, on a record
    without the status marker. *)
Lemma PUT_account_unmarked req b w given t r :
  header_lookup (headers req) "x-timestamp" = Some given ->
  normalize_timestamp given = inr t ->
  stored b w = Some r ->
  status_marker r = Active ->
  exists w' r',
    PUT_account req b w =
      (inr (plain_response
              (if record_deleted (advanced t r) then HTTPConflict
               else if record_deleted r then HTTPCreated
               else HTTPAccepted)), w')
    /\ stored b w' = Some r'
    /\ put_timestamp r' = later (put_timestamp r) t
    /\ delete_timestamp r' = delete_timestamp r
    /\ status_marker r' = Active.
Proof.
  intros Hgiven Hnorm Hs Hm.
  unfold PUT_account, PUT_account_create, header_getitem; run.
  rewrite Hgiven, Hnorm, Hs.
  rewrite bool_decide_eq_true_2 by eauto. cbn [negb].
  rewrite is_status_deleted_run, Hs.
  rewrite bool_decide_eq_false_2 by congruence.
  rewrite is_deleted_run, stored_logged, Hs.
  rewrite (update_put_timestamp_run b t _ r)
    by (rewrite !stored_logged; exact Hs).
  rewrite is_deleted_run, stored_written.
  destruct (record_deleted (advanced t r)) eqn:Hstill.
  - eexists _, (advanced t r). split; [reflexivity|].
    rewrite stored_logged, stored_written. repeat split; assumption.
  - destruct (nonempty (request_metadata req t)).
    + rewrite (update_metadata_run b _ _ (advanced t r))
        by (rewrite stored_logged; apply stored_written).
      eexists _, (with_metadata (request_metadata req t) (advanced t r)).
      split; [destruct (record_deleted r); reflexivity|].
      rewrite stored_written. repeat split; assumption.
    + eexists _, (advanced t r).
      split; [destruct (record_deleted r); reflexivity|].
      rewrite stored_logged, stored_written. repeat split; assumption.
Qed.

(** An account PUT on a missing database creates the record: 201. *)
Lemma PUT_account_fresh req b w given t :
  header_lookup (headers req) "x-timestamp" = Some given ->
  normalize_timestamp given = inr t ->
  stored b w = None ->
  exists w' r',
    PUT_account req b w = (inr (plain_response HTTPCreated), w')
    /\ stored b w' = Some r'
    /\ put_timestamp r' = t
    /\ delete_timestamp r' = None
    /\ status_marker r' = Active.
Proof.
  intros Hgiven Hnorm Hs.
  unfold PUT_account, PUT_account_create, header_getitem; run.
  rewrite Hgiven, Hnorm, Hs.
  rewrite bool_decide_eq_false_2 by (intros [x Hx]; discriminate).
  cbn [negb]. rewrite (initialize_run b t w Hs).
  destruct (nonempty (request_metadata req t)).
  - rewrite (update_metadata_run b _ _ (mkAccount t t None Active ∅ ∅))
      by apply stored_written.
    eexists _, _. split; [reflexivity|].
    rewrite stored_written. repeat split; reflexivity.
  - eexists _, _. split; [reflexivity|].
    rewrite stored_written. repeat split; reflexivity.
Qed.

End AccountPut.

Section AccountPutProperties.
Context `{Collaborators}.

Lemma record_deleted_ext r a :
  put_timestamp r = put_timestamp a ->
  delete_timestamp r = delete_timestamp a ->
  record_deleted r = record_deleted a.
Proof. unfold record_deleted. intros -> ->. reflexivity. Qed.

(** C2, as amended. An account PUT on an existing record (well-formed
    path, mounted device, timestamp accepted by [normalize_timestamp]):
    with the recently-deleted status marker the answer is 403 Forbidden and
    nothing is written; without it [put_timestamp] is advanced to the
    later of the stored and the given timestamp T3, and the answer is 409
    Conflict if the record is still deleted after the advance, 201 Created
    if it was deleted and no longer is, 202 Accepted if it was not
    deleted. A deleted record is still deleted after the advance exactly
    when T3 is strictly below its [delete_timestamp]: T3 equal to or above
    it resurrects the record. *)
Theorem C2_account_put_existing self req w drive part account container
    given t r :
  split_path (path_info req) 3 4
    = inr [Some drive; Some part; Some account; container] ->
  Py.truthy_opt container = false ->
  validate_device_partition drive part = None ->
  insufficient_storage self drive = false ->
  header_lookup (headers req) "x-timestamp" = Some given ->
  normalize_timestamp given = inr t ->
  stored (_get_account_broker self drive part account) w = Some r ->
  (status_marker r = Deleted ->
   exists w',
     PUT self req w =
       (inr (mkResponse HTTPForbidden [("X-Account-Status", "Deleted")]
               "Recently deleted" None), w')
     /\ dbs w' = dbs w) /\
  (status_marker r = Active ->
   exists resp w' r',
     PUT self req w = (inr resp, w')
     /\ stored (_get_account_broker self drive part account) w' = Some r'
     /\ put_timestamp r' = later (put_timestamp r) t
     /\ delete_timestamp r' = delete_timestamp r
     /\ status resp = (if record_deleted r' then HTTPConflict
                       else if record_deleted r then HTTPCreated
                       else HTTPAccepted)
     /\ (record_deleted r = false -> record_deleted r' = false)
     /\ (forall d,
           delete_timestamp r = Some d -> record_deleted r = true ->
           (record_deleted r' = true
            <-> (timestamp_value t < timestamp_value d)%Q))).
Proof.
  intros Hsplit Hc Hvalid Hmounted Hgiven Hnorm Hs.
  rewrite (PUT_account_path _ _ _ _ _ _ _ Hsplit Hc Hvalid Hmounted).
  split; intros Hm.
  - rewrite (PUT_account_marked _ _ _ _ _ _ Hgiven Hnorm Hs Hm).
    eexists. split; reflexivity.
  - destruct (PUT_account_unmarked _ _ _ _ _ _ Hgiven Hnorm Hs Hm)
      as (w' & r' & Hrun & Hs' & Hp & Hd & _).
    assert (record_deleted r' = record_deleted (advanced t r)) as Hext
      by (apply record_deleted_ext; assumption).
    eexists _, w', r'. split; [exact Hrun|]. split; [exact Hs'|].
    split; [exact Hp|]. split; [exact Hd|]. rewrite Hext.
    split; [reflexivity|]. split.
    + apply advanced_not_deleted.
    + intros d Hdel Hwas. apply advanced_still_deleted; assumption.
Qed.

(** C3. Two account PUTs on the same account (well-formed paths, mounted
    device, timestamps T1 < T2 accepted by [normalize_timestamp]), applied
    in either order to an account without a record, leave T2, the larger
    of the two, as the stored [put_timestamp]; the PUT with the smaller
    timestamp, applied after the larger one, is answered with 202 Accepted
    and leaves [put_timestamp] unchanged. On an existing record without
    the status marker both orders leave the later of the stored timestamp
    and T2; and a PUT whose timestamp is below the stored [put_timestamp]
    of a record that is not deleted is answered with 202 and leaves
    [put_timestamp] unchanged. *)
Theorem C3_monotonic_put self req1 req2 w drive part account c1 c2 g1 g2
    t1 t2 :
  split_path (path_info req1) 3 4
    = inr [Some drive; Some part; Some account; c1] ->
  Py.truthy_opt c1 = false ->
  split_path (path_info req2) 3 4
    = inr [Some drive; Some part; Some account; c2] ->
  Py.truthy_opt c2 = false ->
  validate_device_partition drive part = None ->
  insufficient_storage self drive = false ->
  header_lookup (headers req1) "x-timestamp" = Some g1 ->
  normalize_timestamp g1 = inr t1 ->
  header_lookup (headers req2) "x-timestamp" = Some g2 ->
  normalize_timestamp g2 = inr t2 ->
  (timestamp_value t1 < timestamp_value t2)%Q ->
  (stored (_get_account_broker self drive part account) w = None ->
   (exists r12,
      stored (_get_account_broker self drive part account)
        (after (PUT self req2) (after (PUT self req1) w)) = Some r12
      /\ put_timestamp r12 = t2) /\
   (exists r2 r21,
      stored (_get_account_broker self drive part account)
        (after (PUT self req2) w) = Some r2
      /\ put_timestamp r2 = t2
      /\ answer (PUT self req1) (after (PUT self req2) w)
         = inr (plain_response HTTPAccepted)
      /\ stored (_get_account_broker self drive part account)
           (after (PUT self req1) (after (PUT self req2) w)) = Some r21
      /\ put_timestamp r21 = t2)) /\
  (forall r,
     stored (_get_account_broker self drive part account) w = Some r ->
     status_marker r = Active ->
     (exists r12,
        stored (_get_account_broker self drive part account)
          (after (PUT self req2) (after (PUT self req1) w)) = Some r12
        /\ put_timestamp r12 = later (put_timestamp r) t2) /\
     (exists r21,
        stored (_get_account_broker self drive part account)
          (after (PUT self req1) (after (PUT self req2) w)) = Some r21
        /\ put_timestamp r21 = later (put_timestamp r) t2) /\
     (record_deleted r = false -> newer (put_timestamp r) t1 = true ->
      answer (PUT self req1) w = inr (plain_response HTTPAccepted)
      /\ exists r1,
           stored (_get_account_broker self drive part account)
             (after (PUT self req1) w) = Some r1
           /\ put_timestamp r1 = put_timestamp r)).
Proof.
  intros Hsplit1 Hc1 Hsplit2 Hc2 Hvalid Hmounted Hg1 Hn1 Hg2 Hn2 Hlt.
  set (b := _get_account_broker self drive part account).
  assert (forall v, PUT self req1 v = PUT_account req1 b v) as Hput1
    by (intros v; apply (PUT_account_path _ _ _ _ _ _ _ Hsplit1 Hc1 Hvalid
                           Hmounted)).
  assert (forall v, PUT self req2 v = PUT_account req2 b v) as Hput2
    by (intros v; apply (PUT_account_path _ _ _ _ _ _ _ Hsplit2 Hc2 Hvalid
                           Hmounted)).
  unfold after, answer. setoid_rewrite Hput1. setoid_rewrite Hput2.
  split.
  - intros Hs. split.
    + destruct (PUT_account_fresh req1 b w g1 t1 Hg1 Hn1 Hs)
        as (w1 & r1 & -> & Hs1 & Hp1 & Hd1 & Hm1). cbn [snd].
      destruct (PUT_account_unmarked req2 b w1 g2 t2 r1 Hg2 Hn2 Hs1 Hm1)
        as (w2 & r12 & -> & Hs2 & Hp2 & _). cbn [snd].
      exists r12. split; [exact Hs2|]. rewrite Hp2, Hp1.
      apply later_larger, newer_spec, Hlt.
    + destruct (PUT_account_fresh req2 b w g2 t2 Hg2 Hn2 Hs)
        as (w2 & r2 & -> & Hs2 & Hp2 & Hd2 & Hm2). cbn [snd].
      destruct (PUT_account_unmarked req1 b w2 g1 t1 r2 Hg1 Hn1 Hs2 Hm2)
        as (w1 & r21 & -> & Hs1 & Hp1 & _). cbn [snd fst].
      assert (record_deleted r2 = false) as Hlive
        by (unfold record_deleted; rewrite Hd2; reflexivity).
      rewrite (advanced_not_deleted t1 r2 Hlive), Hlive.
      exists r2, r21. repeat split; try assumption.
      rewrite Hp1, Hp2. apply later_smaller, newer_spec, Hlt.
  - intros r Hs Hm.
    destruct (later_either_order (put_timestamp r) t1 t2 Hlt) as [H12 H21].
    split; [|split].
    + destruct (PUT_account_unmarked req1 b w g1 t1 r Hg1 Hn1 Hs Hm)
        as (w1 & r1 & -> & Hs1 & Hp1 & _ & Hm1). cbn [snd].
      destruct (PUT_account_unmarked req2 b w1 g2 t2 r1 Hg2 Hn2 Hs1 Hm1)
        as (w2 & r12 & -> & Hs2 & Hp2 & _). cbn [snd].
      exists r12. split; [exact Hs2|]. rewrite Hp2, Hp1. exact H12.
    + destruct (PUT_account_unmarked req2 b w g2 t2 r Hg2 Hn2 Hs Hm)
        as (w2 & r2 & -> & Hs2 & Hp2 & _ & Hm2). cbn [snd].
      destruct (PUT_account_unmarked req1 b w2 g1 t1 r2 Hg1 Hn1 Hs2 Hm2)
        as (w1 & r21 & -> & Hs1 & Hp1 & _). cbn [snd].
      exists r21. split; [exact Hs1|]. rewrite Hp1, Hp2. exact H21.
    + intros Hlive Hsmaller.
      destruct (PUT_account_unmarked req1 b w g1 t1 r Hg1 Hn1 Hs Hm)
        as (w1 & r1 & -> & Hs1 & Hp1 & _). cbn [snd fst].
      rewrite (advanced_not_deleted t1 r Hlive), Hlive.
      split; [reflexivity|]. exists r1. split; [exact Hs1|].
      rewrite Hp1. apply later_smaller, Hsmaller.
Qed.

End AccountPutProperties.

(* ===================================================================== *)
(** ** DELETE *)
(* ===================================================================== *)

Section Delete.
Context `{Collaborators}.

Lemma DELETE_timestamp_accepted req timestamp :
  header_lookup (headers req) "x-timestamp" = Some timestamp ->
  check_float timestamp = true ->
  negb (header_in req "x-timestamp")
  || negb (check_float (header_get req "x-timestamp" "")) = false.
Proof.
  intros Hgiven Hfloat. unfold header_in, header_get.
  rewrite Hgiven, Hfloat. reflexivity.
Qed.

(** DELETE and POST answer 400 when the timestamp header is missing. *)
Lemma DELETE_without_timestamp self req w drive part account :
  split_and_validate req = inr (drive, part, account) ->
  insufficient_storage self drive = false ->
  header_lookup (headers req) "x-timestamp" = None ->
  DELETE self req w = (inr (text_response HTTPBadRequest "Missing timestamp"), w).
Proof.
  intros Hpath Hmounted Hmissing. unfold DELETE, header_in.
  rewrite Hpath, Hmounted, Hmissing. reflexivity.
Qed.

Lemma POST_without_timestamp self req w drive part account :
  split_and_validate req = inr (drive, part, account) ->
  header_lookup (headers req) "x-timestamp" = None ->
  POST self req w =
    (inr (text_response HTTPBadRequest "Missing or bad timestamp"), w).
Proof.
  intros Hpath Hmissing. unfold POST, header_in.
  rewrite Hpath, Hmissing. reflexivity.
Qed.

(** C4. A DELETE with a valid timestamp (well-formed path, mounted device)
    on a record that is already deleted is answered with the tombstoned
    404 and writes nothing: the database files are as before. On a record
    that is not deleted it applies the accessor's tombstone at the given
    timestamp and is answered with 204: afterwards the record holds the
    later of its previous deletion timestamp and the given one, and a
    deletion newer than the recorded one (or the first one) sets both
    [delete_timestamp] and the status marker. *)
Theorem C4_delete self req w drive part account timestamp r :
  split_and_validate req = inr (drive, part, account) ->
  insufficient_storage self drive = false ->
  header_lookup (headers req) "x-timestamp" = Some timestamp ->
  check_float timestamp = true ->
  stored (_get_account_broker self drive part account) w = Some r ->
  (record_deleted r = true ->
   exists w',
     DELETE self req w =
       (inr (mkResponse HTTPNotFound (status_header (Some r)) "" None), w')
     /\ dbs w' = dbs w) /\
  (record_deleted r = false ->
   exists resp w',
     DELETE self req w = (inr resp, w')
     /\ status resp = HTTPNoContent
     /\ dbs w' =
        <[db_file (_get_account_broker self drive part account)
            := tombstone timestamp r]> (dbs w)
     /\ delete_timestamp (tombstone timestamp r) =
        Some match delete_timestamp r with
             | None => timestamp
             | Some d => later d timestamp
             end
     /\ (match delete_timestamp r with
         | None => True
         | Some d => newer timestamp d = true
         end ->
         delete_timestamp (tombstone timestamp r) = Some timestamp
         /\ status_marker (tombstone timestamp r) = Deleted)).
Proof.
  intros Hpath Hmounted Hgiven Hfloat Hs.
  set (b := _get_account_broker self drive part account) in *.
  assert (forall d, record_deleted r = d ->
    DELETE self req w =
      if d then _deleted_response b req HTTPNotFound ""
                  (logged b call_is_deleted w)
      else
        match delete_db b timestamp (logged b call_is_deleted w) with
        | (inl e, w1) => (inl e, w1)
        | (inr _, w1) => _deleted_response b req HTTPNoContent "" w1
        end) as Hrun.
  { intros d Hd. unfold DELETE.
    rewrite Hpath, Hmounted,
      (DELETE_timestamp_accepted req timestamp Hgiven Hfloat).
    fold b. run. rewrite is_deleted_run, Hs, Hd.
    destruct d; [reflexivity|].
    unfold header_getitem. rewrite Hgiven. reflexivity. }
  split; intros Hd; rewrite (Hrun _ Hd).
  - rewrite _deleted_response_run, stored_logged, Hs.
    eexists. split; reflexivity.
  - rewrite (delete_db_run b timestamp _ r)
      by (rewrite stored_logged; exact Hs).
    rewrite _deleted_response_run.
    eexists _, _. split; [reflexivity|]. split; [reflexivity|].
    split; [reflexivity|]. split; [apply tombstone_delete_timestamp|].
    intros Hnewer. rewrite (tombstone_newer timestamp r Hnewer).
    split; reflexivity.
Qed.

End Delete.

(** DELETE at 300 on the account deleted at 200: the tombstoned 404, and
    the database is as before. *)
Lemma C4_delete_witness :
  let req := mkRequest "DELETE" "/sda1/0/acct" [("X-Timestamp", "300")] []
               "" "" in
  exists w',
    @DELETE Model.node Model.controller req
      (Model.account_world Model.deleted_account) =
      (inr (mkResponse HTTPNotFound [("X-Account-Status", "Deleted")] ""
              None), w')
    /\ dbs w' = dbs (Model.account_world Model.deleted_account).
Proof.
  intros req.
  destruct (@C4_delete Model.node Model.controller req
              (Model.account_world Model.deleted_account)
              "sda1" "0" "acct" "300" Model.deleted_account
              eq_refl eq_refl eq_refl eq_refl eq_refl) as [Hdeleted _].
  exact (Hdeleted eq_refl).
Defined.

(** An account PUT at 300 on the account deleted at 200, which carries the
    status marker: 403, and the database is as before. *)
Lemma C2_account_put_existing_witness :
  let req := mkRequest "PUT" "/sda1/0/acct" [("X-Timestamp", "300")] []
               "" "" in
  exists w',
    @PUT Model.node Model.controller req
      (Model.account_world Model.deleted_account) =
      (inr (mkResponse HTTPForbidden [("X-Account-Status", "Deleted")]
              "Recently deleted" None), w')
    /\ dbs w' = dbs (Model.account_world Model.deleted_account).
Proof.
  intros req.
  destruct (@C2_account_put_existing Model.node Model.controller req
              (Model.account_world Model.deleted_account)
              "sda1" "0" "acct" None "300" "0000000300.00000"
              Model.deleted_account
              eq_refl eq_refl eq_refl eq_refl eq_refl eq_refl eq_refl)
    as [Hmarked _].
  exact (Hmarked eq_refl).
Defined.

(** The record was deleted at 200; an account PUT with T3 = 200, which is
    not above the delete timestamp, is answered with 201 Created, not
    409 Conflict: the advance makes [put_timestamp] equal to
    [delete_timestamp], and the record is deleted only while
    [delete_timestamp] is strictly larger. *)
Lemma C2_counterexample :
  let req := mkRequest "PUT" "/sda1/0/acct" [("X-Timestamp", "200")] []
               "" "" in
  delete_timestamp Model.flagged_account = Some "0000000200.00000" /\
  status_marker Model.flagged_account = Active /\
  @record_deleted Model.node Model.flagged_account = true /\
  Model.normalize_timestamp "200" = inr "0000000200.00000" /\
  (Model.timestamp_value "0000000200.00000"
   <= Model.timestamp_value "0000000200.00000")%Q /\
  answer (@PUT Model.node Model.controller req)
    (Model.account_world Model.flagged_account)
  = inr (plain_response HTTPCreated).
Proof.
  intros req. repeat split; try reflexivity.
  vm_compute. discriminate.
Qed.

(** The first example scenario: PUT at 100 then PUT at 50, and the other
    way round. *)
Lemma C3_monotonic_put_witness :
  let req1 := mkRequest "PUT" "/sda1/0/acct" [("X-Timestamp", "50")] []
                "" "" in
  let req2 := mkRequest "PUT" "/sda1/0/acct" [("X-Timestamp", "100")] []
                "" "" in
  exists r2 r21,
    stored (@_get_account_broker Model.node Model.controller "sda1" "0"
              "acct")
      (after (@PUT Model.node Model.controller req2) Model.empty_world)
    = Some r2
    /\ put_timestamp r2 = "0000000100.00000"
    /\ answer (@PUT Model.node Model.controller req1)
         (after (@PUT Model.node Model.controller req2) Model.empty_world)
       = inr (plain_response HTTPAccepted)
    /\ stored (@_get_account_broker Model.node Model.controller "sda1" "0"
                 "acct")
         (after (@PUT Model.node Model.controller req1)
            (after (@PUT Model.node Model.controller req2)
               Model.empty_world))
       = Some r21
    /\ put_timestamp r21 = "0000000100.00000".
Proof.
  intros req1 req2.
  destruct (@C3_monotonic_put Model.node Model.controller req1 req2
              Model.empty_world "sda1" "0" "acct" None None "50" "100"
              "0000000050.00000" "0000000100.00000"
              eq_refl eq_refl eq_refl eq_refl eq_refl eq_refl eq_refl
              eq_refl eq_refl eq_refl eq_refl) as [Hfresh _].
  exact (proj2 (Hfresh eq_refl)).
Defined.

(* ===================================================================== *)
(** ** Fixed-format timestamps *)
(* ===================================================================== *)

(** On timestamps in the fixed format the order on strings, which the
    container PUT uses, is the order on the numbers they denote. *)
Section FixedFormat.

Lemma int_acc_shift s acc :
  Py.int_acc acc s
  = (acc * 10 ^ Z.of_nat (String.length s) + Py.int_acc 0 s)%Z.
Proof.
  revert acc. induction s as [|c s IH]; intros acc.
  - cbn. lia.
  - cbn [Py.int_acc String.length]. rewrite IH, (IH (10 * 0 + _)%Z).
    rewrite Nat2Z.inj_succ, Z.pow_succ_r by lia. ring.
Qed.

Lemma digit_value_bounds c :
  Py.is_digit c = true -> (0 <= Py.digit_value c < 10)%Z.
Proof.
  unfold Py.is_digit, Py.digit_value.
  rewrite andb_true_iff, !Z.leb_le. lia.
Qed.

Lemma int_bounds s :
  Py.all_digits s = true ->
  (0 <= Py.int s < 10 ^ Z.of_nat (String.length s))%Z.
Proof.
  unfold Py.int. induction s as [|c s IH]; cbn [Py.all_digits].
  - intros _. cbn. lia.
  - rewrite andb_true_iff. intros [Hc Hs].
    cbn [Py.int_acc String.length]. rewrite int_acc_shift.
    rewrite Nat2Z.inj_succ, Z.pow_succ_r by lia.
    pose proof (digit_value_bounds c Hc). specialize (IH Hs). nia.
Qed.

Lemma int_app a b :
  Py.int (a +:+ b)
  = (Py.int a * 10 ^ Z.of_nat (String.length b) + Py.int b)%Z.
Proof.
  unfold Py.int. rewrite <- int_acc_shift. generalize 0%Z.
  induction a as [|c a IH]; intros acc; cbn [String.append Py.int_acc].
  - reflexivity.
  - apply IH.
Qed.

Lemma ascii_compare_digits c1 c2 :
  Ascii.compare c1 c2 = (Py.digit_value c1 ?= Py.digit_value c2)%Z.
Proof.
  unfold Ascii.compare, Py.digit_value, Py.ord_ascii.
  rewrite <- (N2Z.inj_compare (N_of_ascii c1) (N_of_ascii c2)).
  destruct (Z.compare_spec (Z.of_N (N_of_ascii c1)) (Z.of_N (N_of_ascii c2)));
    symmetry;
    [apply Z.compare_eq_iff|apply Z.compare_lt_iff|apply Z.compare_gt_iff];
    lia.
Qed.

(** Digit strings of the same length compare as the numbers they denote. *)
Lemma compare_digits a b :
  String.length a = String.length b ->
  Py.all_digits a = true -> Py.all_digits b = true ->
  String.compare a b = (Py.int a ?= Py.int b)%Z.
Proof.
  revert b. induction a as [|c1 a IH]; intros [|c2 b]; try discriminate.
  - reflexivity.
  - cbn [String.length Py.all_digits String.compare].
    rewrite !andb_true_iff. intros [= Hlen] [Hc1 Ha] [Hc2 Hb].
    unfold Py.int. cbn [Py.int_acc].
    rewrite (int_acc_shift a), (int_acc_shift b), <- Hlen.
    pose proof (digit_value_bounds c1 Hc1).
    pose proof (digit_value_bounds c2 Hc2).
    pose proof (int_bounds a Ha) as Hia. pose proof (int_bounds b Hb) as Hib.
    unfold Py.int in Hia, Hib, IH. rewrite <- Hlen in Hib.
    rewrite ascii_compare_digits.
    destruct (Z.compare_spec (Py.digit_value c1) (Py.digit_value c2))
      as [Heq|Hlt|Hgt].
    + rewrite (IH b Hlen Ha Hb), Heq.
      symmetry. rewrite Z.add_compare_mono_l. reflexivity.
    + symmetry. apply Z.compare_lt_iff. nia.
    + symmetry. apply Z.compare_gt_iff. nia.
Qed.

Lemma compare_app a b r r' :
  String.length a = String.length b ->
  String.compare (a +:+ r) (b +:+ r') =
    match String.compare a b with
    | Eq => String.compare r r'
    | c => c
    end.
Proof.
  revert b. induction a as [|c1 a IH]; intros [|c2 b]; try discriminate.
  - reflexivity.
  - intros [= Hlen].
    change ((String c1 a +:+ r ?= String c2 b +:+ r')%string) with
      (match Ascii.compare c1 c2 with
       | Eq => (a +:+ r ?= b +:+ r')%string
       | c => c
       end).
    cbn [String.compare].
    destruct (Ascii.compare c1 c2); [apply IH, Hlen|reflexivity..].
Qed.

Lemma cut_append sep s a r :
  Model.cut sep s = Some (a, r) -> s = a +:+ String sep r.
Proof.
  revert a. induction s as [|c s IH]; intros a; [discriminate|].
  cbn [Model.cut]. destruct (Ascii.eqb_spec c sep) as [->|_].
  - intros [= <- <-]. reflexivity.
  - destruct (Model.cut sep s) as [[a' r']|]; [|discriminate].
    intros [= <- <-].
    change (String c a' +:+ String sep r')
      with (String c (a' +:+ String sep r')).
    f_equal. apply IH. reflexivity.
Qed.

Lemma fixed_format_parts s :
  Model.fixed_format s = true ->
  exists i f,
    s = i +:+ String "." f
    /\ String.length i = 10%nat /\ String.length f = 5%nat
    /\ Py.all_digits i = true /\ Py.all_digits f = true
    /\ Model.timestamp_value s
       = Qmake (Py.int i * 100000 + Py.int f) 100000.
Proof.
  unfold Model.fixed_format, Model.timestamp_value, Model.decimal_parts.
  destruct (Model.cut "." s) as [[i f]|] eqn:Hcut; [|discriminate].
  rewrite !andb_true_iff, !Nat.eqb_eq. intros [[[Hi Hf] Hdi] Hdf].
  exists i, f. rewrite (cut_append _ _ _ _ Hcut).
  repeat split; try assumption.
  assert (Py.isdigit i = true) as ->
    by (destruct i; [discriminate|exact Hdi]).
  rewrite Hdf. cbn [andb]. rewrite int_app, Hf. reflexivity.
Qed.

(** X25. The comparison of the container PUT, on two fixed-format timestamps,
    is the comparison of their values. *)
Lemma fixed_format_string_order put_ts delete_ts :
  Model.fixed_format put_ts = true ->
  Model.fixed_format delete_ts = true ->
  Py.str_gt delete_ts put_ts = true
  <-> (Model.timestamp_value put_ts < Model.timestamp_value delete_ts)%Q.
Proof.
  intros Hp Hd.
  destruct (fixed_format_parts _ Hp)
    as (ip & fp & -> & Hip & Hfp & Hdip & Hdfp & ->).
  destruct (fixed_format_parts _ Hd)
    as (id & fd & -> & Hid & Hfd & Hdid & Hdfd & ->).
  unfold Py.str_gt, String.ltb.
  rewrite compare_app by congruence.
  cbn [String.compare]. change (Ascii.compare "." ".") with Eq. cbn match.
  rewrite (compare_digits ip id) by (congruence || assumption).
  rewrite (compare_digits fp fd) by (congruence || assumption).
  pose proof (int_bounds fp Hdfp) as Hbp. rewrite Hfp in Hbp.
  pose proof (int_bounds fd Hdfd) as Hbd. rewrite Hfd in Hbd.
  change (10 ^ Z.of_nat 5)%Z with 100000%Z in Hbp, Hbd.
  unfold Qlt. cbn [Qnum Qden].
  destruct (Z.compare_spec (Py.int ip) (Py.int id)) as [Heq|Hlt|Hgt].
  - destruct (Z.compare_spec (Py.int fp) (Py.int fd)); split;
      (discriminate || reflexivity || lia).
  - split; [intros _; lia|reflexivity].
  - split; [discriminate|lia].
Qed.

End FixedFormat.

(* ===================================================================== *)
(** ** Relations kept by computations *)
(* ===================================================================== *)

(** Decompose a goal [keeps R m] along the structure of [m]. *)
Ltac keeps_split lemma_ret lemma_raise lemma_lift lemma_bind lemma_try :=
  repeat match goal with
  | |- keeps _ (mret _) => apply lemma_ret
  | |- keeps _ (raise _) => apply lemma_raise
  | |- keeps _ (lift _) => apply lemma_lift
  | |- keeps _ (mbind _ _) => apply lemma_bind; [|intros ?]
  | |- keeps _ (try_except _ _) =>
      apply lemma_try;
      [|let e := fresh "e" in
        let h := fresh "h" in
        let Hh := fresh "Hh" in
        intros e h Hh; destruct e; inversion Hh; subst; clear Hh]
  | |- keeps _ (let '(_, _) := ?x in _) => destruct x
  | |- keeps _ (match ?x with _ => _ end) => destruct x
  end.

Section Keeps.
Context `{Collaborators}.
Variable R : world -> world -> Prop.
Hypothesis R_refl : forall w, R w w.
Hypothesis R_trans : forall w1 w2 w3, R w1 w2 -> R w2 w3 -> R w1 w3.
Hypothesis R_logged : forall b c w, R w (logged b c w).

Lemma keeps_ret {A : Type} (a : A) : keeps R (mret a).
Proof. intros w. apply R_refl. Qed.

Lemma keeps_raise {A : Type} (e : exn) : keeps R (raise (A := A) e).
Proof. intros w. apply R_refl. Qed.

Lemma keeps_lift {A : Type} (r : exn + A) : keeps R (lift r).
Proof. intros w. apply R_refl. Qed.

Lemma keeps_bind {A B : Type} (f : A -> M B) (m : M A) :
  keeps R m -> (forall a, keeps R (f a)) -> keeps R (mbind f m).
Proof.
  intros Hm Hf w. unfold mbind, M_bind. specialize (Hm w).
  destruct (m w) as [[e|a] w1]; cbn [snd] in *; [exact Hm|].
  eapply R_trans; [exact Hm|apply Hf].
Qed.

Lemma keeps_try_except {A : Type} (body : M A) handler :
  keeps R body ->
  (forall e h, handler e = Some h -> keeps R h) ->
  keeps R (try_except body handler).
Proof.
  intros Hbody Hhandler w. unfold try_except. specialize (Hbody w).
  destruct (body w) as [[e|a] w1]; cbn [snd] in *; [|exact Hbody].
  destruct (handler e) as [h|] eqn:Hh; [|exact Hbody].
  eapply R_trans; [exact Hbody|]. apply (Hhandler e h Hh).
Qed.

Ltac keeps_auto :=
  keeps_split (@keeps_ret) (@keeps_raise) (@keeps_lift) (@keeps_bind)
    (@keeps_try_except).

Lemma keeps_log_access b c : keeps R (log_access b c).
Proof. intros w. apply R_logged. Qed.

Lemma keeps_db_file_exists b : keeps R (db_file_exists b).
Proof. intros w. apply R_refl. Qed.

Lemma keeps_get_stored b : keeps R (get_stored b).
Proof. intros w. apply R_refl. Qed.

Lemma keeps_require_stored b : keeps R (require_stored b).
Proof.
  unfold require_stored. keeps_auto. apply keeps_get_stored.
Qed.

Lemma keeps_is_deleted b : keeps R (is_deleted b).
Proof.
  unfold is_deleted. keeps_auto;
    [apply keeps_log_access|apply keeps_get_stored].
Qed.

Lemma keeps_is_status_deleted b : keeps R (is_status_deleted b).
Proof.
  unfold is_status_deleted. keeps_auto;
    [apply keeps_log_access|apply keeps_require_stored].
Qed.

Lemma keeps__deleted_response b req s body :
  keeps R (_deleted_response b req s body).
Proof.
  unfold _deleted_response. keeps_auto. apply keeps_is_status_deleted.
Qed.

Lemma keeps_get_info b : keeps R (get_info b).
Proof.
  unfold get_info. keeps_auto;
    [apply keeps_log_access|apply keeps_require_stored].
Qed.

Lemma keeps_broker_metadata b : keeps R (broker_metadata b).
Proof.
  unfold broker_metadata. keeps_auto;
    [apply keeps_log_access|apply keeps_require_stored].
Qed.

Lemma keeps_listing_response b req ctype limit marker end_marker prefix
    delimiter :
  keeps R (listing_response b req ctype limit marker end_marker prefix
             delimiter).
Proof.
  unfold listing_response. keeps_auto;
    [apply keeps_log_access|apply keeps_require_stored].
Qed.

(** HEAD only reads. *)
Lemma keeps_HEAD self req : keeps R (HEAD self req).
Proof.
  unfold HEAD. keeps_auto;
    first [apply keeps_is_deleted|apply keeps__deleted_response
          |apply keeps_get_info|apply keeps_broker_metadata].
Qed.

Lemma keeps_GET_listing self req drive part account limit marker end_marker
    prefix delimiter :
  keeps R (GET_listing self req drive part account limit marker end_marker
             prefix delimiter).
Proof.
  unfold GET_listing. keeps_auto;
    first [apply keeps_is_deleted|apply keeps__deleted_response
          |apply keeps_listing_response].
Qed.

(** GET only reads. *)
Lemma keeps_GET self req : keeps R (GET self req).
Proof.
  unfold GET. keeps_auto. apply keeps_GET_listing.
Qed.

End Keeps.

(* ===================================================================== *)
(** ** What the handlers never do to the store *)
(* ===================================================================== *)

Section ReadOnly.
Context `{Collaborators}.

Lemma same_files_refl w : same_files w w.
Proof. reflexivity. Qed.

Lemma same_files_trans w1 w2 w3 :
  same_files w1 w2 -> same_files w2 w3 -> same_files w1 w3.
Proof. unfold same_files. congruence. Qed.

Lemma same_files_logged b c w : same_files w (logged b c w).
Proof. reflexivity. Qed.

(** X2. HEAD and GET are reads: whatever the request and whatever the answer
    (listing, 404, 406, 412, 507, or an exception on the way), the database
    files afterwards are the ones before. *)
Theorem HEAD_GET_read_only self req w :
  dbs (after (HEAD self req) w) = dbs w /\
  dbs (after (GET self req) w) = dbs w.
Proof.
  split; symmetry.
  - apply (keeps_HEAD same_files same_files_refl same_files_trans
             same_files_logged self req w).
  - apply (keeps_GET same_files same_files_refl same_files_trans
             same_files_logged self req w).
Qed.

End ReadOnly.

Section Monotone.
Context `{Collaborators}.

Lemma timestamp_le_refl a : timestamp_le a a.
Proof. unfold timestamp_le. lra. Qed.

Lemma timestamp_le_trans a b c :
  timestamp_le a b -> timestamp_le b c -> timestamp_le a c.
Proof. unfold timestamp_le. intros. lra. Qed.

Lemma deletion_le_refl d : deletion_le d d.
Proof. destruct d; cbn; [apply timestamp_le_refl|exact I]. Qed.

Lemma deletion_le_trans d1 d2 d3 :
  deletion_le d1 d2 -> deletion_le d2 d3 -> deletion_le d1 d3.
Proof.
  destruct d1, d2, d3; cbn; try tauto. apply timestamp_le_trans.
Qed.

Lemma record_le_refl r : record_le r r.
Proof.
  unfold record_le. split; [reflexivity|].
  split; [apply timestamp_le_refl|]. split; [apply deletion_le_refl|].
  tauto.
Qed.

Lemma record_le_trans r1 r2 r3 :
  record_le r1 r2 -> record_le r2 r3 -> record_le r1 r3.
Proof.
  intros (Hc & Hp & Hd & Hm & Hk & Hmd) (Hc' & Hp' & Hd' & Hm' & Hk' & Hmd').
  unfold record_le. split; [congruence|].
  split; [eapply timestamp_le_trans; eassumption|].
  split; [eapply deletion_le_trans; eassumption|].
  split; [tauto|]. split; intros x Hx; eauto.
Qed.

Lemma world_le_refl w : world_le w w.
Proof. intros path r Hr. exists r. split; [exact Hr|apply record_le_refl]. Qed.

Lemma world_le_trans w1 w2 w3 :
  world_le w1 w2 -> world_le w2 w3 -> world_le w1 w3.
Proof.
  intros H12 H23 path r1 Hr1.
  destruct (H12 path r1 Hr1) as (r2 & Hr2 & Hle12).
  destruct (H23 path r2 Hr2) as (r3 & Hr3 & Hle23).
  exists r3. split; [exact Hr3|]. eapply record_le_trans; eassumption.
Qed.

Lemma world_le_logged b c w : world_le w (logged b c w).
Proof. exact (world_le_refl w). Qed.

Lemma world_le_updated b w r r' :
  stored b w = Some r -> record_le r r' -> world_le w (written b r' w).
Proof.
  intros Hs Hle path r0 Hr0. unfold written; cbn [dbs].
  destruct (decide (db_file b = path)) as [<-|Hne].
  - rewrite lookup_insert_eq. exists r'. split; [reflexivity|].
    unfold stored in Hs. congruence.
  - rewrite lookup_insert_ne by exact Hne.
    exists r0. split; [exact Hr0|apply record_le_refl].
Qed.

Lemma world_le_created b w r' :
  stored b w = None -> world_le w (written b r' w).
Proof.
  intros Hs path r0 Hr0. unfold written; cbn [dbs].
  destruct (decide (db_file b = path)) as [<-|Hne].
  - unfold stored in Hs. congruence.
  - rewrite lookup_insert_ne by exact Hne.
    exists r0. split; [exact Hr0|apply record_le_refl].
Qed.

Lemma record_le_advanced t r : record_le r (advanced t r).
Proof.
  unfold record_le, advanced; cbn. split; [reflexivity|].
  split; [apply later_value_ge_stored|]. split; [apply deletion_le_refl|].
  tauto.
Qed.

Lemma record_le_tombstone t r : record_le r (tombstone t r).
Proof.
  unfold tombstone. destruct (delete_timestamp r) as [d|] eqn:Hd.
  - destruct (newer t d) eqn:Hn; [|apply record_le_refl].
    unfold record_le; cbn. rewrite Hd. split; [reflexivity|].
    split; [apply timestamp_le_refl|]. split; [|tauto].
    cbn. apply newer_spec in Hn. unfold timestamp_le. lra.
  - unfold record_le; cbn. rewrite Hd. split; [reflexivity|].
    split; [apply timestamp_le_refl|]. cbn. tauto.
Qed.

Lemma record_le_upserted name p d oc bu r :
  record_le r (upserted name p d oc bu r).
Proof.
  unfold record_le, upserted; cbn. split; [reflexivity|].
  split; [apply timestamp_le_refl|]. split; [apply deletion_le_refl|].
  split; [tauto|]. split; [|tauto].
  intros name' Hname. apply lookup_insert_is_Some.
  destruct (decide (name = name')); [left|right]; tauto.
Qed.

Lemma merge_metadata_item_keeps md item key :
  is_Some (md !! key) -> is_Some (merge_metadata_item md item !! key).
Proof.
  intros Hkey. unfold merge_metadata_item.
  destruct (md !! item.1) as [old|];
    [destruct (newer _ _); [|exact Hkey]|];
    apply lookup_insert_is_Some;
    (destruct (decide (item.1 = key)); [left|right]; tauto).
Qed.

Lemma merge_metadata_keeps items md key :
  is_Some (md !! key) ->
  is_Some (foldl merge_metadata_item md items !! key).
Proof.
  revert md. induction items as [|item items IH]; intros md Hkey;
    [exact Hkey|].
  cbn [foldl]. apply IH, merge_metadata_item_keeps, Hkey.
Qed.

Lemma record_le_with_metadata items r : record_le r (with_metadata items r).
Proof.
  unfold record_le, with_metadata; cbn. split; [reflexivity|].
  split; [apply timestamp_le_refl|]. split; [apply deletion_le_refl|].
  split; [tauto|]. split; [tauto|].
  intros key. apply merge_metadata_keeps.
Qed.

(** An accessor update that moves the record forward keeps the order. *)
Lemma keeps_update b c (f : account_record -> account_record) :
  (forall r, record_le r (f r)) ->
  keeps world_le
    (_ ← log_access b c; r ← require_stored b; store b (f r)).
Proof.
  intros Hf w. unfold require_stored; run. rewrite stored_logged.
  destruct (stored b w) as [r|] eqn:Hs; cbn [snd].
  - eapply world_le_trans; [apply (world_le_logged b c)|].
    apply (world_le_updated b _ r); [exact Hs|apply Hf].
  - apply world_le_logged.
Qed.

Lemma keeps_initialize b t : keeps world_le (initialize b t).
Proof.
  intros w. unfold initialize; run. rewrite stored_logged.
  destruct (stored b w) as [r|] eqn:Hs.
  - rewrite bool_decide_eq_true_2 by eauto. apply world_le_logged.
  - rewrite bool_decide_eq_false_2 by (intros [x Hx]; discriminate).
    cbn [snd]. eapply world_le_trans;
      [apply (world_le_logged b call_initialize)|].
    apply world_le_created. exact Hs.
Qed.

Lemma keeps_update_put_timestamp b t :
  keeps world_le (update_put_timestamp b t).
Proof.
  apply (keeps_update b call_update_put_timestamp (advanced t)).
  apply record_le_advanced.
Qed.

Lemma keeps_delete_db b t : keeps world_le (delete_db b t).
Proof.
  apply (keeps_update b call_delete_db (tombstone t)).
  apply record_le_tombstone.
Qed.

Lemma keeps_put_container b name p d oc bu :
  keeps world_le (put_container b name p d oc bu).
Proof.
  apply (keeps_update b call_put_container (upserted name p d oc bu)).
  apply record_le_upserted.
Qed.

Lemma keeps_update_metadata b items :
  keeps world_le (update_metadata b items).
Proof.
  apply (keeps_update b call_update_metadata (with_metadata items)).
  apply record_le_with_metadata.
Qed.

Ltac order_auto :=
  keeps_split (@keeps_ret world_le world_le_refl)
    (@keeps_raise world_le world_le_refl)
    (@keeps_lift world_le world_le_refl)
    (@keeps_bind world_le world_le_trans)
    (@keeps_try_except world_le world_le_trans).

Ltac order_leaf :=
  first
    [ apply (keeps_is_deleted world_le world_le_refl world_le_trans
               world_le_logged)
    | apply (keeps_is_status_deleted world_le world_le_refl world_le_trans
               world_le_logged)
    | apply (keeps__deleted_response world_le world_le_refl world_le_trans
               world_le_logged)
    | apply (keeps_db_file_exists world_le world_le_refl)
    | apply keeps_initialize
    | apply keeps_update_put_timestamp
    | apply keeps_delete_db
    | apply keeps_put_container
    | apply keeps_update_metadata ].

Lemma keeps_DELETE self req : keeps world_le (DELETE self req).
Proof. unfold DELETE. order_auto; order_leaf. Qed.

Lemma keeps_POST self req : keeps world_le (POST self req).
Proof. unfold POST. order_auto; order_leaf. Qed.

Lemma keeps_PUT_container self req broker account container :
  keeps world_le (PUT_container self req broker account container).
Proof.
  unfold PUT_container, PUT_auto_create, PUT_account_gone,
    PUT_container_upsert.
  order_auto; order_leaf.
Qed.

Lemma keeps_PUT_account req broker : keeps world_le (PUT_account req broker).
Proof.
  unfold PUT_account, PUT_account_create. order_auto; order_leaf.
Qed.

Lemma keeps_PUT self req : keeps world_le (PUT self req).
Proof.
  unfold PUT. order_auto;
    first [apply keeps_PUT_container|apply keeps_PUT_account].
Qed.

Lemma keeps_client_handler h self req :
  h <> H_REPLICATE -> keeps world_le (run_handler h self req).
Proof.
  intros Hh. destruct h; cbn [run_handler]; try contradiction.
  - apply keeps_DELETE.
  - apply keeps_PUT.
  - apply (keeps_HEAD world_le world_le_refl world_le_trans world_le_logged).
  - apply (keeps_GET world_le world_le_refl world_le_trans world_le_logged).
  - apply keeps_POST.
Qed.

(** X1. Whatever request the dispatcher receives, unless its method is
    REPLICATE (which hands the files to the replication engine), every
    account database that existed before exists afterwards, with the same
    [created_at]; its [put_timestamp] and [delete_timestamp] have not
    moved back, a recorded deletion and the status marker are still
    there, and no container entry or metadata key has disappeared. This
    holds for every answer, errors and 500 included. *)
Theorem dispatcher_never_regresses self req w :
  method req <> "REPLICATE" ->
  world_le w (after (__call__ self req) w).
Proof.
  intros Hmethod. unfold after, __call__.
  destruct (negb (check_utf8 (path_info req))); [apply world_le_refl|].
  apply (keeps_try_except world_le world_le_trans).
  - rewrite resolve_method_gating.
    destruct (public_handler (method req)) as [h|] eqn:Hh;
      [|apply (keeps_ret world_le world_le_refl)].
    destruct (mode_permits (configured_mode self) h);
      [|apply (keeps_ret world_le world_le_refl)].
    apply keeps_client_handler. intros ->. apply Hmethod.
    unfold public_handler, getattr_self in Hh.
    repeat match type of Hh with
    | context [String.eqb ?a ?v] =>
        destruct (String.eqb_spec a v) as [Heq|_];
          [first [exact Heq|discriminate Hh]|]
    end.
    destruct (existsb _ _); discriminate.
  - intros e h [= <-]. apply (keeps_ret world_le world_le_refl).
Qed.

End Monotone.

(** A DELETE through the dispatcher leaves every database in a later
    state. *)
Lemma dispatcher_never_regresses_witness :
  let req := mkRequest "DELETE" "/sda1/0/acct" [("X-Timestamp", "300")] []
               "" "" in
  @world_le Model.node (Model.account_world Model.active_account)
    (after (@__call__ Model.node Model.controller req)
       (Model.account_world Model.active_account)).
Proof.
  intros req.
  apply (@dispatcher_never_regresses Model.node Model.controller req).
  discriminate.
Defined.

(* ===================================================================== *)
(** ** Rejections before any storage access *)
(* ===================================================================== *)

Section Rejections.
Context `{Collaborators}.

(** X6. The dispatcher always produces a response: an exception raised by a
    handler is answered with 500 Internal Server Error whose body is the
    formatted traceback, and the store stays as the handler left it when
    it raised (nothing is rolled back). *)
Theorem dispatcher_catches_everything self req w :
  (exists resp, answer (__call__ self req) w = inr resp) /\
  (forall h e w',
     check_utf8 (path_info req) = true ->
     resolve_method self req = Some h ->
     run_handler h self req w = (inl e, w') ->
     __call__ self req w =
       (inr (body_response HTTPInternalServerError (format_exc e)), w')) /\
  (forall h resp w',
     check_utf8 (path_info req) = true ->
     resolve_method self req = Some h ->
     run_handler h self req w = (inr resp, w') ->
     __call__ self req w = (inr resp, w')).
Proof.
  unfold answer, __call__, try_except. split; [|split].
  - destruct (negb (check_utf8 (path_info req))); [eexists; reflexivity|].
    destruct (resolve_method self req) as [h|]; [|eexists; reflexivity].
    destruct (run_handler h self req w) as [[e|resp] w'];
      eexists; reflexivity.
  - intros h e w' Hutf Hh Hrun. rewrite Hutf, Hh. cbn [negb].
    rewrite Hrun. reflexivity.
  - intros h resp w' Hutf Hh Hrun. rewrite Hutf, Hh. cbn [negb].
    rewrite Hrun. reflexivity.
Qed.

Lemma split_and_validate_drive self req drive part account :
  unmounted_target self req ->
  split_and_validate req = inr (drive, part, account) ->
  insufficient_storage self drive = true.
Proof.
  intros Hun. unfold split_and_validate.
  destruct (split_path (path_info req) 3 3) as [msg|segs] eqn:Hsplit;
    [discriminate|].
  destruct segs as [|[d|] [|[p|] [|[a|] [|? ?]]]]; try discriminate.
  destruct (validate_device_partition d p); [discriminate|].
  intros [= <- <- <-]. eapply (Hun 3%nat); [left; reflexivity|exact Hsplit].
Qed.

(** Reduce a handler that returns before it reaches the accessor. *)
Ltac early_exit Hmount :=
  repeat first
    [ rewrite Hmount
    | reflexivity
    | match goal with
      | |- context [match ?x with _ => _ end] => destruct x eqn:?
      end ];
  try congruence.

(** X3. When the device a request addresses is not mounted (and mount checking
    is on), no handler calls the accessor or the replication engine: the
    world afterwards, access log included, is the world before. *)
Theorem unmounted_device_untouched self req w h :
  unmounted_target self req ->
  after (run_handler h self req) w = w.
Proof.
  intros Hun. unfold after.
  destruct h; cbn [run_handler].
  - unfold DELETE.
    destruct (split_and_validate req) as [err|[[drive part] account]] eqn:Hp;
      [reflexivity|].
    rewrite (split_and_validate_drive _ _ _ _ _ Hun Hp). reflexivity.
  - unfold PUT.
    destruct (split_path (path_info req) 3 4) as [msg|segs] eqn:Hsplit;
      [reflexivity|].
    destruct segs as [|[d|] [|[p|] [|[a|] [|c [|? ?]]]]]; try reflexivity.
    destruct (validate_device_partition d p); [reflexivity|].
    rewrite (Hun 4%nat d _ (or_intror eq_refl) Hsplit). reflexivity.
  - unfold HEAD.
    destruct (split_and_validate req) as [err|[[drive part] account]] eqn:Hp;
      [reflexivity|].
    pose proof (split_and_validate_drive _ _ _ _ _ Hun Hp) as Hmount.
    run. early_exit Hmount.
  - unfold GET, GET_listing.
    destruct (split_and_validate req) as [err|[[drive part] account]] eqn:Hp;
      [reflexivity|].
    pose proof (split_and_validate_drive _ _ _ _ _ Hun Hp) as Hmount.
    run. early_exit Hmount.
  - unfold REPLICATE.
    destruct (split_and_validate req) as [err|[[drive part] account]] eqn:Hp;
      [reflexivity|].
    rewrite (split_and_validate_drive _ _ _ _ _ Hun Hp). reflexivity.
  - unfold POST.
    destruct (split_and_validate req) as [err|[[drive part] account]] eqn:Hp;
      [reflexivity|].
    pose proof (split_and_validate_drive _ _ _ _ _ Hun Hp) as Hmount.
    early_exit Hmount.
Qed.

(** X4. A path that [split_path] rejects is answered with 400 Bad Request by
    every handler, with the error text as the body and before anything
    else is looked at. *)
Theorem malformed_path_rejected self req w h msg :
  split_path (path_info req) 3 3 = inl msg ->
  split_path (path_info req) 3 4 = inl msg ->
  run_handler h self req w = (inr (text_response HTTPBadRequest msg), w).
Proof.
  intros H33 H34.
  destruct h; cbn [run_handler];
    unfold DELETE, PUT, HEAD, GET, REPLICATE, POST, split_and_validate;
    rewrite ?H33, ?H34; reflexivity.
Qed.

(** X5. DELETE and POST refuse a request whose X-Timestamp header is missing or
    rejected by [check_float] with 400 Bad Request, without calling the
    accessor; POST does so before the mount check, DELETE after it. *)
Theorem timestamp_required self req w drive part account :
  split_and_validate req = inr (drive, part, account) ->
  (header_lookup (headers req) "x-timestamp" = None \/
   exists v, header_lookup (headers req) "x-timestamp" = Some v
             /\ check_float v = false) ->
  POST self req w =
    (inr (text_response HTTPBadRequest "Missing or bad timestamp"), w) /\
  DELETE self req w =
    (inr (if insufficient_storage self drive
          then plain_response HTTPInsufficientStorage
          else text_response HTTPBadRequest "Missing timestamp"), w).
Proof.
  intros Hpath Hbad.
  assert (negb (header_in req "x-timestamp")
          || negb (check_float (header_get req "x-timestamp" "")) = true)
    as Hcheck.
  { unfold header_in, header_get.
    destruct Hbad as [->|(v & -> & ->)]; reflexivity. }
  unfold POST, DELETE. rewrite Hpath, Hcheck.
  destruct (insufficient_storage self drive); split; reflexivity.
Qed.

End Rejections.

(** A request for a device that is not mounted leaves the world as it
    was. *)
Lemma unmounted_device_untouched_witness :
  let req := mkRequest "PUT" "/sdz/0/acct" [("X-Timestamp", "100")] []
               "" "" in
  after (@run_handler Model.node H_PUT Model.controller req)
    Model.empty_world = Model.empty_world.
Proof.
  intros req.
  apply (@unmounted_device_untouched Model.node Model.controller req
           Model.empty_world H_PUT).
  intros maxsegs drive rest [->| ->] Hsplit; vm_compute in Hsplit;
    injection Hsplit as <- <-; reflexivity.
Defined.

(** A path with too few segments is answered with 400. *)
Lemma malformed_path_rejected_witness :
  let req := mkRequest "GET" "/sda1" [] [] "" "" in
  @run_handler Model.node H_GET Model.controller req Model.empty_world =
    (inr (text_response HTTPBadRequest "Invalid path: /sda1"),
     Model.empty_world).
Proof.
  intros req.
  exact (@malformed_path_rejected Model.node Model.controller req
           Model.empty_world H_GET "Invalid path: /sda1" eq_refl eq_refl).
Defined.

(** POST and DELETE with a timestamp that is not a number. *)
Lemma timestamp_required_witness :
  let req := mkRequest "POST" "/sda1/0/acct" [("X-Timestamp", "soon")] []
               "" "" in
  @POST Model.node Model.controller req Model.empty_world =
    (inr (text_response HTTPBadRequest "Missing or bad timestamp"),
     Model.empty_world) /\
  @DELETE Model.node Model.controller req Model.empty_world =
    (inr (text_response HTTPBadRequest "Missing timestamp"),
     Model.empty_world).
Proof.
  intros req.
  apply (@timestamp_required Model.node Model.controller req
           Model.empty_world "sda1" "0" "acct" eq_refl).
  right. exists "soon". split; reflexivity.
Defined.

(* ===================================================================== *)
(** ** POST and DELETE on an account *)
(* ===================================================================== *)

Section AccountUpdates.
Context `{Collaborators}.

Lemma timestamp_accepted req timestamp :
  header_lookup (headers req) "x-timestamp" = Some timestamp ->
  check_float timestamp = true ->
  negb (header_in req "x-timestamp")
  || negb (check_float (header_get req "x-timestamp" "")) = false.
Proof.
  intros Hgiven Hfloat. unfold header_in, header_get.
  rewrite Hgiven, Hfloat. reflexivity.
Qed.

Lemma with_no_metadata r : with_metadata [] r = r.
Proof. destruct r. reflexivity. Qed.

(** DELETE on a record that is not deleted. *)
Lemma DELETE_live self req w drive part account timestamp r :
  split_and_validate req = inr (drive, part, account) ->
  insufficient_storage self drive = false ->
  header_lookup (headers req) "x-timestamp" = Some timestamp ->
  check_float timestamp = true ->
  stored (_get_account_broker self drive part account) w = Some r ->
  record_deleted r = false ->
  exists w',
    DELETE self req w =
      (inr (mkResponse HTTPNoContent
              (status_header (Some (tombstone timestamp r))) "" None), w')
    /\ stored (_get_account_broker self drive part account) w'
       = Some (tombstone timestamp r)
    /\ dbs w' = <[db_file (_get_account_broker self drive part account)
                    := tombstone timestamp r]> (dbs w).
Proof.
  intros Hpath Hmounted Hgiven Hfloat Hs Hlive.
  set (b := _get_account_broker self drive part account) in *.
  unfold DELETE.
  rewrite Hpath, Hmounted, (timestamp_accepted req timestamp Hgiven Hfloat).
  fold b. run. rewrite is_deleted_run, Hs, Hlive.
  unfold header_getitem. rewrite Hgiven.
  rewrite (delete_db_run b timestamp _ r)
    by (rewrite stored_logged; exact Hs).
  rewrite _deleted_response_run, stored_written.
  eexists. split; [reflexivity|]. split; [|reflexivity].
  rewrite stored_logged. apply stored_written.
Qed.

(** DELETE on a record that is deleted. *)
Lemma DELETE_gone self req w drive part account timestamp r :
  split_and_validate req = inr (drive, part, account) ->
  insufficient_storage self drive = false ->
  header_lookup (headers req) "x-timestamp" = Some timestamp ->
  check_float timestamp = true ->
  stored (_get_account_broker self drive part account) w = Some r ->
  record_deleted r = true ->
  DELETE self req w =
    (inr (mkResponse HTTPNotFound (status_header (Some r)) "" None),
     logged (_get_account_broker self drive part account)
       call_is_status_deleted
       (logged (_get_account_broker self drive part account)
          call_is_deleted w)).
Proof.
  intros Hpath Hmounted Hgiven Hfloat Hs Hgone.
  set (b := _get_account_broker self drive part account) in *.
  unfold DELETE.
  rewrite Hpath, Hmounted, (timestamp_accepted req timestamp Hgiven Hfloat).
  fold b. run. rewrite is_deleted_run, Hs, Hgone.
  rewrite _deleted_response_run, stored_logged, Hs. reflexivity.
Qed.

(** A deletion newer than the creation of a live record. *)
Lemma tombstone_live t r :
  record_deleted r = false ->
  newer t (put_timestamp r) = true ->
  tombstone t r =
    mkAccount (created_at r) (put_timestamp r) (Some t) Deleted (metadata r)
      (containers r).
Proof.
  intros Hlive Hnewer. apply tombstone_newer.
  unfold record_deleted in Hlive.
  destruct (delete_timestamp r) as [d|]; [|exact I].
  apply newer_false in Hlive. apply newer_spec in Hnewer.
  apply newer_spec. lra.
Qed.

(** The run of POST on a live account: one metadata merge, or no write at
    all when the request carries no metadata header. *)
Lemma POST_live self req w drive part account given t r :
  split_and_validate req = inr (drive, part, account) ->
  header_lookup (headers req) "x-timestamp" = Some given ->
  check_float given = true ->
  normalize_timestamp given = inr t ->
  insufficient_storage self drive = false ->
  stored (_get_account_broker self drive part account) w = Some r ->
  record_deleted r = false ->
  exists w',
    POST self req w = (inr (plain_response HTTPNoContent), w')
    /\ stored (_get_account_broker self drive part account) w'
       = Some (with_metadata (request_metadata req t) r)
    /\ (request_metadata req t = [] -> dbs w' = dbs w).
Proof.
  intros Hpath Hgiven Hfloat Hnorm Hmounted Hs Hlive.
  set (b := _get_account_broker self drive part account) in *.
  unfold POST.
  rewrite Hpath, (timestamp_accepted req given Hgiven Hfloat), Hmounted.
  fold b. run. rewrite is_deleted_run, Hs, Hlive.
  unfold header_getitem. rewrite Hgiven, Hnorm.
  destruct (request_metadata req t) as [|item items] eqn:Hmd; cbn [nonempty].
  - eexists. split; [reflexivity|]. rewrite stored_logged, with_no_metadata.
    split; [exact Hs|reflexivity].
  - rewrite (update_metadata_run b _ _ r)
      by (rewrite stored_logged; exact Hs).
    eexists. split; [reflexivity|]. split; [apply stored_written|].
    discriminate.
Qed.

(** X11. POST on a live account merges the metadata headers, stamped with the
    normalised timestamp, and touches nothing else: the answer is 204, the
    record keeps its timestamps, status marker and containers, and without
    any X-Account-Meta- header the database files are unchanged. *)
Theorem POST_merges_metadata_only self req w drive part account given t r :
  split_and_validate req = inr (drive, part, account) ->
  header_lookup (headers req) "x-timestamp" = Some given ->
  check_float given = true ->
  normalize_timestamp given = inr t ->
  insufficient_storage self drive = false ->
  stored (_get_account_broker self drive part account) w = Some r ->
  record_deleted r = false ->
  exists w',
    POST self req w = (inr (plain_response HTTPNoContent), w')
    /\ stored (_get_account_broker self drive part account) w'
       = Some (with_metadata (request_metadata req t) r)
    /\ (request_metadata req t = [] -> dbs w' = dbs w).
Proof.
  intros Hpath Hgiven Hfloat Hnorm Hmounted Hs Hlive.
  destruct (POST_live self req w drive part account given t r Hpath Hgiven
              Hfloat Hnorm Hmounted Hs Hlive) as (w' & Hrun & Hs' & Hsame).
  exists w'. split; [exact Hrun|]. split; [exact Hs'|exact Hsame].
Qed.

(** X12. POST on an account that is deleted or has no database is answered with
    the tombstoned 404 and writes nothing, whatever its headers carry. *)
Theorem POST_on_deleted_account self req w drive part account given :
  split_and_validate req = inr (drive, part, account) ->
  header_lookup (headers req) "x-timestamp" = Some given ->
  check_float given = true ->
  insufficient_storage self drive = false ->
  match stored (_get_account_broker self drive part account) w with
  | None => True
  | Some r => record_deleted r = true
  end ->
  exists w',
    POST self req w =
      (inr (mkResponse HTTPNotFound
              (status_header
                 (stored (_get_account_broker self drive part account) w))
              "" None), w')
    /\ dbs w' = dbs w.
Proof.
  intros Hpath Hgiven Hfloat Hmounted Hgone.
  set (b := _get_account_broker self drive part account) in *.
  unfold POST.
  rewrite Hpath, (timestamp_accepted req given Hgiven Hfloat), Hmounted.
  fold b. run. rewrite is_deleted_run.
  assert (match stored b w with
          | Some r => record_deleted r
          | None => true
          end = true) as ->
    by (destruct (stored b w); [exact Hgone|reflexivity]).
  rewrite _deleted_response_run, stored_logged.
  eexists. split; reflexivity.
Qed.

(** X9. DELETE is idempotent from the client's side: after a DELETE whose
    timestamp is newer than the account's [put_timestamp] (answered 204,
    with the header X-Account-Status: Deleted), a second DELETE with any
    valid timestamp is answered 404 with the same status header and
    writes nothing. *)
Theorem DELETE_twice self req1 req2 w drive part account ts1 ts2 r :
  split_and_validate req1 = inr (drive, part, account) ->
  split_and_validate req2 = inr (drive, part, account) ->
  insufficient_storage self drive = false ->
  header_lookup (headers req1) "x-timestamp" = Some ts1 ->
  check_float ts1 = true ->
  header_lookup (headers req2) "x-timestamp" = Some ts2 ->
  check_float ts2 = true ->
  stored (_get_account_broker self drive part account) w = Some r ->
  record_deleted r = false ->
  newer ts1 (put_timestamp r) = true ->
  answer (DELETE self req1) w =
    inr (mkResponse HTTPNoContent [("X-Account-Status", "Deleted")] "" None)
  /\ answer (DELETE self req2) (after (DELETE self req1) w) =
     inr (mkResponse HTTPNotFound [("X-Account-Status", "Deleted")] "" None)
  /\ dbs (after (DELETE self req2) (after (DELETE self req1) w))
     = dbs (after (DELETE self req1) w).
Proof.
  intros Hp1 Hp2 Hmounted Hg1 Hf1 Hg2 Hf2 Hs Hlive Hnewer.
  set (b := _get_account_broker self drive part account) in *.
  destruct (DELETE_live self req1 w drive part account ts1 r Hp1 Hmounted Hg1
              Hf1 Hs Hlive) as (w1 & Hrun1 & Hs1 & _).
  fold b in Hs1, Hrun1.
  rewrite (tombstone_live ts1 r Hlive Hnewer) in Hs1, Hrun1.
  unfold answer, after. rewrite Hrun1. cbn [fst snd].
  split; [reflexivity|].
  rewrite (DELETE_gone self req2 w1 drive part account ts2 _ Hp2 Hmounted
             Hg2 Hf2 Hs1).
  - split; reflexivity.
  - unfold record_deleted. cbn [delete_timestamp put_timestamp].
    exact Hnewer.
Qed.

(** X10. After a DELETE on a live account (first deletion, or newer than the
    recorded one) an account PUT is refused with 403 Forbidden "Recently
    deleted", whatever timestamp it carries, and writes nothing: a PUT
    cannot bring back an account that a DELETE has marked. *)
Theorem PUT_after_DELETE self req1 req2 w drive part account container ts1
    given t r :
  split_and_validate req1 = inr (drive, part, account) ->
  split_path (path_info req2) 3 4
    = inr [Some drive; Some part; Some account; container] ->
  Py.truthy_opt container = false ->
  validate_device_partition drive part = None ->
  insufficient_storage self drive = false ->
  header_lookup (headers req1) "x-timestamp" = Some ts1 ->
  check_float ts1 = true ->
  header_lookup (headers req2) "x-timestamp" = Some given ->
  normalize_timestamp given = inr t ->
  stored (_get_account_broker self drive part account) w = Some r ->
  record_deleted r = false ->
  match delete_timestamp r with
  | None => True
  | Some d => newer ts1 d = true
  end ->
  answer (PUT self req2) (after (DELETE self req1) w) =
    inr (mkResponse HTTPForbidden [("X-Account-Status", "Deleted")]
           "Recently deleted" None)
  /\ dbs (after (PUT self req2) (after (DELETE self req1) w))
     = dbs (after (DELETE self req1) w).
Proof.
  intros Hp1 Hsplit2 Hc Hvalid Hmounted Hg1 Hf1 Hg2 Hnorm Hs Hlive Hfirst.
  set (b := _get_account_broker self drive part account) in *.
  destruct (DELETE_live self req1 w drive part account ts1 r Hp1 Hmounted Hg1
              Hf1 Hs Hlive) as (w1 & Hrun1 & Hs1 & _).
  fold b in Hs1.
  unfold answer, after. rewrite Hrun1. cbn [snd].
  rewrite (PUT_account_path _ _ _ _ _ _ _ Hsplit2 Hc Hvalid Hmounted).
  fold b.
  rewrite (PUT_account_marked req2 b w1 given t (tombstone ts1 r) Hg2 Hnorm
             Hs1).
  - split; reflexivity.
  - rewrite (tombstone_newer ts1 r Hfirst). reflexivity.
Qed.

End AccountUpdates.

(** POST of one metadata header on the live account. *)
Lemma POST_merges_metadata_only_witness :
  let req := mkRequest "POST" "/sda1/0/acct"
               [("X-Timestamp", "150"); ("X-Account-Meta-Color", "blue")]
               [] "" "" in
  exists w',
    @POST Model.node Model.controller req
      (Model.account_world Model.active_account)
    = (inr (plain_response HTTPNoContent), w')
    /\ stored (@_get_account_broker Model.node Model.controller "sda1" "0"
                 "acct") w'
       = Some (@with_metadata Model.node
                 [("X-Account-Meta-Color", ("blue", "0000000150.00000"))]
                 Model.active_account).
Proof.
  intros req.
  destruct (@POST_merges_metadata_only Model.node Model.controller req
              (Model.account_world Model.active_account)
              "sda1" "0" "acct" "150" "0000000150.00000" Model.active_account
              eq_refl eq_refl eq_refl eq_refl eq_refl eq_refl eq_refl)
    as (w' & Hrun & Hs & _).
  exists w'. split; [exact Hrun|exact Hs].
Defined.

(** POST on the deleted account. *)
Lemma POST_on_deleted_account_witness :
  let req := mkRequest "POST" "/sda1/0/acct" [("X-Timestamp", "300")] []
               "" "" in
  exists w',
    @POST Model.node Model.controller req
      (Model.account_world Model.deleted_account)
    = (inr (mkResponse HTTPNotFound [("X-Account-Status", "Deleted")] ""
              None), w')
    /\ dbs w' = dbs (Model.account_world Model.deleted_account).
Proof.
  intros req.
  exact (@POST_on_deleted_account Model.node Model.controller req
           (Model.account_world Model.deleted_account)
           "sda1" "0" "acct" "300" eq_refl eq_refl eq_refl eq_refl eq_refl).
Defined.

(** The second example scenario, with the DELETE repeated. *)
Lemma DELETE_twice_witness :
  let req1 := mkRequest "DELETE" "/sda1/0/acct" [("X-Timestamp", "200")] []
                "" "" in
  let req2 := mkRequest "DELETE" "/sda1/0/acct" [("X-Timestamp", "150")] []
                "" "" in
  answer (@DELETE Model.node Model.controller req2)
    (after (@DELETE Model.node Model.controller req1)
       (Model.account_world Model.active_account))
  = inr (mkResponse HTTPNotFound [("X-Account-Status", "Deleted")] "" None).
Proof.
  intros req1 req2.
  exact (proj1 (proj2
    (@DELETE_twice Model.node Model.controller req1 req2
       (Model.account_world Model.active_account) "sda1" "0" "acct" "200"
       "150" Model.active_account eq_refl eq_refl eq_refl eq_refl eq_refl
       eq_refl eq_refl eq_refl eq_refl eq_refl))).
Defined.

(** DELETE at 200, then an account PUT at 300. *)
Lemma PUT_after_DELETE_witness :
  let req1 := mkRequest "DELETE" "/sda1/0/acct" [("X-Timestamp", "200")] []
                "" "" in
  let req2 := mkRequest "PUT" "/sda1/0/acct" [("X-Timestamp", "300")] []
                "" "" in
  answer (@PUT Model.node Model.controller req2)
    (after (@DELETE Model.node Model.controller req1)
       (Model.account_world Model.active_account))
  = inr (mkResponse HTTPForbidden [("X-Account-Status", "Deleted")]
           "Recently deleted" None).
Proof.
  intros req1 req2.
  exact (proj1
    (@PUT_after_DELETE Model.node Model.controller req1 req2
       (Model.account_world Model.active_account) "sda1" "0" "acct" None
       "200" "300" "0000000300.00000" Model.active_account eq_refl eq_refl
       eq_refl eq_refl eq_refl eq_refl eq_refl eq_refl eq_refl eq_refl
       eq_refl I)).
Defined.

(* ===================================================================== *)
(** ** Container PUT on a missing account *)
(* ===================================================================== *)

Section ContainerPutMissing.
Context `{Collaborators}.

(** The timestamp an auto-created account is initialised with: the
    X-Timestamp header when it is present and not empty, the clock
    otherwise. *)
Lemma PUT_auto_create_missing self req broker account w t :
  Py.startswith account (auto_create_account_prefix self) = true ->
  stored broker w = None ->
  normalize_timestamp
    (if Py.truthy_opt (header_lookup (headers req) "x-timestamp")
     then default "" (header_lookup (headers req) "x-timestamp")
     else time_time) = inr t ->
  PUT_auto_create self req broker account w =
    (inr tt,
     written broker (mkAccount t t None Active ∅ ∅)
       (logged broker call_initialize w)).
Proof.
  intros Hprefix Hs Hnorm. unfold PUT_auto_create; run.
  rewrite Hprefix, Hs.
  rewrite bool_decide_eq_false_2 by (intros [x Hx]; discriminate).
  rewrite Hnorm. rewrite (initialize_run broker t w Hs). reflexivity.
Qed.

Lemma PUT_auto_create_skipped self req broker account w :
  Py.startswith account (auto_create_account_prefix self) = false ->
  PUT_auto_create self req broker account w = (inr tt, w).
Proof. intros Hprefix. unfold PUT_auto_create. rewrite Hprefix. reflexivity. Qed.

(** X17. A container PUT for an account that has no database, whose name does
    not start with the auto-create prefix, and without the override
    header, is answered with 404 Not Found; no database is created and no
    container is recorded. *)
Theorem container_PUT_unknown_account self req w drive part account
    container :
  split_path (path_info req) 3 4
    = inr [Some drive; Some part; Some account; Some container] ->
  Py.truthy container = true ->
  validate_device_partition drive part = None ->
  insufficient_storage self drive = false ->
  stored (container_broker self req drive part account) w = None ->
  Py.startswith account (auto_create_account_prefix self) = false ->
  override_deleted req = false ->
  exists w',
    PUT self req w = (inr (plain_response HTTPNotFound), w')
    /\ dbs w' = dbs w.
Proof.
  intros Hsplit Hc Hvalid Hmounted Hs Hprefix Hover.
  rewrite (PUT_container_path _ _ _ _ _ _ _ Hsplit Hc Hvalid Hmounted).
  rewrite PUT_container_steps. cbv zeta.
  rewrite (PUT_auto_create_skipped _ _ _ _ _ Hprefix).
  rewrite PUT_account_gone_run, Hover, Hs.
  eexists. split; reflexivity.
Qed.

(** X18. A container PUT for an account that has no database but whose name
    starts with the auto-create prefix creates the account first, at the
    normalised X-Timestamp of the request or, without that header, at the
    current time, and then records the container: the answer is 201 or
    204 and the new record holds exactly that container. *)
Theorem container_PUT_auto_creates self req w drive part account container
    put_ts delete_ts object_count bytes_used t :
  split_path (path_info req) 3 4
    = inr [Some drive; Some part; Some account; Some container] ->
  Py.truthy container = true ->
  validate_device_partition drive part = None ->
  insufficient_storage self drive = false ->
  stored (container_broker self req drive part account) w = None ->
  Py.startswith account (auto_create_account_prefix self) = true ->
  normalize_timestamp
    (if Py.truthy_opt (header_lookup (headers req) "x-timestamp")
     then default "" (header_lookup (headers req) "x-timestamp")
     else time_time) = inr t ->
  header_lookup (headers req) "x-put-timestamp" = Some put_ts ->
  header_lookup (headers req) "x-delete-timestamp" = Some delete_ts ->
  header_lookup (headers req) "x-object-count" = Some object_count ->
  header_lookup (headers req) "x-bytes-used" = Some bytes_used ->
  exists w',
    PUT self req w =
      (inr (plain_response
              (if Py.str_gt delete_ts put_ts then HTTPNoContent
               else HTTPCreated)), w')
    /\ stored (container_broker self req drive part account) w'
       = Some (mkAccount t t None Active ∅
                 {[ container := mkContainer put_ts delete_ts object_count
                                   bytes_used ]}).
Proof.
  intros Hsplit Hc Hvalid Hmounted Hs Hprefix Hnorm Hp Hd Ho Hb.
  rewrite (PUT_container_path _ _ _ _ _ _ _ Hsplit Hc Hvalid Hmounted).
  rewrite PUT_container_steps. cbv zeta.
  set (b := container_broker self req drive part account) in *.
  rewrite (PUT_auto_create_missing _ _ _ _ _ t Hprefix Hs Hnorm).
  rewrite PUT_account_gone_run, stored_written.
  change (record_deleted (mkAccount t t None Active ∅ ∅)) with false.
  assert (forall v,
    stored b v = Some (mkAccount t t None Active ∅ ∅) ->
    exists w',
      PUT_container_upsert req b container v =
        (inr (plain_response
                (if Py.str_gt delete_ts put_ts then HTTPNoContent
                 else HTTPCreated)), w')
      /\ stored b w' =
         Some (mkAccount t t None Active ∅
                 {[ container := mkContainer put_ts delete_ts object_count
                                   bytes_used ]})) as Hupsert.
  { intros v Hv.
    rewrite (PUT_container_upsert_run _ _ _ _ _ _ _ _ _ Hp Hd Ho Hb Hv).
    eexists. split; [reflexivity|]. rewrite stored_written.
    unfold upserted. cbn. rewrite lookup_empty. rewrite insert_empty.
    reflexivity. }
  destruct (override_deleted req); apply Hupsert.
  - apply stored_written.
  - rewrite stored_logged. apply stored_written.
Qed.

(** X19. The creation is not undone when the request then fails: a container
    PUT for a missing auto-create account that lacks the X-Put-Timestamp
    header raises [KeyError] (a 500 at the dispatcher), and the account
    created on the way stays, without the container. *)
Theorem container_PUT_auto_create_not_rolled_back self req w drive part
    account container t :
  split_path (path_info req) 3 4
    = inr [Some drive; Some part; Some account; Some container] ->
  Py.truthy container = true ->
  validate_device_partition drive part = None ->
  insufficient_storage self drive = false ->
  stored (container_broker self req drive part account) w = None ->
  Py.startswith account (auto_create_account_prefix self) = true ->
  normalize_timestamp
    (if Py.truthy_opt (header_lookup (headers req) "x-timestamp")
     then default "" (header_lookup (headers req) "x-timestamp")
     else time_time) = inr t ->
  header_lookup (headers req) "x-put-timestamp" = None ->
  answer (PUT self req) w = inl (KeyError "x-put-timestamp")
  /\ stored (container_broker self req drive part account)
       (after (PUT self req) w)
     = Some (mkAccount t t None Active ∅ ∅).
Proof.
  intros Hsplit Hc Hvalid Hmounted Hs Hprefix Hnorm Hp.
  unfold answer, after.
  rewrite (PUT_container_path _ _ _ _ _ _ _ Hsplit Hc Hvalid Hmounted).
  rewrite PUT_container_steps. cbv zeta.
  set (b := container_broker self req drive part account) in *.
  rewrite (PUT_auto_create_missing _ _ _ _ _ t Hprefix Hs Hnorm).
  rewrite PUT_account_gone_run, stored_written.
  change (record_deleted (mkAccount t t None Active ∅ ∅)) with false.
  unfold PUT_container_upsert, header_getitem; run. rewrite Hp.
  destruct (override_deleted req); cbn [fst snd]; split;
    try reflexivity; rewrite ?stored_logged; apply stored_written.
Qed.

(** X20. A container PUT on an existing account that passes the tombstone guard
    but lacks one of its four headers is answered with 500 by the
    dispatcher ([KeyError]), and no record is written. *)
Theorem container_PUT_missing_header self req w drive part account container
    r :
  check_utf8 (path_info req) = true ->
  method req = "PUT" ->
  replication_server self <> Some true ->
  split_path (path_info req) 3 4
    = inr [Some drive; Some part; Some account; Some container] ->
  Py.truthy container = true ->
  validate_device_partition drive part = None ->
  insufficient_storage self drive = false ->
  stored (container_broker self req drive part account) w = Some r ->
  (override_deleted req = true \/ record_deleted r = false) ->
  (header_lookup (headers req) "x-put-timestamp" = None \/
   header_lookup (headers req) "x-delete-timestamp" = None \/
   header_lookup (headers req) "x-object-count" = None \/
   header_lookup (headers req) "x-bytes-used" = None) ->
  exists resp w',
    __call__ self req w = (inr resp, w')
    /\ status resp = HTTPInternalServerError
    /\ dbs w' = dbs w.
Proof.
  intros Hutf Hmethod Hmode Hsplit Hc Hvalid Hmounted Hs Hguard Hmissing.
  set (b := container_broker self req drive part account) in *.
  assert (exists e w', PUT self req w = (inl e, w') /\ dbs w' = dbs w)
    as (e & w' & Hrun & Hdbs).
  { rewrite (PUT_container_path _ _ _ _ _ _ _ Hsplit Hc Hvalid Hmounted).
    rewrite PUT_container_steps. cbv zeta. fold b.
    rewrite (PUT_auto_create_existing _ _ _ _ _ _ Hs).
    rewrite PUT_account_gone_run.
    assert (forall v, dbs v = dbs w ->
      exists e w', PUT_container_upsert req b container v = (inl e, w')
                   /\ dbs w' = dbs w) as Hupsert.
    { intros v Hv. unfold PUT_container_upsert, header_getitem; run.
      destruct (header_lookup (headers req) "x-put-timestamp");
        [|eexists _, _; split; [reflexivity|exact Hv]].
      destruct (header_lookup (headers req) "x-delete-timestamp");
        [|eexists _, _; split; [reflexivity|exact Hv]].
      destruct (header_lookup (headers req) "x-object-count");
        [|eexists _, _; split; [reflexivity|exact Hv]].
      destruct (header_lookup (headers req) "x-bytes-used");
        [|eexists _, _; split; [reflexivity|exact Hv]].
      destruct Hmissing as [?|[?|[?|?]]]; discriminate. }
    destruct (override_deleted req) eqn:Hover; [apply Hupsert; reflexivity|].
    rewrite Hs. destruct Hguard as [Hov | ->]; [discriminate Hov|].
    apply Hupsert. reflexivity. }
  unfold __call__, resolve_method. rewrite Hutf, Hmethod. cbn [negb].
  change (getattr_self "PUT") with (Some (Method H_PUT)).
  cbn [publicly_accessible negb replication].
  destruct (replication_server self) as [[|]|]; [congruence|..];
    cbn [Bool.eqb negb]; unfold try_except; cbn [run_handler];
    rewrite Hrun; eexists _, w'; repeat split; exact Hdbs.
Qed.

End ContainerPutMissing.

(** A container PUT for an account nobody created. *)
Lemma container_PUT_unknown_account_witness :
  let req := mkRequest "PUT" "/sda1/0/acct/c1"
               [("X-Put-Timestamp", "10"); ("X-Delete-Timestamp", "0");
                ("X-Object-Count", "0"); ("X-Bytes-Used", "0")] [] "" "" in
  exists w',
    @PUT Model.node Model.controller req Model.empty_world
    = (inr (plain_response HTTPNotFound), w')
    /\ dbs w' = dbs Model.empty_world.
Proof.
  intros req.
  exact (@container_PUT_unknown_account Model.node Model.controller req
           Model.empty_world "sda1" "0" "acct" "c1" eq_refl eq_refl eq_refl
           eq_refl eq_refl eq_refl eq_refl).
Defined.

(** A container PUT for the auto-create account ".acct". *)
Lemma container_PUT_auto_creates_witness :
  let req := mkRequest "PUT" "/sda1/0/.acct/c1"
               [("X-Timestamp", "7"); ("X-Put-Timestamp", "10");
                ("X-Delete-Timestamp", "0"); ("X-Object-Count", "0");
                ("X-Bytes-Used", "0")] [] "" "" in
  exists w',
    @PUT Model.node Model.controller req Model.empty_world
    = (inr (plain_response HTTPCreated), w')
    /\ stored (@container_broker Model.node Model.controller req "sda1" "0"
                 ".acct") w'
       = Some (mkAccount "0000000007.00000" "0000000007.00000" None Active ∅
                 {[ "c1" := mkContainer "10" "0" "0" "0" ]}).
Proof.
  intros req.
  exact (@container_PUT_auto_creates Model.node Model.controller req
           Model.empty_world "sda1" "0" ".acct" "c1" "10" "0" "0" "0"
           "0000000007.00000" eq_refl eq_refl eq_refl eq_refl eq_refl
           eq_refl eq_refl eq_refl eq_refl eq_refl eq_refl).
Defined.

(** The same request without X-Put-Timestamp: an exception, and the
    account is there. *)
Lemma container_PUT_auto_create_not_rolled_back_witness :
  let req := mkRequest "PUT" "/sda1/0/.acct/c1" [("X-Timestamp", "7")] []
               "" "" in
  answer (@PUT Model.node Model.controller req) Model.empty_world
  = inl (KeyError "x-put-timestamp")
  /\ stored (@container_broker Model.node Model.controller req "sda1" "0"
               ".acct")
       (after (@PUT Model.node Model.controller req) Model.empty_world)
     = Some (mkAccount "0000000007.00000" "0000000007.00000" None Active ∅ ∅).
Proof.
  intros req.
  exact (@container_PUT_auto_create_not_rolled_back Model.node
           Model.controller req Model.empty_world "sda1" "0" ".acct" "c1"
           "0000000007.00000" eq_refl eq_refl eq_refl eq_refl eq_refl
           eq_refl eq_refl eq_refl).
Defined.

(** A container PUT without the byte counter on the live account. *)
Lemma container_PUT_missing_header_witness :
  let req := mkRequest "PUT" "/sda1/0/acct/c1"
               [("X-Put-Timestamp", "10"); ("X-Delete-Timestamp", "0");
                ("X-Object-Count", "0")] [] "" "" in
  exists resp w',
    @__call__ Model.node Model.controller req
      (Model.account_world Model.active_account) = (inr resp, w')
    /\ status resp = HTTPInternalServerError
    /\ dbs w' = dbs (Model.account_world Model.active_account).
Proof.
  intros req.
  apply (@container_PUT_missing_header Model.node Model.controller req
           (Model.account_world Model.active_account) "sda1" "0" "acct" "c1"
           Model.active_account);
    try reflexivity.
  - discriminate.
  - right. reflexivity.
  - right. right. right. reflexivity.
Defined.

(* ===================================================================== *)
(** ** Configuration *)
(* ===================================================================== *)

Section Configuration.
Context `{Collaborators}.

(** X23. What [__init__] makes of a configuration: the auto-create prefix is
    never empty (an empty setting falls back to "."), so an account name
    is never a match by default; the replication mode is unspecified
    exactly when the key is absent; the devices root and the mount check
    have their defaults when absent. *)
Theorem init_settings conf :
  Py.truthy (auto_create_account_prefix (__init__ conf)) = true /\
  (replication_server (__init__ conf) = None
   <-> conf_get conf "replication_server" = None) /\
  (forall v, conf_get conf "replication_server" = Some v ->
             replication_server (__init__ conf) = Some (config_true_value v))
  /\ (conf_get conf "devices" = None -> root (__init__ conf) = "/srv/node")
  /\ (conf_get conf "mount_check" = None ->
      mount_check (__init__ conf) = config_true_value "true").
Proof.
  unfold __init__; cbn. repeat split.
  - destruct (conf_get conf "auto_create_account_prefix") as [[|c p]|];
      reflexivity.
  - destruct (conf_get conf "replication_server"); [discriminate|reflexivity].
  - intros ->. reflexivity.
  - intros v ->. reflexivity.
  - intros ->. reflexivity.
  - intros ->. reflexivity.
Qed.

Lemma conf_get_app local_conf global_conf key :
  conf_get (local_conf ++ global_conf) key =
    match conf_get local_conf key with
    | Some v => Some v
    | None => conf_get global_conf key
    end.
Proof.
  unfold conf_get. induction local_conf as [|[k v] rest IH]; [reflexivity|].
  cbn [app List.find fst]. destruct (String.eqb k key); [reflexivity|].
  exact IH.
Qed.

(** X24. [app_factory]: a setting given in [local_conf] wins over the one in
    [global_conf], and a setting absent from [local_conf] is taken from
    [global_conf]; with no local setting the controller is the one built
    from [global_conf] alone. *)
Theorem app_factory_local_overrides global_conf local_conf :
  (forall key,
     conf_get local_conf key = None ->
     conf_get (local_conf ++ global_conf) key = conf_get global_conf key) /\
  (forall key v,
     conf_get local_conf key = Some v ->
     conf_get (local_conf ++ global_conf) key = Some v) /\
  (forall v,
     conf_get local_conf "replication_server" = Some v ->
     replication_server (app_factory global_conf local_conf)
     = Some (config_true_value v)) /\
  (forall v,
     conf_get local_conf "devices" = Some v ->
     root (app_factory global_conf local_conf) = v) /\
  (forall v,
     conf_get local_conf "mount_check" = Some v ->
     mount_check (app_factory global_conf local_conf) = config_true_value v)
  /\ ((forall key, conf_get local_conf key = None) ->
      app_factory global_conf local_conf = __init__ global_conf).
Proof.
  repeat split.
  - intros key Hkey. rewrite conf_get_app, Hkey. reflexivity.
  - intros key v Hkey. rewrite conf_get_app, Hkey. reflexivity.
  - intros v Hv. unfold app_factory, __init__; cbn.
    rewrite conf_get_app, Hv. reflexivity.
  - intros v Hv. unfold app_factory, __init__; cbn.
    rewrite conf_get_app, Hv. reflexivity.
  - intros v Hv. unfold app_factory, __init__; cbn.
    rewrite conf_get_app, Hv. reflexivity.
  - intros Hnone. unfold app_factory, __init__; cbn.
    rewrite !conf_get_app, !Hnone. reflexivity.
Qed.

End Configuration.

(* ===================================================================== *)
(** ** What GET hands to the listing *)
(* ===================================================================== *)

Section AcceptedParameters.
Context `{Collaborators}.

Lemma isdigit_all_digits s : Py.isdigit s = true -> Py.all_digits s = true.
Proof. destruct s; [discriminate|]. intros Hs. exact Hs. Qed.

Lemma GET_limit_bounds given_limit limit :
  (0 <= ACCOUNT_LISTING_LIMIT)%Z ->
  GET_limit given_limit = inr limit ->
  (0 <= limit <= ACCOUNT_LISTING_LIMIT)%Z.
Proof.
  intros Hcap. unfold GET_limit.
  destruct (Py.truthy_opt given_limit && Py.isdigit (default "" given_limit))
    eqn:Hnumeric.
  - apply andb_true_iff in Hnumeric as [_ Hdigits].
    destruct (Z.gtb_spec (Py.int (default "" given_limit))
                ACCOUNT_LISTING_LIMIT) as [Hover|Hwithin]; [discriminate|].
    intros [= <-].
    pose proof (int_bounds _ (isdigit_all_digits _ Hdigits)). lia.
  - intros [= <-]. lia.
Qed.

Lemma bad_delimiter_false delimiter :
  bad_delimiter delimiter = false ->
  (Py.len (default "" delimiter) <= 1)%Z
  /\ (Py.ord (default "" delimiter) <= 254)%Z.
Proof.
  unfold bad_delimiter. destruct delimiter as [[|c d]|].
  - intros _. split; vm_compute; discriminate.
  - change (default "" (Some (String c d))) with (String c d).
    cbn [Py.truthy_opt Py.truthy andb]. rewrite orb_false_iff.
    intros [Hlen Hord].
    destruct (Z.gtb_spec (Py.len (String c d)) 1); [discriminate|].
    destruct (Z.gtb_spec (Py.ord (String c d)) 254); [discriminate|].
    split; assumption.
  - intros _. split; vm_compute; discriminate.
Qed.

(** X21. Whenever GET accepts the query parameters, what it hands to the
    listing is within bounds: the limit lies between 0 and
    [ACCOUNT_LISTING_LIMIT], the delimiter is absent, empty or one
    character of code at most 254, and prefix, marker and end marker are
    the request's parameters as [get_param] returns them. *)
Theorem GET_accepted_parameters req prefix delimiter limit marker end_marker :
  (0 <= ACCOUNT_LISTING_LIMIT)%Z ->
  GET_params req = inr (inr (prefix, delimiter, limit, marker, end_marker)) ->
  (0 <= limit <= ACCOUNT_LISTING_LIMIT)%Z
  /\ (Py.len (default "" delimiter) <= 1)%Z
  /\ (Py.ord (default "" delimiter) <= 254)%Z
  /\ get_param req "prefix" None = inr prefix
  /\ get_param req "delimiter" None = inr delimiter
  /\ get_param req "marker" (Some "") = inr marker
  /\ get_param req "end_marker" None = inr end_marker.
Proof.
  intros Hcap. unfold GET_params; run.
  destruct (get_param req "prefix" None) as [[]|prefix'];
    try discriminate.
  destruct (get_param req "delimiter" None) as [[]|delimiter'];
    try discriminate.
  destruct (bad_delimiter delimiter') eqn:Hd; [discriminate|].
  destruct (get_param req "limit" None) as [[]|given_limit];
    try discriminate.
  destruct (GET_limit given_limit) as [resp|limit'] eqn:Hl; [discriminate|].
  destruct (get_param req "marker" (Some "")) as [[]|marker'];
    try discriminate.
  destruct (get_param req "end_marker" None) as [[]|end_marker'];
    try discriminate.
  intros [= <- <- <- <- <-].
  destruct (bad_delimiter_false _ Hd) as [Hlen Hord].
  pose proof (GET_limit_bounds _ _ Hcap Hl).
  repeat split; (assumption || reflexivity || lia).
Qed.

End AcceptedParameters.

(** A listing with limit "25" and delimiter "/". *)
Lemma GET_accepted_parameters_witness :
  let req := mkRequest "GET" "/sda1/0/acct" []
               [("limit", "25"); ("delimiter", "/")] "" "" in
  (0 <= 25 <= 10000)%Z
  /\ (Py.len (default "" (Some "/")) <= 1)%Z
  /\ (Py.ord (default "" (Some "/")) <= 254)%Z
  /\ Model.get_param req "prefix" None = inr None
  /\ Model.get_param req "delimiter" None = inr (Some "/")
  /\ Model.get_param req "marker" (Some "") = inr (Some "")
  /\ Model.get_param req "end_marker" None = inr None.
Proof.
  intros req.
  apply (@GET_accepted_parameters Model.node req None (Some "/") 25%Z
           (Some "") None).
  - vm_compute. discriminate.
  - reflexivity.
Defined.

(* ===================================================================== *)
(** ** Metadata: written by PUT and POST, read by HEAD *)
(* ===================================================================== *)

Section Metadata.
Context `{Collaborators}.

(** HEAD on a live account, once a content type is negotiated. *)
Lemma HEAD_live self req w drive part account query_format req_accept
    out_content_type r :
  split_and_validate req = inr (drive, part, account) ->
  get_param req "format" None = inr query_format ->
  (if Py.truthy_opt query_format
   then format_override (default "" query_format)
   else inr (accept req)) = inr req_accept ->
  best_match req_accept offered_types = Some out_content_type ->
  Py.truthy out_content_type = true ->
  insufficient_storage self drive = false ->
  stored (_get_account_broker self drive part account) w = Some r ->
  record_deleted r = false ->
  answer (HEAD self req) w =
    inr (mkResponse HTTPNoContent
           (summary_headers r ++ echoed_metadata r
            ++ [("Content-Type", out_content_type)]) "" None).
Proof.
  intros Hpath Hformat Haccept Hmatch Htruthy Hmounted Hs Hlive.
  unfold answer, HEAD. rewrite Hpath, Hformat; run.
  rewrite Haccept, Hmatch. cbn [Py.truthy_opt]. rewrite Htruthy. cbn [negb].
  rewrite Hmounted, is_deleted_run.
  set (b := set_stale_reads_ok _ _).
  change (stored b w)
    with (stored (_get_account_broker self drive part account) w).
  rewrite Hs, Hlive.
  rewrite (get_info_run b _ r) by exact Hs.
  rewrite (broker_metadata_run b _ r) by exact Hs.
  reflexivity.
Qed.

(** What HEAD echoes is the stored metadata with a non-empty value. *)
Lemma echoed_metadata_spec r key value :
  In (key, value) (echoed_metadata r)
  <-> (exists timestamp, metadata r !! key = Some (value, timestamp))
      /\ value <> "".
Proof.
  unfold echoed_metadata. rewrite in_map_iff. split.
  - intros ([k [v t]] & [= <- <-] & Hin). apply filter_In in Hin as [Hin Hv].
    apply list_elem_of_In, elem_of_map_to_list in Hin. cbn in Hv.
    split; [eauto|]. intros ->. discriminate.
  - intros [[t Ht] Hv]. exists (key, (value, t)). split; [reflexivity|].
    apply filter_In. split.
    + apply list_elem_of_In, elem_of_map_to_list, Ht.
    + cbn. destruct value; [contradiction|reflexivity].
Qed.

(** X14. A HEAD answer for a live account carries the five summary headers, the
    negotiated content type, and of the stored metadata exactly the keys
    whose value is not empty: a key stored with an empty value is not
    shown. *)
Theorem HEAD_shows_nonempty_metadata self req w drive part account
    query_format req_accept out_content_type r :
  split_and_validate req = inr (drive, part, account) ->
  get_param req "format" None = inr query_format ->
  (if Py.truthy_opt query_format
   then format_override (default "" query_format)
   else inr (accept req)) = inr req_accept ->
  best_match req_accept offered_types = Some out_content_type ->
  Py.truthy out_content_type = true ->
  insufficient_storage self drive = false ->
  stored (_get_account_broker self drive part account) w = Some r ->
  record_deleted r = false ->
  exists echoed,
    answer (HEAD self req) w =
      inr (mkResponse HTTPNoContent
             ([("X-Account-Container-Count", pretty (live_count r));
               ("X-Account-Object-Count", pretty (live_sum c_object_count r));
               ("X-Account-Bytes-Used", pretty (live_sum c_bytes_used r));
               ("X-Timestamp", created_at r);
               ("X-PUT-Timestamp", put_timestamp r)]
              ++ echoed ++ [("Content-Type", out_content_type)]) "" None)
    /\ forall key value,
         In (key, value) echoed
         <-> (exists timestamp, metadata r !! key = Some (value, timestamp))
             /\ value <> "".
Proof.
  intros Hpath Hformat Haccept Hmatch Htruthy Hmounted Hs Hlive.
  exists (echoed_metadata r). split.
  - apply (HEAD_live self req w drive part account query_format req_accept
             out_content_type r); assumption.
  - apply echoed_metadata_spec.
Qed.

Lemma merge_metadata_item_other md item key :
  item.1 <> key -> merge_metadata_item md item !! key = md !! key.
Proof.
  intros Hne. unfold merge_metadata_item.
  destruct (md !! item.1) as [old|];
    [destruct (newer _ _); [|reflexivity]|];
    apply lookup_insert_ne, Hne.
Qed.

Lemma merge_metadata_absent items md key :
  ~ In key (List.map fst items) ->
  foldl merge_metadata_item md items !! key = md !! key.
Proof.
  revert md. induction items as [|item items IH]; intros md Hnotin;
    [reflexivity|].
  cbn [foldl]. rewrite IH by (intros Hin; apply Hnotin; right; exact Hin).
  apply merge_metadata_item_other. intros Heq. apply Hnotin. left. exact Heq.
Qed.

(** The merge of a request's items, for a key that occurs once. *)
Lemma merge_metadata_lookup items md key value timestamp :
  List.NoDup (List.map fst items) ->
  In (key, (value, timestamp)) items ->
  foldl merge_metadata_item md items !! key =
    match md !! key with
    | None => Some (value, timestamp)
    | Some old => if newer timestamp old.2 then Some (value, timestamp)
                  else Some old
    end.
Proof.
  revert md. induction items as [|item items IH]; intros md Hnodup Hin;
    [contradiction|].
  cbn [List.map] in Hnodup. apply NoDup_cons_iff in Hnodup as [Hhead Hnodup].
  cbn [foldl]. destruct Hin as [->|Hin].
  - rewrite merge_metadata_absent by exact Hhead.
    unfold merge_metadata_item. cbn [fst snd].
    destruct (md !! key) as [old|] eqn:Hold.
    + destruct (newer timestamp old.2); [apply lookup_insert_eq|exact Hold].
    + apply lookup_insert_eq.
  - assert (item.1 <> key) as Hne.
    { intros Heq. apply Hhead. rewrite Heq.
      apply (in_map fst items (key, (value, timestamp))), Hin. }
    rewrite (IH _ Hnodup Hin).
    rewrite (merge_metadata_item_other md item key Hne). reflexivity.
Qed.

Lemma request_metadata_prefix req t key value timestamp :
  In (key, (value, timestamp)) (request_metadata req t) ->
  In (key, value) (headers req)
  /\ Py.startswith (Py.lower key) "x-account-meta-" = true
  /\ timestamp = t.
Proof.
  unfold request_metadata. rewrite in_map_iff.
  intros ([k v] & [= <- <- <-] & Hin).
  apply filter_In in Hin as [Hin Hprefix]. auto.
Qed.

(** X13. Metadata is last-writer-wins per key. After a POST on a live account,
    a metadata header of the request (its name occurring once among the
    request's metadata headers) is stored with the request's normalised
    timestamp if the key was absent or stored with an older timestamp;
    if the stored timestamp is the same or newer, the stored value
    stays. Keys the request does not name are untouched. *)
Theorem POST_metadata_last_writer_wins self req w drive part account given t
    r key value :
  split_and_validate req = inr (drive, part, account) ->
  header_lookup (headers req) "x-timestamp" = Some given ->
  check_float given = true ->
  normalize_timestamp given = inr t ->
  insufficient_storage self drive = false ->
  stored (_get_account_broker self drive part account) w = Some r ->
  record_deleted r = false ->
  List.NoDup (List.map fst (request_metadata req t)) ->
  In (key, (value, t)) (request_metadata req t) ->
  exists r',
    stored (_get_account_broker self drive part account)
      (after (POST self req) w) = Some r'
    /\ metadata r' !! key =
       match metadata r !! key with
       | None => Some (value, t)
       | Some old => if newer t old.2 then Some (value, t) else Some old
       end
    /\ forall other,
         ~ In other (List.map fst (request_metadata req t)) ->
         metadata r' !! other = metadata r !! other.
Proof.
  intros Hpath Hgiven Hfloat Hnorm Hmounted Hs Hlive Hnodup Hin.
  destruct (POST_live self req w drive part account given t r
              Hpath Hgiven Hfloat Hnorm Hmounted Hs Hlive)
    as (w' & Hrun & Hs' & _).
  unfold after. rewrite Hrun. cbn [snd].
  eexists. split; [exact Hs'|]. cbn [with_metadata metadata]. split.
  - apply merge_metadata_lookup; assumption.
  - intros other Hother. apply merge_metadata_absent, Hother.
Qed.

(** The reserved header names are not metadata names. *)
Lemma metadata_name_not_reserved key :
  Py.startswith (Py.lower key) "x-account-meta-" = true ->
  ~ In key ["X-Account-Container-Count"; "X-Account-Object-Count";
            "X-Account-Bytes-Used"; "X-Timestamp"; "X-PUT-Timestamp";
            "Content-Type"].
Proof.
  intros Hprefix Hin. cbn [In] in Hin.
  repeat (destruct Hin as [<-|Hin]; [discriminate Hprefix|]).
  exact Hin.
Qed.

(** X15. Writing then reading. After a POST on a live account that sets a
    metadata header newer than what is stored for its key, a HEAD shows
    that header with the new value; if the new value is empty, HEAD shows
    no header of that name at all: posting an empty value removes the
    key from what clients see. *)
Theorem POST_then_HEAD self post head w drive part account given t r key
    value query_format req_accept out_content_type :
  split_and_validate post = inr (drive, part, account) ->
  header_lookup (headers post) "x-timestamp" = Some given ->
  check_float given = true ->
  normalize_timestamp given = inr t ->
  insufficient_storage self drive = false ->
  stored (_get_account_broker self drive part account) w = Some r ->
  record_deleted r = false ->
  List.NoDup (List.map fst (request_metadata post t)) ->
  In (key, (value, t)) (request_metadata post t) ->
  match metadata r !! key with
  | None => True
  | Some old => newer t old.2 = true
  end ->
  split_and_validate head = inr (drive, part, account) ->
  get_param head "format" None = inr query_format ->
  (if Py.truthy_opt query_format
   then format_override (default "" query_format)
   else inr (accept head)) = inr req_accept ->
  best_match req_accept offered_types = Some out_content_type ->
  Py.truthy out_content_type = true ->
  exists resp,
    answer (HEAD self head) (after (POST self post) w) = inr resp
    /\ status resp = HTTPNoContent
    /\ (value <> "" -> In (key, value) (resp_headers resp))
    /\ (value = "" -> forall shown, ~ In (key, shown) (resp_headers resp)).
Proof.
  intros Hpath Hgiven Hfloat Hnorm Hmounted Hs Hlive Hnodup Hin Hnewer
    Hpath' Hformat Haccept Hmatch Htruthy.
  destruct (POST_live self post w drive part account given t
              r Hpath Hgiven Hfloat Hnorm Hmounted Hs Hlive)
    as (w' & Hrun & Hs' & _).
  unfold after. rewrite Hrun. cbn [snd].
  set (r' := with_metadata (request_metadata post t) r) in *.
  assert (metadata r' !! key = Some (value, t)) as Hkey.
  { unfold r'. cbn [with_metadata metadata].
    rewrite (merge_metadata_lookup _ _ key value t Hnodup Hin).
    destruct (metadata r !! key) as [old|]; [rewrite Hnewer|]; reflexivity. }
  rewrite (HEAD_live self head w' drive part account query_format req_accept
             out_content_type r' Hpath' Hformat Haccept Hmatch Htruthy
             Hmounted Hs' Hlive).
  eexists. split; [reflexivity|]. split; [reflexivity|]. cbn [resp_headers].
  split.
  - intros Hvalue. apply in_or_app. right. apply in_or_app. left.
    apply echoed_metadata_spec. split; [eauto|exact Hvalue].
  - intros -> shown Hshown.
    destruct (request_metadata_prefix _ _ _ _ _ Hin) as (_ & Hprefix & _).
    pose proof (metadata_name_not_reserved key Hprefix) as Hreserved.
    apply in_app_or in Hshown as [Hsummary|Hshown].
    + apply Hreserved. unfold summary_headers in Hsummary. cbn [In] in *.
      repeat (destruct Hsummary as [[= <- _]|Hsummary]; [tauto|]).
      contradiction.
    + apply in_app_or in Hshown as [Hechoed|Htype].
      * apply echoed_metadata_spec in Hechoed as [[t' Ht'] Hnonempty].
        rewrite Hkey in Ht'. injection Ht' as <- _. contradiction.
      * apply Hreserved. cbn [In] in *.
        destruct Htype as [[= <- _]|[]]. tauto.
Qed.

End Metadata.

(** HEAD on the live account, which has no metadata. *)
Lemma HEAD_shows_nonempty_metadata_witness :
  let req := mkRequest "HEAD" "/sda1/0/acct" [] [] "" "" in
  exists echoed,
    answer (@HEAD Model.node Model.controller req)
      (Model.account_world Model.active_account) =
      inr (mkResponse HTTPNoContent
             ([("X-Account-Container-Count",
                pretty (@live_count Model.node Model.active_account));
               ("X-Account-Object-Count",
                pretty (@live_sum Model.node c_object_count
                          Model.active_account));
               ("X-Account-Bytes-Used",
                pretty (@live_sum Model.node c_bytes_used
                          Model.active_account));
               ("X-Timestamp", created_at Model.active_account);
               ("X-PUT-Timestamp", put_timestamp Model.active_account)]
              ++ echoed ++ [("Content-Type", "text/plain")]) "" None)
    /\ forall key value,
         In (key, value) echoed
         <-> (exists timestamp,
                metadata Model.active_account !! key
                = Some (value, timestamp))
             /\ value <> "".
Proof.
  intros req.
  exact (@HEAD_shows_nonempty_metadata Model.node Model.controller req
           (Model.account_world Model.active_account) "sda1" "0" "acct" None
           "" "text/plain" Model.active_account eq_refl eq_refl eq_refl
           eq_refl eq_refl eq_refl eq_refl eq_refl).
Defined.

(** POST of a colour on the live account. *)
Lemma POST_metadata_last_writer_wins_witness :
  let req := mkRequest "POST" "/sda1/0/acct"
               [("X-Timestamp", "150"); ("X-Account-Meta-Color", "blue")]
               [] "" "" in
  exists r',
    stored (@_get_account_broker Model.node Model.controller "sda1" "0"
              "acct")
      (after (@POST Model.node Model.controller req)
         (Model.account_world Model.active_account)) = Some r'
    /\ metadata r' !! "X-Account-Meta-Color"
       = Some ("blue", "0000000150.00000").
Proof.
  intros req.
  assert (List.NoDup ["X-Account-Meta-Color"]) as Hnodup
    by (constructor; [intros []|constructor]).
  destruct (@POST_metadata_last_writer_wins Model.node Model.controller req
              (Model.account_world Model.active_account) "sda1" "0" "acct"
              "150" "0000000150.00000" Model.active_account
              "X-Account-Meta-Color" "blue"
              eq_refl eq_refl eq_refl eq_refl eq_refl eq_refl eq_refl
              Hnodup (or_introl eq_refl))
    as (r' & Hs & Hkey & _).
  exists r'. split; [exact Hs|exact Hkey].
Defined.

(** POST of a colour, then HEAD. *)
Lemma POST_then_HEAD_witness :
  let post := mkRequest "POST" "/sda1/0/acct"
                [("X-Timestamp", "150"); ("X-Account-Meta-Color", "blue")]
                [] "" "" in
  let head := mkRequest "HEAD" "/sda1/0/acct" [] [] "" "" in
  exists resp,
    answer (@HEAD Model.node Model.controller head)
      (after (@POST Model.node Model.controller post)
         (Model.account_world Model.active_account)) = inr resp
    /\ status resp = HTTPNoContent
    /\ In ("X-Account-Meta-Color", "blue") (resp_headers resp).
Proof.
  intros post head.
  assert (List.NoDup ["X-Account-Meta-Color"]) as Hnodup
    by (constructor; [intros []|constructor]).
  destruct (@POST_then_HEAD Model.node Model.controller post head
              (Model.account_world Model.active_account) "sda1" "0" "acct"
              "150" "0000000150.00000" Model.active_account
              "X-Account-Meta-Color" "blue" None "" "text/plain"
              eq_refl eq_refl eq_refl eq_refl eq_refl eq_refl eq_refl
              Hnodup (or_introl eq_refl) I eq_refl eq_refl eq_refl eq_refl
              eq_refl)
    as (resp & Hrun & Hstatus & Hshown & _).
  exists resp. split; [exact Hrun|]. split; [exact Hstatus|].
  apply Hshown. discriminate.
Defined.

(* ===================================================================== *)
(** ** Creating an account, then reading it *)
(* ===================================================================== *)

Section CreateThenRead.
Context `{Collaborators}.

Lemma PUT_account_fresh_record req b w given t :
  header_lookup (headers req) "x-timestamp" = Some given ->
  normalize_timestamp given = inr t ->
  stored b w = None ->
  exists w',
    PUT_account req b w = (inr (plain_response HTTPCreated), w')
    /\ stored b w' =
       Some (with_metadata (request_metadata req t)
               (mkAccount t t None Active ∅ ∅)).
Proof.
  intros Hgiven Hnorm Hs.
  unfold PUT_account, PUT_account_create, header_getitem; run.
  rewrite Hgiven, Hnorm, Hs.
  rewrite bool_decide_eq_false_2 by (intros [x Hx]; discriminate).
  cbn [negb]. rewrite (initialize_run b t w Hs).
  destruct (request_metadata req t) as [|item items]; cbn [nonempty].
  - eexists. split; [reflexivity|]. apply stored_written.
  - rewrite (update_metadata_run b _ _ (mkAccount t t None Active ∅ ∅))
      by apply stored_written.
    eexists. split; [reflexivity|]. apply stored_written.
Qed.

(** X16. An account PUT for an account without a database, followed by a
    HEAD: the PUT is answered 201 and the HEAD 204, showing the normalised
    timestamp of the PUT as X-PUT-Timestamp, zero containers, objects and
    bytes, and as X-Timestamp the creation time that the accessor has
    recorded, whatever it is. *)
Theorem PUT_then_HEAD self put head w drive part account container given t
    query_format req_accept out_content_type :
  split_path (path_info put) 3 4
    = inr [Some drive; Some part; Some account; container] ->
  Py.truthy_opt container = false ->
  validate_device_partition drive part = None ->
  insufficient_storage self drive = false ->
  header_lookup (headers put) "x-timestamp" = Some given ->
  normalize_timestamp given = inr t ->
  stored (_get_account_broker self drive part account) w = None ->
  split_and_validate head = inr (drive, part, account) ->
  get_param head "format" None = inr query_format ->
  (if Py.truthy_opt query_format
   then format_override (default "" query_format)
   else inr (accept head)) = inr req_accept ->
  best_match req_accept offered_types = Some out_content_type ->
  Py.truthy out_content_type = true ->
  answer (PUT self put) w = inr (plain_response HTTPCreated)
  /\ exists r,
       stored (_get_account_broker self drive part account)
         (after (PUT self put) w) = Some r
       /\ answer (HEAD self head) (after (PUT self put) w) =
            inr (mkResponse HTTPNoContent
                   ([("X-Account-Container-Count", "0");
                     ("X-Account-Object-Count", "0");
                     ("X-Account-Bytes-Used", "0");
                     ("X-Timestamp", created_at r);
                     ("X-PUT-Timestamp", t)]
                    ++ echoed_metadata r
                    ++ [("Content-Type", out_content_type)]) "" None).
Proof.
  intros Hsplit Hc Hvalid Hmounted Hgiven Hnorm Hs Hpath Hformat Haccept
    Hmatch Htruthy.
  unfold answer at 1, after.
  rewrite (PUT_account_path _ _ _ _ _ _ _ Hsplit Hc Hvalid Hmounted).
  destruct (PUT_account_fresh_record put _ w given t Hgiven Hnorm Hs)
    as (w' & -> & Hs').
  cbn [fst snd]. split; [reflexivity|].
  eexists. split; [exact Hs'|].
  rewrite (HEAD_live self head w' drive part account query_format req_accept
             out_content_type _ Hpath Hformat Haccept Hmatch Htruthy
             Hmounted Hs' eq_refl).
  unfold summary_headers, live_count, live_sum.
  cbn [with_metadata containers created_at put_timestamp].
  rewrite !map_fold_empty. reflexivity.
Qed.

End CreateThenRead.

(** The first example scenario, read back. *)
Lemma PUT_then_HEAD_witness :
  let put := mkRequest "PUT" "/sda1/0/acct" [("X-Timestamp", "100")] []
               "" "" in
  let head := mkRequest "HEAD" "/sda1/0/acct" [] [] "" "" in
  answer (@PUT Model.node Model.controller put) Model.empty_world
  = inr (plain_response HTTPCreated)
  /\ exists r,
       stored (@_get_account_broker Model.node Model.controller "sda1" "0"
                 "acct")
         (after (@PUT Model.node Model.controller put) Model.empty_world)
       = Some r
       /\ answer (@HEAD Model.node Model.controller head)
            (after (@PUT Model.node Model.controller put) Model.empty_world)
          = inr (mkResponse HTTPNoContent
                   ([("X-Account-Container-Count", "0");
                     ("X-Account-Object-Count", "0");
                     ("X-Account-Bytes-Used", "0");
                     ("X-Timestamp", created_at r);
                     ("X-PUT-Timestamp", "0000000100.00000")]
                    ++ @echoed_metadata r
                    ++ [("Content-Type", "text/plain")]) "" None).
Proof.
  intros put head.
  exact (@PUT_then_HEAD Model.node Model.controller put head
           Model.empty_world "sda1" "0" "acct" None "100"
           "0000000100.00000" None "" "text/plain" eq_refl eq_refl eq_refl
           eq_refl eq_refl eq_refl eq_refl eq_refl eq_refl eq_refl eq_refl
           eq_refl).
Defined.

(* ===================================================================== *)
(** ** Answers and failures of the handlers *)
(* ===================================================================== *)

Section Answers.
Context `{Collaborators}.

(** X7. DELETE never raises: whatever the request and the store, the handler
    itself returns a response, and its status is 400, 507, 404 or 204.
    The accessor calls it makes cannot fail, because it deletes only after
    [is_deleted] has found the database. *)
Theorem DELETE_always_answers self req w :
  exists resp,
    answer (DELETE self req) w = inr resp
    /\ In (status resp)
         [HTTPBadRequest; HTTPInsufficientStorage; HTTPNotFound;
          HTTPNoContent].
Proof.
  unfold answer, DELETE.
  destruct (split_and_validate req) as [err|[[drive part] account]];
    [eexists; split; [reflexivity|cbn; tauto]|].
  destruct (insufficient_storage self drive);
    [eexists; split; [reflexivity|cbn; tauto]|].
  destruct (negb (header_in req "x-timestamp") || _) eqn:Hcheck;
    [eexists; split; [reflexivity|cbn; tauto]|].
  run. rewrite is_deleted_run.
  set (b := _get_account_broker self drive part account).
  destruct (stored b w) as [r|] eqn:Hs.
  - destruct (record_deleted r).
    + rewrite _deleted_response_run.
      eexists; split; [reflexivity|cbn; tauto].
    + unfold header_getitem. apply orb_false_iff in Hcheck as [Hin _].
      unfold header_in in Hin.
      destruct (header_lookup (headers req) "x-timestamp") as [ts|];
        [|discriminate].
      rewrite (delete_db_run b ts _ r) by (rewrite stored_logged; exact Hs).
      rewrite _deleted_response_run.
      eexists; split; [reflexivity|cbn; tauto].
  - rewrite _deleted_response_run.
    eexists; split; [reflexivity|cbn; tauto].
Qed.

(** With nobody else writing, the account PUT among others is the
    handler's account PUT. *)
Lemma PUT_account_among_alone req b w :
  PUT_account_among (mret tt) req b w = PUT_account req b w.
Proof.
  unfold PUT_account_among, PUT_account, PUT_account_create_among,
    PUT_account_create; run.
  destruct (header_getitem req "x-timestamp") as [e|given]; [reflexivity|].
  destruct (normalize_timestamp given) as [e|t]; reflexivity.
Qed.

(** X8. The account PUT that finds no database at line 142, with other
    processes writing to the same storage before line 144. If the
    database is still missing the request creates it and is answered 201.
    If another process has created it meanwhile, [initialize] raises
    [DatabaseAlreadyExists], lines 146-147 pass over it without binding
    [created], the request's metadata is merged into the other process's
    record, and line 162 raises [UnboundLocalError]: the handler returns
    no response. *)
Theorem account_PUT_created_unbound others req b w w1 given t :
  header_lookup (headers req) "x-timestamp" = Some given ->
  normalize_timestamp given = inr t ->
  stored b w = None ->
  others w = (inr tt, w1) ->
  match stored b w1 with
  | None =>
      exists w' r,
        PUT_account_among others req b w
          = (inr (plain_response HTTPCreated), w')
        /\ stored b w' = Some r
        /\ put_timestamp r = t
  | Some r =>
      exists w',
        PUT_account_among others req b w
          = (inl (UnboundLocalError "created"), w')
        /\ stored b w'
           = Some (with_metadata (request_metadata req t) r)
  end.
Proof.
  intros Hgiven Hnorm Hs Hothers.
  unfold PUT_account_among, PUT_account_create_among, header_getitem; run.
  rewrite Hgiven, Hnorm, Hs.
  rewrite bool_decide_eq_false_2 by (intros [x Hx]; discriminate).
  cbn [negb]. rewrite Hothers.
  destruct (stored b w1) as [r|] eqn:Hs1.
  - unfold initialize; run. rewrite stored_logged, Hs1.
    rewrite bool_decide_eq_true_2 by eauto.
    destruct (request_metadata req t) as [|item items] eqn:Hmd;
      cbn [nonempty].
    + eexists. split; [reflexivity|].
      rewrite stored_logged, with_no_metadata. exact Hs1.
    + rewrite (update_metadata_run b _ _ r)
        by (rewrite stored_logged; exact Hs1).
      eexists. split; [reflexivity|]. apply stored_written.
  - rewrite (initialize_run b t w1 Hs1).
    destruct (nonempty (request_metadata req t)).
    + rewrite (update_metadata_run b _ _ (mkAccount t t None Active ∅ ∅))
        by apply stored_written.
      eexists _, _. split; [reflexivity|].
      rewrite stored_written. split; reflexivity.
    + eexists _, _. split; [reflexivity|].
      rewrite stored_written. split; reflexivity.
Qed.

(** X22. REPLICATE through the dispatcher, on a node that is not normal-only:
    a body that [json.load] rejects is answered with 400 and the
    replication engine is not called; otherwise the engine receives the
    three path segments and the parsed body, its response is returned as
    it is, and the database files are the ones it hands back. *)
Theorem REPLICATE_through_dispatcher self req w drive partition hash :
  check_utf8 (path_info req) = true ->
  method req = "REPLICATE" ->
  replication_server self <> Some false ->
  split_and_validate req = inr (drive, partition, hash) ->
  insufficient_storage self drive = false ->
  match json_load (wsgi_input req) with
  | inl err =>
      __call__ self req w = (inr (text_response HTTPBadRequest err), w)
  | inr args =>
      answer (__call__ self req) w =
        inr (fst (replicator_rpc_dispatch [drive; partition; hash] args
                    (dbs w)))
      /\ dbs (after (__call__ self req) w) =
         snd (replicator_rpc_dispatch [drive; partition; hash] args (dbs w))
  end.
Proof.
  intros Hutf Hmethod Hmode Hpath Hmounted. unfold answer, after.
  assert (__call__ self req w =
          try_except (REPLICATE self req)
            (fun e => Some (mret (body_response HTTPInternalServerError
                                    (format_exc e)))) w) as ->.
  { unfold __call__, resolve_method. rewrite Hutf, Hmethod. cbn [negb].
    change (getattr_self "REPLICATE") with (Some (Method H_REPLICATE)).
    cbn [publicly_accessible negb replication].
    destruct (replication_server self) as [[|]|]; try congruence;
      reflexivity. }
  unfold try_except, REPLICATE, rpc_dispatch.
  rewrite Hpath, Hmounted.
  destruct (json_load (wsgi_input req)) as [err|args]; [reflexivity|].
  destruct (replicator_rpc_dispatch _ _ _) as [resp files].
  split; reflexivity.
Qed.

End Answers.

(** Two account PUTs for the same new account, at 100 and at 90, the
    second one creating the database inside the first one's window: the
    first raises, after merging its metadata into the second one's
    record. *)
Lemma account_PUT_created_unbound_witness :
  let b := @_get_account_broker Model.node Model.controller "sda1" "0"
             "acct" in
  let req := mkRequest "PUT" "/sda1/0/acct"
               [("X-Timestamp", "100"); ("X-Account-Meta-Color", "blue")]
               [] "" "" in
  let other := mkRequest "PUT" "/sda1/0/acct" [("X-Timestamp", "90")] []
                 "" "" in
  let others := _ ← @PUT Model.node Model.controller other; mret tt in
  exists w' r,
    @PUT_account_among Model.node others req b Model.empty_world
      = (inl (UnboundLocalError "created"), w')
    /\ stored b w' = Some r
    /\ put_timestamp r = "0000000090.00000"
    /\ metadata r !! "X-Account-Meta-Color"
       = Some ("blue", "0000000100.00000").
Proof.
  intros b req other others.
  destruct (@account_PUT_created_unbound Model.node others req b
              Model.empty_world (snd (others Model.empty_world)) "100"
              "0000000100.00000" eq_refl eq_refl eq_refl eq_refl)
    as (w' & Hrun & Hs).
  exists w'. eexists. split; [exact Hrun|]. split; [exact Hs|].
  split; reflexivity.
Defined.

(** REPLICATE with an empty body on a replication-only node. *)
Lemma REPLICATE_through_dispatcher_witness :
  let self := @__init__ Model.node [("replication_server", "true")] in
  let req := mkRequest "REPLICATE" "/sda1/0/abc" [] [] "" "" in
  @__call__ Model.node self req Model.empty_world =
    (inr (text_response HTTPBadRequest "No JSON object could be decoded"),
     Model.empty_world).
Proof.
  intros self req.
  exact (@REPLICATE_through_dispatcher Model.node self req Model.empty_world
           "sda1" "0" "abc" eq_refl eq_refl
           ltac:(discriminate) eq_refl eq_refl).
Defined.

(** Two normalised timestamps, compared as the container PUT compares
    them. *)
Lemma fixed_format_string_order_witness :
  Py.str_gt "0000000020.00000" "0000000010.50000" = true
  <-> (Model.timestamp_value "0000000010.50000"
       < Model.timestamp_value "0000000020.00000")%Q.
Proof.
  exact (fixed_format_string_order "0000000010.50000" "0000000020.00000"
           eq_refl eq_refl).
Defined.
